(** * libssh poll.c: the poll context, its dispatch cycle and the emulated wait

    A shallow embedding of [src/libssh/poll.c].  The C heap is a pair of
    finite maps from addresses to [struct ssh_poll] and [struct ssh_poll_ctx]
    objects; the two arrays of a context are kept inside the context record
    (they are owned by it and never aliased).  Every function threads the
    heap explicitly and runs in a small three-valued monad: it returns, or it
    performs an access C leaves undefined, or it exhausts the iteration
    budget given to a loop that need not terminate. *)

From stdpp Require Import gmap list.
From Stdlib Require Import ZArith Lia.
From Equations Require Import Equations.

Local Open Scope Z_scope.

(** ** Outcome monad *)

Inductive run (A : Type) : Type :=
| Done (a : A)        (* the call returns [a] *)
| Undefined           (* NULL or dangling dereference, access outside a block *)
| OutOfFuel.          (* the loop budget ran out *)
Arguments Done {A} a.
Arguments Undefined {A}.
Arguments OutOfFuel {A}.

#[global] Instance run_ret : MRet run := fun A a => Done a.
#[global] Instance run_bind : MBind run := fun A B f m =>
  match m with
  | Done a => f a
  | Undefined => Undefined
  | OutOfFuel => OutOfFuel
  end.

Definition deref {A} (o : option A) : run A :=
  match o with Some a => Done a | None => Undefined end.

(** ** Machine integers and addresses *)

(** [size_t] is taken to be 64 bits wide; [sz] is its wrap-around. *)
Definition SIZE_WIDTH : Z := 64.
Definition sz (z : Z) : Z := z mod 2 ^ SIZE_WIDTH.

Definition ptr := nat.
Definition NULL : ptr := 0%nat.
Definition funptr := nat.

(** ** Data model *)

(** Modelled from the spec: the type [pollfd_t] is declared in a header that
    is not among the sources; it is the raw (descriptor, requested events,
    returned events) record handed to the wait primitive. *)
Module pollfd.
Record t := mk { fd : Z; events : Z; revents : Z }.
Definition set_fd (v : Z) (r : t) := mk v (events r) (revents r).
Definition set_events (v : Z) (r : t) := mk (fd r) v (revents r).
Definition set_revents (v : Z) (r : t) := mk (fd r) (events r) v.
(** contents of a cell that was allocated and never written *)
Definition junk : t := mk 0 0 0.
End pollfd.

(** [struct ssh_poll].  The anonymous union of [fd] and [idx] is one cell,
    [fd_idx]: writing either member overwrites the other. *)
Module poll.
Record t := mk {
  ctx : ptr;            (* SSH_POLL_CTX *ctx *)
  fd_idx : Z;           (* union { socket_t fd; size_t idx; } *)
  events : Z;           (* short events *)
  cb : funptr;          (* ssh_poll_callback cb *)
  cb_data : Z           (* void *cb_data *)
}.
Definition set_ctx (v : ptr) (p : t) := mk v (fd_idx p) (events p) (cb p) (cb_data p).
Definition set_fd_idx (v : Z) (p : t) := mk (ctx p) v (events p) (cb p) (cb_data p).
Definition set_events (v : Z) (p : t) := mk (ctx p) (fd_idx p) v (cb p) (cb_data p).
Definition set_cb (f : funptr) (d : Z) (p : t) := mk (ctx p) (fd_idx p) (events p) f d.
End poll.

(** [struct ssh_poll_ctx].  An array field is [None] when the pointer is
    NULL and otherwise the block it points to, one list element per
    allocated cell (so cells at or beyond [polls_used] keep stale data). *)
Module pctx.
Record t := mk {
  pollptrs : option (list ptr);
  pollfds : option (list pollfd.t);
  polls_allocated : Z;
  polls_used : Z;
  chunk_size : Z
}.
Definition set_pollptrs v (c : t) :=
  mk v (pollfds c) (polls_allocated c) (polls_used c) (chunk_size c).
Definition set_pollfds v (c : t) :=
  mk (pollptrs c) v (polls_allocated c) (polls_used c) (chunk_size c).
Definition set_polls_allocated v (c : t) :=
  mk (pollptrs c) (pollfds c) v (polls_used c) (chunk_size c).
Definition set_polls_used v (c : t) :=
  mk (pollptrs c) (pollfds c) (polls_allocated c) v (chunk_size c).
End pctx.

(** The heap.  [brk] is the next address [malloc] hands out and
    [alloc_script] lists the outcomes of the coming allocation requests
    ([true]: granted); an exhausted script grants every request. *)
Record world := World {
  polls : gmap ptr poll.t;
  ctxs : gmap ptr pctx.t;
  brk : ptr;
  alloc_script : list bool
}.

Definition set_polls (m : gmap ptr poll.t) (w : world) : world :=
  World m (ctxs w) (brk w) (alloc_script w).
Definition set_ctxs (m : gmap ptr pctx.t) (w : world) : world :=
  World (polls w) m (brk w) (alloc_script w).

Definition store_poll (p : ptr) (e : poll.t) (w : world) : world :=
  set_polls (<[p := e]> (polls w)) w.
Definition store_ctx (c : ptr) (cx : pctx.t) (w : world) : world :=
  set_ctxs (<[c := cx]> (ctxs w)) w.

Definition load_poll (p : ptr) (w : world) : run poll.t := deref (polls w !! p).
Definition load_ctx (c : ptr) (w : world) : run pctx.t := deref (ctxs w !! c).

Definition empty_world : world := World ∅ ∅ 1%nat [].

(** What a caller can observe of a dispatch or a teardown. *)
Inductive freed := Pollptrs_block | Pollfds_block | Ctx_object.
Inductive obs :=
| Callback (p : ptr) (fd revents : Z) (userdata : Z)   (* p->cb(p, fd, revents, p->cb_data) *)
| Wait (nfds timeout : Z)                              (* ssh_poll(ctx->pollfds, nfds, timeout) *)
| Free (c : ptr) (b : freed).                          (* free() of a block of context c *)

(** Modelled from the spec: the type [ssh_poll_callback] is declared in a
    header that is not among the sources; the callback signature is
    (event, descriptor, returned events, data) giving the removal value or
    not.  A callback is client code: it may change the heap in any way. *)
Definition callback := ptr → Z → Z → Z → world → run (Z * world).

(** Modelled from the spec: the macro [SAFE_FREE] is defined in a header
    that is not among the sources; teardown frees both sequences and the
    context.  On an array field: the block, if any, is freed and the field
    becomes NULL. *)
Definition SAFE_FREE {A} (c : ptr) (b : freed) (a : option (list A))
  : option (list A) * list obs :=
  (None, if a is Some _ then [Free c b] else []).

(** ** Allocation *)

Definition next_alloc (w : world) : bool * world :=
  match alloc_script w with
  | [] => (true, w)
  | b :: s => (b, World (polls w) (ctxs w) (brk w) s)
  end.

(** [malloc]: NULL on failure, else a fresh address. *)
Definition malloc (w : world) : ptr * world :=
  let '(ok, w1) := next_alloc w in
  if ok then (brk w1, World (polls w1) (ctxs w1) (S (brk w1)) (alloc_script w1))
  else (NULL, w1).

(** [realloc(block, n * sizeof(T))] seen at the level of cells: on success
    the first [n] cells are kept and new cells hold [junk]; on failure the
    result is NULL and the old block stays as it was.  The byte count
    [sizeof(T) * n] is assumed not to wrap. *)
Definition resize_block {A} (junk : A) (n : Z) (old : option (list A)) : list A :=
  let l := default [] old in
  take (Z.to_nat n) l ++ replicate (Z.to_nat n - length l)%nat junk.

Definition realloc {A} (junk : A) (old : option (list A)) (n : Z) (w : world)
  : option (list A) * world :=
  let '(ok, w1) := next_alloc w in
  if ok then (Some (resize_block junk n old), w1) else (None, w1).

(** [a[i]] and [a[i] = v] on an array field. *)
Definition arr_get {A} (a : option (list A)) (i : Z) : run A :=
  match a with
  | None => Undefined
  | Some l => if (0 <=? i) && (i <? Z.of_nat (length l)) then deref (l !! Z.to_nat i)
              else Undefined
  end.

Definition arr_set {A} (a : option (list A)) (i : Z) (v : A) : run (option (list A)) :=
  match a with
  | None => Undefined
  | Some l => if (0 <=? i) && (i <? Z.of_nat (length l)) then Done (Some (<[Z.to_nat i := v]> l))
              else Undefined
  end.

(** ** Poll events: creation and accessors *)

Definition SSH_POLL_CTX_CHUNK : Z := 5.

Definition ssh_poll_new (fd events : Z) (cb : funptr) (userdata : Z) (w : world)
  : ptr * world :=
  let '(p, w1) := malloc w in
  if decide (p = NULL) then (p, w1)
  else (p, store_poll p (poll.mk NULL fd events cb userdata) w1).

(** [SAFE_FREE(p)]: [free] when the pointer is not NULL. *)
Definition ssh_poll_free (p : ptr) (w : world) : run world :=
  if decide (p = NULL) then Done w
  else _ ← load_poll p w; Done (set_polls (delete p (polls w)) w).

Definition ssh_poll_get_ctx (p : ptr) (w : world) : run ptr :=
  e ← load_poll p w; Done (poll.ctx e).

Definition ssh_poll_get_events (p : ptr) (w : world) : run Z :=
  e ← load_poll p w; Done (poll.events e).

Definition ssh_poll_set_events (p : ptr) (events : Z) (w : world) : run world :=
  e ← load_poll p w;
  let w1 := store_poll p (poll.set_events events e) w in
  if decide (poll.ctx e = NULL) then Done w1
  else
    cx ← load_ctx (poll.ctx e) w1;
    r ← arr_get (pctx.pollfds cx) (poll.fd_idx e);
    a ← arr_set (pctx.pollfds cx) (poll.fd_idx e) (pollfd.set_events events r);
    Done (store_ctx (poll.ctx e) (pctx.set_pollfds a cx) w1).

Definition ssh_poll_add_events (p : ptr) (events : Z) (w : world) : run world :=
  old ← ssh_poll_get_events p w;
  ssh_poll_set_events p (Z.lor old events) w.

Definition ssh_poll_remove_events (p : ptr) (events : Z) (w : world) : run world :=
  old ← ssh_poll_get_events p w;
  ssh_poll_set_events p (Z.land old (Z.lnot events)) w.

Definition ssh_poll_get_fd (p : ptr) (w : world) : run Z :=
  e ← load_poll p w;
  if decide (poll.ctx e = NULL) then Done (poll.fd_idx e)
  else
    cx ← load_ctx (poll.ctx e) w;
    r ← arr_get (pctx.pollfds cx) (poll.fd_idx e);
    Done (pollfd.fd r).

Definition ssh_poll_set_callback (p : ptr) (cb : funptr) (userdata : Z) (w : world)
  : run world :=
  if decide (cb = NULL) then Done w
  else e ← load_poll p w; Done (store_poll p (poll.set_cb cb userdata e) w).

(** ** Poll contexts: creation, resize, attach, detach *)

Definition ssh_poll_ctx_new (chunk_size : Z) (w : world) : ptr * world :=
  let '(c, w1) := malloc w in
  if decide (c = NULL) then (c, w1)
  else
    let chunk_size := if chunk_size =? 0 then SSH_POLL_CTX_CHUNK else chunk_size in
    (c, store_ctx c (pctx.mk None None 0 0 chunk_size) w1).

Definition ssh_poll_ctx_resize (c : ptr) (new_size : Z) (w : world) : run (Z * world) :=
  cx ← load_ctx c w;
  let '(pollptrs, w1) := realloc NULL (pctx.pollptrs cx) new_size w in
  match pollptrs with
  | None => Done (-1, w1)
  | Some _ =>
    let '(pollfds, w2) := realloc pollfd.junk (pctx.pollfds cx) new_size w1 in
    match pollfds with
    | None =>
      let '(back, w3) := realloc NULL pollptrs (pctx.polls_allocated cx) w2 in
      Done (-1, store_ctx c (pctx.set_pollptrs back cx) w3)
    | Some _ =>
      Done (0, store_ctx c
                 (pctx.set_polls_allocated new_size
                    (pctx.set_pollfds pollfds (pctx.set_pollptrs pollptrs cx))) w2)
    end
  end.

Definition ssh_poll_ctx_add (c p : ptr) (w : world) : run (Z * world) :=
  e ← load_poll p w;
  if decide (poll.ctx e ≠ NULL) then Done (-1, w)     (* already attached to a context *)
  else
    cx ← load_ctx c w;
    '(rc, w1) ← (if pctx.polls_used cx =? pctx.polls_allocated cx
                 then ssh_poll_ctx_resize c (sz (pctx.polls_allocated cx + pctx.chunk_size cx)) w
                 else Done (0, w));
    if rc <? 0 then Done (-1, w1)
    else
      cx ← load_ctx c w1;
      let fd := poll.fd_idx e in
      let idx := pctx.polls_used cx in                       (* p->idx = ctx->polls_used++ *)
      let cx := pctx.set_polls_used (sz (idx + 1)) cx in
      pp ← arr_set (pctx.pollptrs cx) idx p;                 (* ctx->pollptrs[p->idx] = p *)
      pf ← arr_set (pctx.pollfds cx) idx
             (pollfd.mk fd (poll.events e) 0);               (* .fd, .events, .revents *)
      let cx := pctx.set_pollfds pf (pctx.set_pollptrs pp cx) in
      let e := poll.set_ctx c (poll.set_fd_idx idx e) in     (* p->ctx = ctx *)
      Done (0, store_poll p e (store_ctx c cx w1)).

Definition ssh_poll_ctx_remove (c p : ptr) (w : world) : run world :=
  e ← load_poll p w;
  cx ← load_ctx c w;
  let i := poll.fd_idx e in                                  (* i = p->idx *)
  r ← arr_get (pctx.pollfds cx) i;
  let e := poll.set_ctx NULL (poll.set_fd_idx (pollfd.fd r) e) in
  let used := sz (pctx.polls_used cx - 1) in                 (* ctx->polls_used-- *)
  let cx := pctx.set_polls_used used cx in
  (* fill the empty poll slot with the last one *)
  cx ← (if (used >? 0) && negb (used =? i) then
          lastfd ← arr_get (pctx.pollfds cx) used;
          pf ← arr_set (pctx.pollfds cx) i lastfd;
          lastptr ← arr_get (pctx.pollptrs cx) used;
          pp ← arr_set (pctx.pollptrs cx) i lastptr;
          Done (pctx.set_pollptrs pp (pctx.set_pollfds pf cx))
        else Done cx);
  let w1 := store_ctx c cx (store_poll p e w) in
  (* this will always leave at least chunk_size polls allocated *)
  if sz (pctx.polls_allocated cx - pctx.polls_used cx) >? pctx.chunk_size cx then
    '(_, w2) ← ssh_poll_ctx_resize c (sz (pctx.polls_allocated cx - pctx.chunk_size cx)) w1;
    Done w2
  else Done w1.

(** ** Teardown and dispatch

    Both run client callbacks.  [code] resolves a function pointer to the
    behaviour of the function it points to; [POLLERR] is the platform's
    error-readiness bit; [ssh_poll] is the wait primitive in use (native or
    emulated), given the [pollfds] pointer, the count and the timeout and
    returning its result together with the block as it left it. *)

Section Callbacks.

Variable code : funptr → callback.
Variable POLLERR : Z.
Variable ssh_poll : option (list pollfd.t) → Z → Z → Z * option (list pollfd.t).

(** One pass of the body of the teardown [for] loop (the caller has checked
    [i < used]); yields the next [i] and [used]. *)
Definition ssh_poll_ctx_free_body (c : ptr) (i used : Z) (w : world)
  : run (Z * Z * world * obs) :=
  cx ← load_ctx c w;
  p ← arr_get (pctx.pollptrs cx) i;
  r ← arr_get (pctx.pollfds cx) i;
  let fd := pollfd.fd r in
  e ← load_poll p w;
  (* force poll object removal *)
  '(rc, w1) ← code (poll.cb e) p fd POLLERR (poll.cb_data e) w;
  let o := Callback p fd POLLERR (poll.cb_data e) in
  if rc <? 0 then
    cx1 ← load_ctx c w1; Done (i, pctx.polls_used cx1, w1, o)
  else Done (i + 1, used, w1, o).   (* i < used: i++ cannot wrap *)

Fixpoint ssh_poll_ctx_free_loop (fuel : nat) (c : ptr) (i used : Z) (w : world)
  (log : list obs) : run (world * list obs) :=
  if i <? used then
    match fuel with
    | O => OutOfFuel
    | S fuel =>
      '(i1, used1, w1, o) ← ssh_poll_ctx_free_body c i used w;
      ssh_poll_ctx_free_loop fuel c i1 used1 w1 (log ++ [o])
    end
  else Done (w, log).

(** The sweep, [SAFE_FREE] of the two array fields, then of the context
    itself. *)
Definition ssh_poll_ctx_free (fuel : nat) (c : ptr) (w : world)
  : run (world * list obs) :=
  cx ← load_ctx c w;
  '(w1, log) ← (if pctx.polls_allocated cx >? 0 then
                  '(w1, log) ← ssh_poll_ctx_free_loop fuel c 0 (pctx.polls_used cx) w [];
                  cx1 ← load_ctx c w1;
                  let '(pp, f1) := SAFE_FREE c Pollptrs_block (pctx.pollptrs cx1) in
                  let cx1 := pctx.set_pollptrs pp cx1 in
                  let '(pf, f2) := SAFE_FREE c Pollfds_block (pctx.pollfds cx1) in
                  let cx1 := pctx.set_pollfds pf cx1 in
                  Done (store_ctx c cx1 w1, (log ++ f1) ++ f2)
                else Done (w, []));
  if decide (c = NULL) then Done (w1, log)
  else Done (set_ctxs (delete c (ctxs w1)) w1, log ++ [Free c Ctx_object]).

(** The state of the dispatch walk: index, cached [used], remaining [rc]. *)
Record walk := Walk { w_i : Z; w_used : Z; w_rc : Z }.

(** One pass of the body of the dispatch [for] loop (the caller has checked
    [i < used && rc > 0]). *)
Definition ssh_poll_ctx_body (c : ptr) (s : walk) (w : world)
  : run (walk * world * list obs) :=
  let '(Walk i used rc) := s in
  cx ← load_ctx c w;
  r ← arr_get (pctx.pollfds cx) i;
  if pollfd.revents r =? 0 then Done (Walk (i + 1) used rc, w, [])   (* i < used: no wrap *)
  else
    p ← arr_get (pctx.pollptrs cx) i;
    let fd := pollfd.fd r in
    let revents := pollfd.revents r in
    e ← load_poll p w;
    '(res, w1) ← code (poll.cb e) p fd revents (poll.cb_data e) w;
    let o := Callback p fd revents (poll.cb_data e) in
    if res <? 0 then
      (* the poll was removed, reload the used counter and stall the loop *)
      cx1 ← load_ctx c w1;
      Done (Walk i (pctx.polls_used cx1) (rc - 1), w1, [o])
    else
      cx1 ← load_ctx c w1;
      r1 ← arr_get (pctx.pollfds cx1) i;
      pf ← arr_set (pctx.pollfds cx1) i (pollfd.set_revents 0 r1);
      Done (Walk (i + 1) used (rc - 1), store_ctx c (pctx.set_pollfds pf cx1) w1, [o]).

Fixpoint ssh_poll_ctx_loop (fuel : nat) (c : ptr) (s : walk) (w : world)
  (log : list obs) : run (Z * world * list obs) :=
  if (w_i s <? w_used s) && (w_rc s >? 0) then
    match fuel with
    | O => OutOfFuel
    | S fuel =>
      '(s1, w1, o) ← ssh_poll_ctx_body c s w;
      ssh_poll_ctx_loop fuel c s1 w1 (log ++ o)
    end
  else Done (w_rc s, w, log).

Definition ssh_poll_ctx (fuel : nat) (c : ptr) (timeout : Z) (w : world)
  : run (Z * world * list obs) :=
  cx ← load_ctx c w;
  if pctx.polls_used cx =? 0 then Done (0, w, [])
  else
    let '(rc, fds) := ssh_poll (pctx.pollfds cx) (pctx.polls_used cx) timeout in
    let w1 := store_ctx c (pctx.set_pollfds fds cx) w in
    let log := [Wait (pctx.polls_used cx) timeout] in
    if rc >? 0 then ssh_poll_ctx_loop fuel c (Walk 0 (pctx.polls_used cx) rc) w1 log
    else Done (rc, w1, log).

End Callbacks.

(** ** The emulated wait primitive (the [_WIN32] branch without [WSAPoll]) *)

(** 32-bit conversions: to [DWORD] and to [int]. *)
Definition u32 (z : Z) : Z := z mod 2 ^ 32.
Definition i32 (z : Z) : Z := (z + 2 ^ 31) mod 2 ^ 32 - 2 ^ 31.

(** The constants of the Windows headers that the branch uses; the sources
    do not define them.  All but the last are [DWORD] values; the last is
    the size of the handle array. *)
Record winapi := Winapi {
  INFINITE : Z;
  WAIT_FAILED : Z;
  WAIT_TIMEOUT : Z;
  WAIT_IO_COMPLETION : Z;
  WAIT_OBJECT_0 : Z;
  MAXIMUM_WAIT_OBJECTS : Z
}.

(** Their values in the Windows SDK: 0xFFFFFFFF, 0xFFFFFFFF, 258, 0xC0, 0
    and 64. *)
Definition win32 : winapi := Winapi 4294967295 4294967295 258 192 0 64.

Inductive errno_t := EFAULT | EINVAL | EBADF.

(** The system calls the emulation makes, in order. *)
Inductive syscall :=
| SleepEx (ms alertable : Z)
| WaitForMultipleObjectsEx (n : Z) (handles : list Z) (wait_all ms alertable : Z).

(** State threaded through [poll_rest]: the caller's [handles] array, the
    [fds] block and the system calls made so far. *)
Record emu := Emu { st_handles : list Z; st_fds : list pollfd.t; st_log : list syscall }.

(** Result of the emulated [ssh_poll]. *)
Record polled := Polled {
  rc : Z;
  out_fds : option (list pollfd.t);
  calls : list syscall;
  errno : option errno_t
}.

(** [for (i = 0; i < nhandles; i++) if (handles[i] == h) break;] run for
    [n] remaining passes from index [i]; the value of [i] after the loop. *)
Fixpoint find_handle (n : nat) (i : Z) (handles : list Z) (h : Z) : Z :=
  match n with
  | O => i
  | S n => if nth (Z.to_nat i) handles 0 =? h then i
           else find_handle n (i + 1) handles h
  end.

(** [for (f = fds; f < &fds[nfds]; f++) if ((HANDLE) f->fd == h) f->revents = f->events;] *)
Definition mark_fired (h : Z) (nfds : Z) (fds : list pollfd.t) : list pollfd.t :=
  ((λ f, if pollfd.fd f =? h then pollfd.set_revents (pollfd.events f) f else f)
     <$> take (Z.to_nat nfds) fds)
  ++ drop (Z.to_nat nfds) fds.

(** [for (f = fds; f < &fds[nfds]; f++) f->revents = 0;] *)
Definition clear_revents (nfds : Z) (fds : list pollfd.t) : list pollfd.t :=
  (pollfd.set_revents 0 <$> take (Z.to_nat nfds) fds) ++ drop (Z.to_nat nfds) fds.

(** [for (i = ...; i < nhandles; i++) handles[i-1] = handles[i];] run for
    [n] passes from index [i]. *)
Fixpoint shift_handles (n : nat) (i : Z) (handles : list Z) : list Z :=
  match n with
  | O => handles
  | S n => shift_handles n (i + 1) (<[Z.to_nat (i - 1) := nth (Z.to_nat i) handles 0]> handles)
  end.

Section Emulation.

Variable K : winapi.

(** What the system's [WaitForMultipleObjectsEx] answers, given the calls
    made before and its arguments (count, handles, bWaitAll, ms, bAlertable). *)
Variable wait_result : list syscall → Z → list Z → Z → Z → Z → Z.

(** The loop of [ssh_poll] that gathers the distinct handles of the cells
    [fs], from the state [(handles, nhandles)]. *)
Fixpoint collect_handles (fs : list pollfd.t) (handles : list Z) (nhandles : Z)
  : list Z * Z :=
  match fs with
  | [] => (handles, nhandles)
  | f :: fs =>
    if pollfd.fd f >? 0 then
      let i := find_handle (Z.to_nat nhandles) 0 handles (pollfd.fd f) in
      if i =? nhandles then
        if nhandles =? MAXIMUM_WAIT_OBJECTS K then (handles, nhandles)     (* break *)
        else collect_handles fs (<[Z.to_nat nhandles := pollfd.fd f]> handles) (nhandles + 1)
      else collect_handles fs handles nhandles
    else collect_handles fs handles nhandles
  end.

(** The first step of [poll_rest]: sleep or wait; the [DWORD ready]. *)
Definition poll_rest_ready (handles : list Z) (nhandles timeout : Z) (log : list syscall)
  : Z * list syscall :=
  if nhandles =? 0 then
    (* No handles to wait for, just the timeout *)
    if u32 timeout =? INFINITE K then (WAIT_FAILED K, log)
    else (WAIT_TIMEOUT K, log ++ [SleepEx (u32 timeout) 1])
  else
    (* Wait for just handles *)
    let hs := take (Z.to_nat nhandles) handles in
    (u32 (wait_result log (u32 nhandles) hs 0 (u32 timeout) 1),
     log ++ [WaitForMultipleObjectsEx (u32 nhandles) hs 0 (u32 timeout) 1]).

Equations? poll_rest (handles : list Z) (nhandles : Z) (fds : list pollfd.t)
  (nfds timeout : Z) (log : list syscall) : Z * emu by wf (Z.to_nat nhandles) lt :=
poll_rest handles nhandles fds nfds timeout log :=
  let '(ready, log1) := poll_rest_ready handles nhandles timeout log in
  if ready =? WAIT_FAILED K then (-1, Emu handles fds log1)
  else if (ready =? WAIT_TIMEOUT K) || (ready =? WAIT_IO_COMPLETION K) then
    (0, Emu handles fds log1)
  else if (ready >=? WAIT_OBJECT_0 K) && (ready <? u32 (WAIT_OBJECT_0 K + nhandles)) then
    let fds1 :=
      mark_fired (nth (Z.to_nat (u32 (ready - WAIT_OBJECT_0 K))) handles 0) nfds fds in
    (* If no timeout and polling several handles, recurse to poll the rest of them. *)
    match decide (timeout = 0 ∧ nhandles > 1) with
    | left _ =>
      (* Remove the handle that fired *)
      let handles1 :=
        if ready <? u32 (nhandles - 1) then
          let i := i32 (u32 (ready - WAIT_OBJECT_0 K + 1)) in
          shift_handles (Z.to_nat (nhandles - i)) i handles
        else handles in
      let '(recursed_result, st) := poll_rest handles1 (nhandles - 1) fds1 nfds 0 log1 in
      if recursed_result <? 0 then (-1, st) else (recursed_result + 1, st)
    | right _ => (1, Emu handles fds1 log1)
    end
  else (0, Emu handles fds log1).
Proof. lia. Qed.

Definition ssh_poll (fds : option (list pollfd.t)) (nfds timeout : Z) : polled :=
  match fds with
  | None => Polled (-1) fds [] (Some EFAULT)
  | Some cells =>
    if nfds >=? MAXIMUM_WAIT_OBJECTS K then Polled (-1) fds [] (Some EINVAL)
    else
      let '(handles, nhandles) :=
        collect_handles (take (Z.to_nat nfds) cells)
                        (replicate (Z.to_nat (MAXIMUM_WAIT_OBJECTS K)) 0) 0 in
      let timeout := if timeout =? -1 then i32 (INFINITE K) else timeout in
      let '(rc, st) :=
        if nhandles >? 1 then
          (* First check if one or several of them are immediately available. *)
          let '(rc, st) := poll_rest handles nhandles cells nfds 0 [] in
          if (rc =? 0) && ((u32 timeout =? INFINITE K) || (timeout >=? 10)) then
            poll_rest (st_handles st) nhandles (st_fds st) nfds timeout (st_log st)
          else (rc, st)
        else
          (* Just polling for one thing *)
          poll_rest handles nhandles cells nfds timeout [] in
      if rc <? 0 then
        Polled rc (Some (clear_revents nfds (st_fds st))) (st_log st) (Some EBADF)
      else Polled rc (Some (st_fds st)) (st_log st) None
  end.

End Emulation.


(** ** Sample clients and heaps

    Concrete callbacks and a builder of populated contexts, used to run the
    functions above on explicit inputs. *)

(** Leaves the set alone and reports that the entry was consumed. *)
Definition cb_keep : callback := λ p fd revents userdata w, Done (0, w).

(** Detaches its own event and returns the removal value. *)
Definition cb_detach_self : callback := λ p fd revents userdata w,
  c ← ssh_poll_get_ctx p w;
  w1 ← ssh_poll_ctx_remove c p w;
  Done (-1, w1).

(** Detaches the event whose address is its user data, then its own. *)
Definition cb_detach_both : callback := λ p fd revents userdata w,
  c ← ssh_poll_get_ctx p w;
  w1 ← ssh_poll_ctx_remove c (Z.to_nat userdata) w;
  w2 ← ssh_poll_ctx_remove c p w1;
  Done (-1, w2).

(** Detaches its own event if it is attached, returning the removal value;
    reports the entry consumed when the event is detached already. *)
Definition cb_detach_if_attached : callback := λ p fd revents userdata w,
  c ← ssh_poll_get_ctx p w;
  if decide (c = NULL) then Done (0, w)
  else w1 ← ssh_poll_ctx_remove c p w; Done (-1, w1).

Definition sample_code (f : funptr) : callback :=
  match f with
  | 1%nat => cb_keep
  | 2%nat => cb_detach_self
  | 3%nat => cb_detach_both
  | 4%nat => cb_detach_if_attached
  | _ => λ _ _ _ _ _, Undefined
  end.

(** Creates one event per [(fd, events, cb, userdata)] and attaches it. *)
Fixpoint attach_all (c : ptr) (evs : list (Z * Z * funptr * Z)) (w : world)
  : run (list ptr * world) :=
  match evs with
  | [] => Done ([], w)
  | (fd, events, cb, userdata) :: evs =>
    let '(p, w1) := ssh_poll_new fd events cb userdata w in
    '(_, w2) ← ssh_poll_ctx_add c p w1;
    '(ps, w3) ← attach_all c evs w2;
    Done (p :: ps, w3)
  end.

(** A fresh context of the given chunk size holding the given events.  The
    context is at address 1 and the events follow at 2, 3, ... *)
Definition populated (chunk : Z) (evs : list (Z * Z * funptr * Z)) : run (ptr * list ptr * world) :=
  let '(c, w) := ssh_poll_ctx_new chunk empty_world in
  '(ps, w1) ← attach_all c evs w;
  Done (c, ps, w1).

Definition slot_ptr (c : ptr) (i : Z) (w : world) : run ptr :=
  cx ← load_ctx c w; arr_get (pctx.pollptrs cx) i.
Definition slot_fd (c : ptr) (i : Z) (w : world) : run Z :=
  cx ← load_ctx c w; r ← arr_get (pctx.pollfds cx) i; Done (pollfd.fd r).
Definition used_of (c : ptr) (w : world) : run Z :=
  cx ← load_ctx c w; Done (pctx.polls_used cx).
Definition allocated_of (c : ptr) (w : world) : run Z :=
  cx ← load_ctx c w; Done (pctx.polls_allocated cx).
Definition idx_of (p : ptr) (w : world) : run Z :=
  e ← load_poll p w; Done (poll.fd_idx e).

(** Heaps obtained by running the builder. *)
Definition world_of (r : run (ptr * list ptr * world)) : world :=
  match r with Done (_, _, w) => w | _ => empty_world end.

(** One event (descriptor 10) attached to the context at address 1. *)
Definition one_attached : world := world_of (populated 0 [(10, 1, 1%nat, 0)]).

(** The chunk-2 scenario: a context of chunk size 2, events for the
    descriptors 10, 11 and 12 attached in turn, then the event of
    descriptor 11 detached.  Recorded: the capacity after creation and after
    each attach, the used count after the three attaches, and slot 1, the
    used count and the capacity after the detach. *)
Record chunk2_trace := Chunk2 {
  caps : list Z;
  used3 : Z;
  ev12 : ptr;
  slot1_ptr : ptr;
  slot1_fd : Z;
  used_after : Z;
  cap_after : Z
}.

Definition chunk2_scenario : run chunk2_trace :=
  let '(c, w0) := ssh_poll_ctx_new 2 empty_world in
  let '(p10, w0a) := ssh_poll_new 10 1 1%nat 0 w0 in
  '(_, w1) ← ssh_poll_ctx_add c p10 w0a;
  let '(p11, w1a) := ssh_poll_new 11 1 1%nat 0 w1 in
  '(_, w2) ← ssh_poll_ctx_add c p11 w1a;
  let '(p12, w2a) := ssh_poll_new 12 1 1%nat 0 w2 in
  '(_, w3) ← ssh_poll_ctx_add c p12 w2a;
  a0 ← allocated_of c w0; a1 ← allocated_of c w1;
  a2 ← allocated_of c w2; a3 ← allocated_of c w3;
  u3 ← used_of c w3;
  w4 ← ssh_poll_ctx_remove c p11 w3;
  s1 ← slot_ptr c 1 w4; f1 ← slot_fd c 1 w4;
  u4 ← used_of c w4; a4 ← allocated_of c w4;
  Done (Chunk2 [a0; a1; a2; a3] u3 p12 s1 f1 u4 a4).

(** The scenario continued by detaching the event of descriptor 10 as well:
    the capacity then. *)
Definition chunk2_second_detach : run Z :=
  '(c, ps, w) ← populated 2 [(10, 1, 1%nat, 0); (11, 1, 1%nat, 0); (12, 1, 1%nat, 0)];
  w1 ← ssh_poll_ctx_remove c 3%nat w;
  w2 ← ssh_poll_ctx_remove c 2%nat w1;
  allocated_of c w2.

(** An attached event sits at its stored position: the context it names
    has it at index [idx], inside the live part of the pointer array. *)
Definition position_ok (p : ptr) (w : world) : bool :=
  match polls w !! p with
  | None => false
  | Some e =>
    match ctxs w !! poll.ctx e with
    | None => false
    | Some cx =>
      (0 <=? poll.fd_idx e) && (poll.fd_idx e <? pctx.polls_used cx) &&
      bool_decide (default [] (pctx.pollptrs cx) !! Z.to_nat (poll.fd_idx e) = Some p)
    end
  end.

(** Three events (descriptors 10, 11, 12 at addresses 2, 3, 4) attached to
    the context at address 1, then the first one detached. *)
Definition first_detached : run world :=
  '(c, ps, w) ← populated 0 [(10, 1, 1%nat, 0); (11, 1, 1%nat, 0); (12, 1, 1%nat, 0)];
  ssh_poll_ctx_remove c 2%nat w.

(** ... then a fourth event (descriptor 13, address 5) attached. *)
Definition fourth_attached : run world :=
  w ← first_detached;
  let '(p, w1) := ssh_poll_new 13 1 1%nat 0 w in
  '(_, w2) ← ssh_poll_ctx_add 1%nat p w1;
  Done w2.

(** [one_attached] with an allocator that grants the next request and
    refuses the one after it. *)
Definition tight_heap : world :=
  World (polls one_attached) (ctxs one_attached) (brk one_attached) [true; false].

(** A wait primitive that reports every cell ready for what it asked. *)
Definition all_ready (fds : option (list pollfd.t)) (nfds timeout : Z)
  : Z * option (list pollfd.t) :=
  (nfds, map (λ r, pollfd.set_revents (pollfd.events r) r) <$> fds).

(** Two attached events, the first with [cb_keep], the second with
    [cb_detach_self], both reported ready. *)
Definition two_ready : world :=
  let w := world_of (populated 0 [(10, 1, 1%nat, 0); (11, 1, 2%nat, 0)]) in
  match ctxs w !! 1%nat with
  | Some cx => store_ctx 1%nat (pctx.set_pollfds (snd (all_ready (pctx.pollfds cx) 2 0)) cx) w
  | None => w
  end.

(** Three attached events with [cb_keep]. *)
Definition three_kept : world :=
  world_of (populated 0 [(10, 1, 1%nat, 0); (11, 1, 1%nat, 0); (12, 1, 1%nat, 0)]).

(** Two attached events; the callback of the first detaches both. *)
Definition first_detaches_both : world :=
  world_of (populated 0 [(10, 1, 3%nat, 3); (11, 1, 1%nat, 0)]).

(** Number of invocations in [log] of the callback of event [p] with the
    readiness value [revents]. *)
Fixpoint calls_to (p : ptr) (revents : Z) (log : list obs) : nat :=
  match log with
  | [] => 0
  | Callback q _ r _ :: log =>
    ((if decide (q = p ∧ r = revents) then 1 else 0) + calls_to p revents log)%nat
  | _ :: log => calls_to p revents log
  end.

(** The invocations a sweep over the slots [ptrs]/[recs] makes when every
    slot is visited once, in order, with the readiness value [revents]. *)
Definition notifications (revents : Z) (w : world) (ptrs : list ptr) (recs : list pollfd.t)
  : list obs :=
  zip_with (λ p r, Callback p (pollfd.fd r) revents
                     (default 0 (poll.cb_data <$> polls w !! p))) ptrs recs.

(** [w'] has the context [c] and the events [ps] as [w] has them. *)
Definition stable (c : ptr) (ps : list ptr) (w w' : world) : Prop :=
  ctxs w' !! c = ctxs w !! c ∧ ∀ p, p ∈ ps → polls w' !! p = polls w !! p.

(** The callbacks of the events [ps] return a non-negative value and leave
    the context [c] and the events [ps] untouched. *)
Definition quiet (code : funptr → callback) (c : ptr) (ps : list ptr) (w : world) : Prop :=
  ∀ w' p e fd revents,
    stable c ps w w' → p ∈ ps → polls w !! p = Some e →
    ∃ res w'', code (poll.cb e) p fd revents (poll.cb_data e) w' = Done (res, w'') ∧
               0 ≤ res ∧ stable c ps w w''.

(** [two_ready] after the callback of its second event has run. *)
Definition two_ready_detached : world :=
  match cb_detach_self 3%nat 11 1 0 two_ready with
  | Done (_, w) => w
  | _ => two_ready
  end.

(** The [free] calls that end a teardown. *)
Definition teardown_frees (c : ptr) (allocated : Z) : list obs :=
  (if allocated >? 0 then [Free c Pollptrs_block; Free c Pollfds_block] else [])
  ++ [Free c Ctx_object].

(** The teardown claim as the specification words it, for the context [c]
    of the heap [w]: some budget lets the teardown return, and its log then
    holds exactly one error notification for each event attached at the
    start. *)
Definition teardown_notifies_each_once (code : funptr → callback) (POLLERR : Z)
    (c : ptr) (w : world) : Prop :=
  ∃ cx ptrs fuel w1 log,
    ctxs w !! c = Some cx ∧ pctx.pollptrs cx = Some ptrs ∧
    ssh_poll_ctx_free code POLLERR fuel c w = Done (w1, log) ∧
    ∀ p, p ∈ take (Z.to_nat (pctx.polls_used cx)) ptrs → calls_to p POLLERR log = 1%nat.

(** A system in which no handle ever becomes ready. *)
Definition never_ready : list syscall → Z → list Z → Z → Z → Z → Z :=
  λ _ _ _ _ _ _, WAIT_TIMEOUT win32.

(** The handle set [ssh_poll] gathers from the first [nfds] cells. *)
Definition handle_set (K : winapi) (cells : list pollfd.t) (nfds : Z) : list Z * Z :=
  collect_handles K (take (Z.to_nat nfds) cells)
                  (replicate (Z.to_nat (MAXIMUM_WAIT_OBJECTS K)) 0) 0.

(** The two-wait pattern: a probe with timeout zero, then the same handles
    waited on with the caller's timeout. *)
Definition wait_is_repeated (K : winapi) (wait : list syscall → Z → list Z → Z → Z → Z → Z)
    (cells : list pollfd.t) (nfds timeout : Z) : Prop :=
  ∃ n hs, calls (ssh_poll K wait (Some cells) nfds timeout)
          = [WaitForMultipleObjectsEx n hs 0 0 1;
             WaitForMultipleObjectsEx n hs 0 (u32 timeout) 1].

(** The repeat claim as the specification words it: more than one distinct
    handle, a probe that finds nothing and a nonzero timeout (positive, or
    the infinite value -1) lead to the two-wait pattern. *)
Definition repeat_as_specified (K : winapi) (wait : list syscall → Z → list Z → Z → Z → Z → Z)
    (cells : list pollfd.t) (nfds timeout : Z) : Prop :=
  let '(hs, n) := handle_set K cells nfds in
  n > 1 →
  fst (poll_rest K wait hs n cells nfds 0 []) = 0 →
  0 < timeout ∨ timeout = -1 →
  wait_is_repeated K wait cells nfds timeout.

(** The handle [h] is among those a system call waits on. *)
Definition waits_on (h : Z) (call : syscall) : Prop :=
  match call with
  | WaitForMultipleObjectsEx _ hs _ _ _ => h ∈ hs
  | SleepEx _ _ => False
  end.

(** Sample inputs: two distinct handles; sixty-four cells without a
    descriptor whose returned events are set; a mix of cells. *)
Definition two_sockets : list pollfd.t := [pollfd.mk 7 1 0; pollfd.mk 9 1 0].
Definition sixty_four_idle : list pollfd.t := replicate 64 (pollfd.mk 0 1 1).
Definition mixed_cells : list pollfd.t :=
  [pollfd.mk 7 1 0; pollfd.mk 0 1 5; pollfd.mk 9 4 0; pollfd.mk 7 2 0].

(** The first [N] cells of a handle array exist and hold strictly positive
    handles. *)
Definition positive_prefix (N : nat) (hs : list Z) : Prop :=
  (N ≤ length hs)%nat ∧ Forall (λ h, 0 < h) (take N hs).

(** A system call that waits only on strictly positive handles. *)
Definition positive_call (call : syscall) : Prop :=
  match call with
  | WaitForMultipleObjectsEx _ hs _ _ _ => Forall (λ h, 0 < h) hs
  | SleepEx _ _ => True
  end.

(** The infinite-timeout claim as the specification words it: without a
    strictly positive descriptor among the cells, the call fails with -1 and
    hands back the cells with their returned events cleared. *)
Definition infinite_as_specified (K : winapi)
    (wait : list syscall → Z → list Z → Z → Z → Z → Z)
    (cells : list pollfd.t) (nfds : Z) : Prop :=
  Forall (λ f, pollfd.fd f ≤ 0) (take (Z.to_nat nfds) cells) →
  let r := ssh_poll K wait (Some cells) nfds (-1) in
  rc r = -1 ∧
  ∃ l, out_fds r = Some l ∧
       Forall (λ f, pollfd.revents f = 0) (take (Z.to_nat nfds) l).

(** The ranges the emulation relies on: handle indices and counts fit an
    [int] and a [DWORD]. *)
Definition small_handle_range (K : winapi) : Prop :=
  0 ≤ WAIT_OBJECT_0 K ∧ 0 ≤ MAXIMUM_WAIT_OBJECTS K ∧
  WAIT_OBJECT_0 K + MAXIMUM_WAIT_OBJECTS K < 2 ^ 31.


(** Three attached events (descriptors 10, 11, 12 at addresses 2, 3, 4)
    whose callbacks detach their own event. *)
Definition three_self_detaching : world :=
  world_of (populated 0 [(10, 1, 4%nat, 0); (11, 1, 4%nat, 0); (12, 1, 4%nat, 0)]).

(** Every coming allocation request is granted. *)
Definition all_granted (w : world) : Prop := Forall (λ b, b = true) (alloc_script w).

(** The shape a context is kept in: both blocks have [polls_allocated]
    cells (a NULL block counting as empty), the used count lies within the
    capacity, the slack does not exceed one chunk, and the chunk size and the
    capacity are [size_t] values, the chunk size not zero. *)
Definition ctx_wf (cx : pctx.t) : Prop :=
  length (default [] (pctx.pollptrs cx)) = Z.to_nat (pctx.polls_allocated cx) ∧
  length (default [] (pctx.pollfds cx)) = Z.to_nat (pctx.polls_allocated cx) ∧
  0 ≤ pctx.polls_used cx ≤ pctx.polls_allocated cx ∧
  pctx.polls_allocated cx - pctx.polls_used cx ≤ pctx.chunk_size cx ∧
  0 < pctx.chunk_size cx < 2 ^ SIZE_WIDTH ∧
  pctx.polls_allocated cx < 2 ^ SIZE_WIDTH.

(** The live part of the two sequences: the first [polls_used] cells. *)
Definition live_ptrs (cx : pctx.t) : list ptr :=
  take (Z.to_nat (pctx.polls_used cx)) (default [] (pctx.pollptrs cx)).
Definition live_fds (cx : pctx.t) : list pollfd.t :=
  take (Z.to_nat (pctx.polls_used cx)) (default [] (pctx.pollfds cx)).

(** The event as [ssh_poll_ctx_add] leaves it: slot index in the union,
    back-reference set. *)
Definition attached_at (c : ptr) (idx : Z) (e : poll.t) : poll.t :=
  poll.set_ctx c (poll.set_fd_idx idx e).

(** The event as [ssh_poll_ctx_remove] leaves it: descriptor in the union,
    back-reference cleared. *)
Definition detached_with (fd : Z) (e : poll.t) : poll.t :=
  poll.set_ctx NULL (poll.set_fd_idx fd e).

(** A context (chunk size 5) with the events of descriptors 10 and 11
    attached, and a detached event of descriptor 12 at address 4. *)
Definition two_and_spare : world :=
  snd (ssh_poll_new 12 1 1%nat 0
         (world_of (populated 0 [(10, 1, 1%nat, 0); (11, 1, 1%nat, 0)]))).

(** An observation that is a callback invoked with returned events set. *)
Definition fired_callback (o : obs) : Prop :=
  match o with
  | Callback _ _ revents _ => revents ≠ 0
  | _ => False
  end.

(** A cell as the marking loop can leave it: untouched, or with its
    returned events set to its requested events. *)
Definition marked_or_kept (f f' : pollfd.t) : Prop :=
  f' = f ∨ f' = pollfd.set_revents (pollfd.events f) f.

(** A system in which the first handle waited on is always ready. *)
Definition first_ready : list syscall → Z → list Z → Z → Z → Z → Z :=
  λ _ _ _ _ _ _, WAIT_OBJECT_0 win32.

(** The marking loop run once for each of the handles [hs], in order. *)
Fixpoint mark_all (hs : list Z) (nfds : Z) (fds : list pollfd.t) : list pollfd.t :=
  match hs with
  | [] => fds
  | h :: hs => mark_all hs nfds (mark_fired h nfds fds)
  end.

(** What the proofs about fired handles need of the Windows constants:
    object indices start at 0 and differ from the failure, timeout and
    completion codes, the timeout code differs from the failure code, the
    infinite timeout is not zero, and the handle array is not negative in
    size and small enough for an [int]. *)
Definition sdk_like (K : winapi) : Prop :=
  WAIT_OBJECT_0 K = 0 ∧ WAIT_FAILED K ≠ 0 ∧ WAIT_TIMEOUT K ≠ 0 ∧
  WAIT_IO_COMPLETION K ≠ 0 ∧ INFINITE K ≠ 0 ∧ WAIT_TIMEOUT K ≠ WAIT_FAILED K ∧
  0 ≤ MAXIMUM_WAIT_OBJECTS K < 2 ^ 31.

(** The failure, timeout and completion codes lie above every object
    index a wait on at most [MAXIMUM_WAIT_OBJECTS] handles can report. *)
Definition codes_above_limit (K : winapi) : Prop :=
  MAXIMUM_WAIT_OBJECTS K ≤ WAIT_FAILED K ∧
  MAXIMUM_WAIT_OBJECTS K ≤ WAIT_TIMEOUT K ∧
  MAXIMUM_WAIT_OBJECTS K ≤ WAIT_IO_COMPLETION K.

(** Nothing is ready at the first wait of a call; every later wait reports
    the second handle. *)
Definition second_after_probe : list syscall → Z → list Z → Z → Z → Z → Z :=
  λ log _ _ _ _ _, match log with [] => WAIT_TIMEOUT win32 | _ => WAIT_OBJECT_0 win32 + 1 end.

(** Swap-removal of cell [i]: the last cell takes its place and the
    sequence gets one cell shorter. *)
Definition swap_remove {A} (i : nat) (l : list A) : list A :=
  match last l with
  | Some x => take (length l - 1) (<[i := x]> l)
  | None => []
  end.

(** The live entries of a context, slot by slot: the event and the
    descriptor of its record. *)
Definition live_slots (cx : pctx.t) : list (ptr * Z) :=
  zip (live_ptrs cx) (pollfd.fd <$> live_fds cx).

(** The callbacks of a log, in order: event, descriptor and readiness
    value passed. *)
Definition notified (log : list obs) : list (ptr * Z * Z) :=
  omap (λ o, match o with Callback p fd rv _ => Some (p, fd, rv) | _ => None end) log.

(** A heap a teardown sweep of [c] can run in: the context exists with both
    blocks allocated, its used count lies within them, and every live slot
    points to an event. *)
Definition sweep_ok (c : ptr) (w : world) : Prop :=
  ∃ cx, ctxs w !! c = Some cx ∧
        is_Some (pctx.pollptrs cx) ∧ is_Some (pctx.pollfds cx) ∧
        0 ≤ pctx.polls_used cx ∧
        length (live_ptrs cx) = Z.to_nat (pctx.polls_used cx) ∧
        length (live_fds cx) = Z.to_nat (pctx.polls_used cx) ∧
        Forall (λ p, is_Some (polls w !! p)) (live_ptrs cx).

(** What the sweep asks of the callbacks.  [Inv i w] holds of the heaps [w]
    the sweep is in when it stands at slot [i].  The callback of the event
    in that slot, called as the sweep calls it, returns; and either its
    result is not negative, the live entries are as they were and the heap
    is one for slot [i + 1], or its result is negative, the live entries are
    the former ones with slot [i] swap-removed and the heap is one for slot
    [i] again. *)
Definition sweep_step (code : funptr → callback) (POLLERR : Z) (c : ptr)
    (Inv : nat → world → Prop) : Prop :=
  ∀ i w cx p fd e,
    Inv i w → ctxs w !! c = Some cx →
    live_slots cx !! i = Some (p, fd) → polls w !! p = Some e →
    ∃ res w1 cx1,
      code (poll.cb e) p fd POLLERR (poll.cb_data e) w = Done (res, w1) ∧
      ctxs w1 !! c = Some cx1 ∧
      ((0 ≤ res ∧ live_slots cx1 = live_slots cx ∧ Inv (S i) w1) ∨
       (res < 0 ∧ live_slots cx1 = swap_remove i (live_slots cx) ∧ Inv i w1)).

(** Two attached events (descriptors 10 and 11 at addresses 2 and 3) whose
    callbacks detach their own event, and the heaps after the first and
    after the second callback has run. *)
Definition two_self_detaching : world :=
  world_of (populated 0 [(10, 1, 2%nat, 0); (11, 1, 2%nat, 0)]).
Definition two_self_detaching_1 : world :=
  match cb_detach_self 2%nat 10 8 0 two_self_detaching with
  | Done (_, w) => w
  | _ => two_self_detaching
  end.
Definition two_self_detaching_2 : world :=
  match cb_detach_self 3%nat 11 8 0 two_self_detaching_1 with
  | Done (_, w) => w
  | _ => two_self_detaching_1
  end.

(** The heaps of the sweep over [two_self_detaching]: it never leaves
    slot 0. *)
Definition two_self_detaching_sweep (i : nat) (w : world) : Prop :=
  i = 0%nat ∧
  (w = two_self_detaching ∨ w = two_self_detaching_1 ∨ w = two_self_detaching_2).

(** * Properties *)

Ltac run_simpl :=
  repeat (cbn [mbind mret run_bind run_ret deref fst snd] in *;
          unfold load_poll, load_ctx in * ).

(** ** Attach *)

(** C7: attaching an event whose context back-reference is set fails with
    -1 and returns the heap it was given, so neither the event nor any
    context (sequences, used count, capacity) is modified. *)
Theorem ssh_poll_ctx_add_already_attached (c p : ptr) (w : world) (e : poll.t) :
  polls w !! p = Some e →
  poll.ctx e ≠ NULL →
  ssh_poll_ctx_add c p w = Done (-1, w).
Proof.
  intros Hp Hctx. unfold ssh_poll_ctx_add. run_simpl. rewrite Hp. run_simpl.
  destruct (decide (poll.ctx e ≠ NULL)) as [_|Hn]; [reflexivity | contradiction].
Qed.

Lemma ssh_poll_ctx_add_already_attached_witness :
  polls one_attached !! 2%nat = Some (poll.mk 1%nat 0 1 1%nat 0) ∧
  ssh_poll_ctx_add 1%nat 2%nat one_attached = Done (-1, one_attached).
Proof.
  split; [vm_compute; reflexivity|].
  apply (ssh_poll_ctx_add_already_attached 1%nat 2%nat one_attached
           (poll.mk 1%nat 0 1 1%nat 0)).
  - vm_compute; reflexivity.
  - vm_compute; lia.
Defined.

(** ** Dispatch on an empty context *)

Section Dispatch.

Variable code : funptr → callback.
Variable POLLERR : Z.
Variable wait : option (list pollfd.t) → Z → Z → Z * option (list pollfd.t).

(** C8: with a used count of zero, dispatch returns 0 for every timeout,
    leaves the heap as it is and makes no observable call: neither the wait
    primitive nor a callback is invoked. *)
Theorem ssh_poll_ctx_empty (fuel : nat) (c : ptr) (timeout : Z) (w : world) (cx : pctx.t) :
  ctxs w !! c = Some cx →
  pctx.polls_used cx = 0 →
  ssh_poll_ctx code wait fuel c timeout w = Done (0, w, []).
Proof.
  intros Hc Hu. unfold ssh_poll_ctx. run_simpl. rewrite Hc. run_simpl.
  rewrite Hu. reflexivity.
Qed.

End Dispatch.

Lemma ssh_poll_ctx_empty_witness :
  ssh_poll_ctx sample_code (λ fds _ _, (1, fds)) 0 1%nat (-1)
    (snd (ssh_poll_ctx_new 0 empty_world))
  = Done (0, snd (ssh_poll_ctx_new 0 empty_world), []).
Proof.
  apply (ssh_poll_ctx_empty sample_code (λ fds _ _, (1, fds)) 0 1%nat (-1)
           (snd (ssh_poll_ctx_new 0 empty_world)) (pctx.mk None None 0 0 5)).
  - vm_compute; reflexivity.
  - reflexivity.
Defined.

(** ** Resize *)

Lemma length_resize_block {A} (junk : A) (n : Z) (old : option (list A)) :
  length (resize_block junk n old) = Z.to_nat n.
Proof.
  unfold resize_block. rewrite length_app, length_take, length_replicate. lia.
Qed.

Lemma resize_block_id {A} (junk : A) (n : Z) (l : list A) :
  length l = Z.to_nat n → resize_block junk n (Some l) = l.
Proof.
  intros Hl. unfold resize_block. simpl. rewrite Hl, Nat.sub_diag. simpl.
  rewrite app_nil_r. apply take_ge. lia.
Qed.

(** Growing a full block and cutting it back gives the block again. *)
Lemma resize_block_back {A} (junk : A) (n a : Z) (l : list A) :
  length l = Z.to_nat a → a ≤ n →
  resize_block junk a (Some (resize_block junk n (Some l))) = l.
Proof.
  intros Hl Han. unfold resize_block at 1. simpl.
  rewrite length_resize_block.
  replace (Z.to_nat a - Z.to_nat n)%nat with 0%nat by lia. simpl.
  rewrite app_nil_r. unfold resize_block. simpl.
  rewrite take_app_le by (rewrite length_take; lia).
  rewrite take_take. rewrite take_ge by lia. reflexivity.
Qed.

(** C5: when the first [realloc] of a resize is granted and the second is
    refused, the call returns -1; the context keeps its capacity, its used
    count, its chunk size and its record block; its pointer field holds the
    result of reallocating the resized pointer block to the prior capacity
    (a block of exactly the prior capacity when that request is granted, and,
    when the resize was a growth of a full block, the prior cells). *)
Theorem ssh_poll_ctx_resize_rollback (c : ptr) (new_size : Z) (w : world)
    (cx : pctx.t) (s : list bool) :
  ctxs w !! c = Some cx →
  alloc_script w = true :: false :: s →
  ∃ w1 cx1,
    ssh_poll_ctx_resize c new_size w = Done (-1, w1) ∧
    ctxs w1 !! c = Some cx1 ∧
    pctx.polls_allocated cx1 = pctx.polls_allocated cx ∧
    pctx.polls_used cx1 = pctx.polls_used cx ∧
    pctx.chunk_size cx1 = pctx.chunk_size cx ∧
    pctx.pollfds cx1 = pctx.pollfds cx ∧
    polls w1 = polls w ∧
    pctx.pollptrs cx1 =
      (if head s is Some false then None
       else Some (resize_block NULL (pctx.polls_allocated cx)
                    (Some (resize_block NULL new_size (pctx.pollptrs cx))))) ∧
    (head s ≠ Some false →
       ∃ l, pctx.pollptrs cx1 = Some l ∧
            length l = Z.to_nat (pctx.polls_allocated cx) ∧
            (∀ l0, pctx.pollptrs cx = Some l0 →
                   length l0 = Z.to_nat (pctx.polls_allocated cx) →
                   pctx.polls_allocated cx ≤ new_size → l = l0)).
Proof.
  intros Hc Hs. unfold ssh_poll_ctx_resize. run_simpl. rewrite Hc. run_simpl.
  unfold realloc at 1, next_alloc. rewrite Hs. cbn [alloc_script].
  unfold realloc at 1, next_alloc. cbn [alloc_script].
  unfold realloc, next_alloc. cbn [alloc_script].
  destruct s as [|[|] s']; cbn [head];
    (eexists; eexists; split; [reflexivity|]);
    unfold store_ctx, set_ctxs; cbn [ctxs polls];
    rewrite lookup_insert_eq;
    (split; [reflexivity|]); cbn;
    repeat (split; [reflexivity|]).
  - intros _. eexists; split; [reflexivity|]. split; [apply length_resize_block|].
    intros l0 Hl0 Hlen Hle. rewrite Hl0. apply resize_block_back; assumption.
  - intros _. eexists; split; [reflexivity|]. split; [apply length_resize_block|].
    intros l0 Hl0 Hlen Hle. rewrite Hl0. apply resize_block_back; assumption.
  - intros Hn. contradiction Hn. reflexivity.
Qed.

Lemma ssh_poll_ctx_resize_rollback_witness :
  ∃ w1 cx1, ssh_poll_ctx_resize 1%nat 10 tight_heap = Done (-1, w1) ∧
            ctxs w1 !! 1%nat = Some cx1 ∧
            pctx.polls_allocated cx1 = 5 ∧ pctx.polls_used cx1 = 1.
Proof.
  destruct (ssh_poll_ctx_resize_rollback 1%nat 10 tight_heap
              (pctx.mk (Some [2%nat; 0%nat; 0%nat; 0%nat; 0%nat])
                 (Some [pollfd.mk 10 1 0; pollfd.junk; pollfd.junk; pollfd.junk; pollfd.junk])
                 5 1 5) [])
    as (w1 & cx1 & Hr & Hc & Ha & Hu & _).
  - vm_compute; reflexivity.
  - reflexivity.
  - exists w1, cx1. repeat split; assumption.
Defined.

(** ** The chunk-2 scenario *)

(** The claim of the scenario as the specification words it: after the
    detach the capacity is back at 2. *)
Definition chunk2_as_specified : Prop :=
  ∃ t, chunk2_scenario = Done t ∧
       caps t = [0; 2; 2; 4] ∧ used3 t = 3 ∧
       slot1_ptr t = ev12 t ∧ slot1_fd t = 12 ∧
       used_after t = 2 ∧ cap_after t = 2.

(** C4, as specified, does not hold: the detach leaves the capacity at 4. *)
Lemma chunk2_scenario_keeps_capacity : ¬ chunk2_as_specified.
Proof.
  intros (t & Ht & _ & _ & _ & _ & _ & Hcap).
  vm_compute in Ht. injection Ht as <-. discriminate Hcap.
Qed.

(** C4, amended: the three attaches take the capacity from 0 to 2 to 4 with
    three entries used; detaching the event of descriptor 11 moves the event
    of descriptor 12 and its record into slot 1 and leaves two entries used;
    the capacity stays at 4, since a slack of 2 does not exceed the chunk
    size; it drops to 2 with the next detach, when the slack is 3. *)
Theorem chunk2_scenario_runs :
  chunk2_scenario = Done (Chunk2 [0; 2; 2; 4] 3 4%nat 4%nat 12 2 4) ∧
  chunk2_second_detach = Done 2.
Proof. split; vm_compute; reflexivity. Qed.

(** ** Detach and the stored position *)

(** C1, on the code: detaching the first of three attached events moves the
    last event (address 4, descriptor 12) and its record into slot 0 and
    leaves two entries used, but the moved event still stores position 2, so
    it is no longer at its stored position; once a fourth event takes slot 2,
    the moved event's descriptor is read from the newcomer's record. *)
Theorem ssh_poll_ctx_remove_keeps_stale_idx :
  ∃ w w',
    first_detached = Done w ∧
    slot_ptr 1%nat 0 w = Done 4%nat ∧ slot_fd 1%nat 0 w = Done 12 ∧
    used_of 1%nat w = Done 2 ∧
    idx_of 4%nat w = Done 2 ∧
    position_ok 4%nat w = false ∧
    position_ok 3%nat w = true ∧
    fourth_attached = Done w' ∧
    slot_ptr 1%nat 2 w' = Done 5%nat ∧
    idx_of 4%nat w' = Done 2 ∧
    ssh_poll_get_fd 4%nat w' = Done 13.
Proof.
  destruct first_detached as [w| |] eqn:Hw; try (vm_compute in Hw; discriminate Hw).
  destruct fourth_attached as [w'| |] eqn:Hw'; try (vm_compute in Hw'; discriminate Hw').
  exists w, w'.
  assert (Some w = Some (world_of (w ← first_detached; Done (1%nat, [], w)))) as [= ->]
    by (rewrite Hw; reflexivity).
  assert (Some w' = Some (world_of (w ← fourth_attached; Done (1%nat, [], w)))) as [= ->]
    by (rewrite Hw'; reflexivity).
  repeat split; vm_compute; reflexivity.
Qed.

(** ** The dispatch walk *)

Lemma arr_get_lookup {A} (l : list A) (i : Z) (x : A) :
  0 ≤ i → l !! Z.to_nat i = Some x → arr_get (Some l) i = Done x.
Proof.
  intros Hi Hx. unfold arr_get.
  pose proof (lookup_lt_Some _ _ _ Hx) as Hlt.
  replace (0 <=? i) with true by (symmetry; apply Z.leb_le; lia).
  replace (i <? Z.of_nat (length l)) with true by (symmetry; apply Z.ltb_lt; lia).
  cbn. rewrite Hx. reflexivity.
Qed.

Lemma arr_set_lookup {A} (l : list A) (i : Z) (x v : A) :
  0 ≤ i → l !! Z.to_nat i = Some x →
  arr_set (Some l) i v = Done (Some (<[Z.to_nat i := v]> l)).
Proof.
  intros Hi Hx. unfold arr_set.
  pose proof (lookup_lt_Some _ _ _ Hx) as Hlt.
  replace (0 <=? i) with true by (symmetry; apply Z.leb_le; lia).
  replace (i <? Z.of_nat (length l)) with true by (symmetry; apply Z.ltb_lt; lia).
  reflexivity.
Qed.

Section Walk.

Variable code : funptr → callback.

(** C2: one step of the dispatch walk at an index whose record has
    returned events.  If the callback returns a negative value the index
    stays and the used count is read again from the context; otherwise the
    returned events of the record at that index are set to zero and the
    index moves on by one.  Either way the remaining-ready counter drops by
    one.  The walk ends as soon as the counter is not positive or the index
    has reached the used count in hand, and otherwise takes another step. *)
Theorem ssh_poll_ctx_step (c : ptr) (i used rc : Z) (w w1 : world) (cx : pctx.t)
    (r : pollfd.t) (p : ptr) (e : poll.t) (res : Z) :
  ctxs w !! c = Some cx →
  arr_get (pctx.pollfds cx) i = Done r →
  pollfd.revents r ≠ 0 →
  arr_get (pctx.pollptrs cx) i = Done p →
  polls w !! p = Some e →
  code (poll.cb e) p (pollfd.fd r) (pollfd.revents r) (poll.cb_data e) w = Done (res, w1) →
  let o := Callback p (pollfd.fd r) (pollfd.revents r) (poll.cb_data e) in
  (res < 0 → ∀ cx1, ctxs w1 !! c = Some cx1 →
     ssh_poll_ctx_body code c (Walk i used rc) w
     = Done (Walk i (pctx.polls_used cx1) (rc - 1), w1, [o])) ∧
  (0 ≤ res → ∀ cx1 l1 r1,
     ctxs w1 !! c = Some cx1 → pctx.pollfds cx1 = Some l1 →
     0 ≤ i → l1 !! Z.to_nat i = Some r1 →
     ∃ w2 cx2,
       ssh_poll_ctx_body code c (Walk i used rc) w
       = Done (Walk (i + 1) used (rc - 1), w2, [o]) ∧
       w2 = store_ctx c (pctx.set_pollfds
                           (Some (<[Z.to_nat i := pollfd.set_revents 0 r1]> l1)) cx1) w1 ∧
       ctxs w2 !! c = Some cx2 ∧
       arr_get (pctx.pollfds cx2) i = Done (pollfd.mk (pollfd.fd r1) (pollfd.events r1) 0)) ∧
  (∀ fuel s w' log, w_rc s ≤ 0 ∨ w_used s ≤ w_i s →
     ssh_poll_ctx_loop code fuel c s w' log = Done (w_rc s, w', log)) ∧
  (∀ fuel s w' log, 0 < w_rc s → w_i s < w_used s →
     ssh_poll_ctx_loop code (S fuel) c s w' log
     = ('(s1, w2, o1) ← ssh_poll_ctx_body code c s w';
        ssh_poll_ctx_loop code fuel c s1 w2 (log ++ o1))).
Proof.
  intros Hc Hr Hrev Hp He Hcb o.
  assert (Hz : (pollfd.revents r =? 0) = false) by (apply Z.eqb_neq; exact Hrev).
  split; [|split; [|split]].
  - intros Hneg cx1 Hc1. unfold ssh_poll_ctx_body. run_simpl.
    rewrite Hc. run_simpl. rewrite Hr. run_simpl. rewrite Hz, Hp. run_simpl.
    rewrite He. run_simpl. rewrite Hcb. run_simpl.
    replace (res <? 0) with true by (symmetry; apply Z.ltb_lt; exact Hneg).
    rewrite Hc1. reflexivity.
  - intros Hpos cx1 l1 r1 Hc1 Hl1 Hi Hr1. eexists; eexists.
    split; [|split; [reflexivity|split]].
    + unfold ssh_poll_ctx_body. run_simpl.
      rewrite Hc. run_simpl. rewrite Hr. run_simpl. rewrite Hz, Hp. run_simpl.
      rewrite He. run_simpl. rewrite Hcb. run_simpl.
      replace (res <? 0) with false by (symmetry; apply Z.ltb_ge; exact Hpos).
      rewrite Hc1. run_simpl. rewrite Hl1.
      rewrite (arr_get_lookup _ _ _ Hi Hr1). run_simpl.
      rewrite (arr_set_lookup _ _ _ _ Hi Hr1). reflexivity.
    + unfold store_ctx, set_ctxs. cbn [ctxs]. apply lookup_insert_eq.
    + cbn [pctx.set_pollfds pctx.pollfds].
      apply arr_get_lookup; [exact Hi|].
      apply list_lookup_insert_eq. eapply lookup_lt_Some; exact Hr1.
  - intros fuel s w' log Hstop.
    assert (Hcond : (w_i s <? w_used s) && (w_rc s >? 0) = false).
    { apply andb_false_iff. destruct Hstop as [H|H].
      - right. rewrite Z.gtb_ltb. apply Z.ltb_ge. exact H.
      - left. apply Z.ltb_ge. exact H. }
    destruct fuel; cbn [ssh_poll_ctx_loop]; rewrite Hcond; reflexivity.
  - intros fuel s w' log Hrc Hi. cbn [ssh_poll_ctx_loop].
    replace (w_i s <? w_used s) with true by (symmetry; apply Z.ltb_lt; exact Hi).
    replace (w_rc s >? 0) with true by (rewrite Z.gtb_ltb; symmetry; apply Z.ltb_lt; exact Hrc).
    reflexivity.
Qed.

(** What one pass of the walk can do when the callbacks return: it skips an
    idle index or it uses up one unit of the counter. *)
Lemma ssh_poll_ctx_body_progress (c : ptr) (i used rc : Z) (w : world) :
  (∀ f p fd revents userdata w0, code f p fd revents userdata w0 ≠ OutOfFuel) →
  match ssh_poll_ctx_body code c (Walk i used rc) w with
  | Done (s1, _, _) => s1 = Walk (i + 1) used rc ∨ w_rc s1 = rc - 1
  | Undefined => True
  | OutOfFuel => False
  end.
Proof.
  intros Hcode. unfold ssh_poll_ctx_body, load_ctx, load_poll.
  destruct (ctxs w !! c) as [cx|]; [|exact I]. run_simpl.
  destruct (arr_get (pctx.pollfds cx) i) as [r| |] eqn:Hr; [|exact I|].
  2:{ unfold arr_get in Hr. destruct (pctx.pollfds cx); [|discriminate Hr].
      destruct (_ && _); [|discriminate Hr]. destruct (_ !! _); discriminate Hr. }
  run_simpl. destruct (pollfd.revents r =? 0); [left; reflexivity|].
  destruct (arr_get (pctx.pollptrs cx) i) as [p| |] eqn:Hp; [|exact I|].
  2:{ unfold arr_get in Hp. destruct (pctx.pollptrs cx); [|discriminate Hp].
      destruct (_ && _); [|discriminate Hp]. destruct (_ !! _); discriminate Hp. }
  run_simpl. destruct (polls w !! p) as [e|]; [|exact I]. run_simpl.
  pose proof (Hcode (poll.cb e) p (pollfd.fd r) (pollfd.revents r) (poll.cb_data e) w) as Hne.
  destruct (code (poll.cb e) p (pollfd.fd r) (pollfd.revents r) (poll.cb_data e) w)
    as [[res w1]| |]; [|exact I|contradiction].
  run_simpl. destruct (res <? 0).
  - destruct (ctxs w1 !! c) as [cx1|]; [|exact I]. right. reflexivity.
  - destruct (ctxs w1 !! c) as [cx1|]; [|exact I]. run_simpl.
    destruct (arr_get (pctx.pollfds cx1) i) as [r1| |] eqn:Hr1; [|exact I|].
    2:{ unfold arr_get in Hr1. destruct (pctx.pollfds cx1); [|discriminate Hr1].
        destruct (_ && _); [|discriminate Hr1]. destruct (_ !! _); discriminate Hr1. }
    run_simpl.
    destruct (arr_set (pctx.pollfds cx1) i (pollfd.set_revents 0 r1)) as [pf| |] eqn:Hpf;
      [|exact I|].
    2:{ unfold arr_set in Hpf. destruct (pctx.pollfds cx1); [|discriminate Hpf].
        destruct (_ && _); discriminate Hpf. }
    right. reflexivity.
Qed.

(** The walk always comes to an end when the callbacks return: some budget
    is enough, whatever the callbacks do to the context. *)
Lemma ssh_poll_ctx_loop_ends (c : ptr) :
  (∀ f p fd revents userdata w0, code f p fd revents userdata w0 ≠ OutOfFuel) →
  ∀ (n m : nat) (s : walk) (w : world) (log : list obs),
    (Z.to_nat (w_rc s) ≤ n)%nat → (Z.to_nat (w_used s - w_i s) ≤ m)%nat →
    ∃ fuel, ssh_poll_ctx_loop code fuel c s w log ≠ OutOfFuel.
Proof.
  intros Hcode. induction n as [|n IHn].
  - intros m s w log Hrc _. exists 0%nat. cbn [ssh_poll_ctx_loop].
    replace (w_rc s >? 0) with false
      by (rewrite Z.gtb_ltb; symmetry; apply Z.ltb_ge; lia).
    rewrite andb_false_r. discriminate.
  - induction m as [|m IHm]; intros s w log Hrc Hm.
    + exists 0%nat. cbn [ssh_poll_ctx_loop].
      replace (w_i s <? w_used s) with false by (symmetry; apply Z.ltb_ge; lia).
      discriminate.
    + destruct ((w_i s <? w_used s) && (w_rc s >? 0)) eqn:Hcond.
      2:{ exists 0%nat. cbn [ssh_poll_ctx_loop]. rewrite Hcond. discriminate. }
      apply andb_true_iff in Hcond as [Hi Hr].
      apply Z.ltb_lt in Hi. rewrite Z.gtb_ltb in Hr. apply Z.ltb_lt in Hr.
      destruct s as [i used rc]. cbn [w_i w_used w_rc] in *.
      pose proof (ssh_poll_ctx_body_progress c i used rc w Hcode) as Hstep.
      destruct (ssh_poll_ctx_body code c (Walk i used rc) w) as [[[s1 w1] o]| |] eqn:Hbody;
        [|exists 1%nat|contradiction].
      * assert (∃ fuel, ssh_poll_ctx_loop code fuel c s1 w1 (log ++ o) ≠ OutOfFuel)
          as [fuel Hfuel].
        { destruct Hstep as [->|Hdec].
          - apply IHm; cbn [w_i w_used w_rc]; lia.
          - apply (IHn (Z.to_nat (w_used s1 - w_i s1))); lia. }
        exists (S fuel). cbn [ssh_poll_ctx_loop w_i w_used w_rc].
        replace (i <? used) with true by (symmetry; apply Z.ltb_lt; exact Hi).
        replace (rc >? 0) with true by (rewrite Z.gtb_ltb; symmetry; apply Z.ltb_lt; exact Hr).
        cbn [andb]. rewrite Hbody. run_simpl. exact Hfuel.
      * cbn [ssh_poll_ctx_loop w_i w_used w_rc].
        replace (i <? used) with true by (symmetry; apply Z.ltb_lt; exact Hi).
        replace (rc >? 0) with true by (rewrite Z.gtb_ltb; symmetry; apply Z.ltb_lt; exact Hr).
        cbn [andb]. rewrite Hbody. run_simpl. discriminate.
Qed.

End Walk.

Lemma ssh_poll_ctx_step_witness :
  ∃ cx1, ctxs two_ready_detached !! 1%nat = Some cx1 ∧
         pctx.polls_used cx1 = 1 ∧
         ssh_poll_ctx_body sample_code 1%nat (Walk 1 2 2) two_ready
         = Done (Walk 1 (pctx.polls_used cx1) (2 - 1), two_ready_detached,
                 [Callback 3%nat 11 1 0]).
Proof.
  eexists. split; [vm_compute; reflexivity|]. split; [reflexivity|].
  eapply (proj1 (ssh_poll_ctx_step sample_code 1%nat 1 2 2 two_ready two_ready_detached
                   _ (pollfd.mk 11 1 1) 3%nat (poll.mk 1%nat 1 1 2%nat 0) (-1)
                   _ _ _ _ _ _)).
  - lia.
  - vm_compute; reflexivity.
  Unshelve.
  all: try (vm_compute; reflexivity).
  vm_compute. lia.
Defined.

(** ** Teardown *)

Lemma stable_refl (c : ptr) (ps : list ptr) (w : world) : stable c ps w w.
Proof. split; [reflexivity | intros; reflexivity]. Qed.

Lemma calls_to_app (p : ptr) (rv : Z) (l1 l2 : list obs) :
  calls_to p rv (l1 ++ l2) = (calls_to p rv l1 + calls_to p rv l2)%nat.
Proof.
  induction l1 as [|o l1 IH]; [reflexivity|].
  destruct o; cbn [app calls_to]; rewrite IH; lia.
Qed.

Lemma calls_to_absent (p : ptr) (rv : Z) (w : world) (ptrs : list ptr) (recs : list pollfd.t) :
  p ∉ ptrs → calls_to p rv (notifications rv w ptrs recs) = 0%nat.
Proof.
  revert recs. induction ptrs as [|q ptrs IH]; intros recs Hnot; [reflexivity|].
  destruct recs as [|r recs]; [reflexivity|].
  cbn [notifications zip_with calls_to].
  destruct (decide (q = p ∧ rv = rv)) as [[-> _]|_].
  - exfalso. apply Hnot. left.
  - cbn. apply IH. intros Hin. apply Hnot. right. exact Hin.
Qed.

Lemma calls_to_once (p : ptr) (rv : Z) (w : world) (ptrs : list ptr) (recs : list pollfd.t) :
  NoDup ptrs → p ∈ ptrs → length ptrs = length recs →
  calls_to p rv (notifications rv w ptrs recs) = 1%nat.
Proof.
  revert recs. induction ptrs as [|q ptrs IH]; intros recs Hnd Hin Hlen.
  - inversion Hin.
  - destruct recs as [|r recs]; [discriminate Hlen|].
    apply NoDup_cons in Hnd as [Hq Hnd].
    cbn [notifications zip_with calls_to].
    destruct (decide (q = p ∧ rv = rv)) as [[-> _]|Hne].
    + fold (notifications rv w ptrs recs).
      rewrite calls_to_absent by exact Hq. reflexivity.
    + fold (notifications rv w ptrs recs). cbn.
      apply IH; [exact Hnd| |cbn in Hlen; lia].
      apply elem_of_cons in Hin as [->|Hin]; [|exact Hin].
      exfalso. apply Hne. split; reflexivity.
Qed.

Section Teardown.

Variable code : funptr → callback.
Variable POLLERR : Z.

Lemma ssh_poll_ctx_free_loop_quiet (c : ptr) (w : world) (cx : pctx.t)
    (ptrs : list ptr) (recs : list pollfd.t) (n : nat) :
  ctxs w !! c = Some cx →
  pctx.pollptrs cx = Some ptrs → pctx.pollfds cx = Some recs →
  (n ≤ length ptrs)%nat → (n ≤ length recs)%nat →
  (∀ p, p ∈ take n ptrs → is_Some (polls w !! p)) →
  quiet code c (take n ptrs) w →
  ∀ (j k : nat) (w' : world) (log : list obs) (fuel : nat),
    (k + j = n)%nat → stable c (take n ptrs) w w' → (j ≤ fuel)%nat →
    ∃ w'',
      ssh_poll_ctx_free_loop code POLLERR fuel c (Z.of_nat k) (Z.of_nat n) w' log
      = Done (w'', log ++ notifications POLLERR w (drop k (take n ptrs)) (drop k (take n recs))) ∧
      stable c (take n ptrs) w w''.
Proof.
  intros Hc Hptrs Hrecs Hnp Hnr Hlive Hquiet.
  induction j as [|j IH]; intros k w' log fuel Hk Hst Hfuel.
  - assert (k = n) as -> by lia. exists w'. split; [|exact Hst].
    rewrite !drop_ge by (rewrite length_take; lia).
    cbn [notifications zip_with]. rewrite app_nil_r.
    destruct fuel; cbn [ssh_poll_ctx_free_loop]; rewrite Z.ltb_irrefl; reflexivity.
  - destruct fuel as [|fuel]; [lia|].
    assert (Hkn : (k < n)%nat) by lia.
    destruct (lookup_lt_is_Some_2 (take n ptrs) k) as [p Hp];
      [rewrite length_take; lia|].
    destruct (lookup_lt_is_Some_2 (take n recs) k) as [r Hr];
      [rewrite length_take; lia|].
    assert (Hpin : p ∈ take n ptrs) by (apply list_elem_of_lookup; eauto).
    destruct (Hlive p Hpin) as [e He].
    destruct (Hquiet w' p e (pollfd.fd r) POLLERR Hst Hpin He) as (res & w'' & Hcb & Hres & Hst').
    pose proof Hp as Hp'. rewrite lookup_take_lt in Hp' by lia.
    pose proof Hr as Hr'. rewrite lookup_take_lt in Hr' by lia.
    destruct (IH (S k) w'' (log ++ [Callback p (pollfd.fd r) POLLERR (poll.cb_data e)]) fuel)
      as (w3 & Hloop & Hst3); [lia|exact Hst'|lia|].
    exists w3. split; [|exact Hst3].
    cbn [ssh_poll_ctx_free_loop].
    replace (Z.of_nat k <? Z.of_nat n) with true by (symmetry; apply Z.ltb_lt; lia).
    unfold ssh_poll_ctx_free_body. run_simpl.
    destruct Hst as [Hstc Hstp]. rewrite Hstc, Hc. run_simpl.
    rewrite Hptrs, Hrecs.
    rewrite (arr_get_lookup ptrs (Z.of_nat k) p) by (rewrite ?Nat2Z.id; first [lia|exact Hp']).
    run_simpl.
    rewrite (arr_get_lookup recs (Z.of_nat k) r) by (rewrite ?Nat2Z.id; first [lia|exact Hr']).
    run_simpl. rewrite (Hstp p Hpin), He. run_simpl. rewrite Hcb. run_simpl.
    replace (res <? 0) with false by (symmetry; apply Z.ltb_ge; exact Hres).
    replace (Z.of_nat k + 1) with (Z.of_nat (S k)) by lia.
    run_simpl. rewrite Hloop. f_equal. f_equal.
    rewrite <- app_assoc. f_equal.
    rewrite (drop_S _ _ _ Hp), (drop_S _ _ _ Hr).
    cbn [notifications zip_with app]. rewrite He. reflexivity.
Qed.

(** Callbacks that return a non-negative value and leave the context and
    the attached events untouched are invoked in slot order, one per live
    slot, each with [POLLERR]; the two blocks and the context are freed
    after them. *)
Lemma ssh_poll_ctx_free_quiet_in_order (c : ptr) (w : world) (cx : pctx.t)
    (ptrs : list ptr) (recs : list pollfd.t) (fuel : nat) :
  let n := Z.to_nat (pctx.polls_used cx) in
  c ≠ NULL →
  ctxs w !! c = Some cx →
  pctx.pollptrs cx = Some ptrs → pctx.pollfds cx = Some recs →
  0 ≤ pctx.polls_used cx ≤ pctx.polls_allocated cx →
  (n ≤ length ptrs)%nat → (n ≤ length recs)%nat →
  NoDup (take n ptrs) →
  (∀ p, p ∈ take n ptrs → is_Some (polls w !! p)) →
  quiet code c (take n ptrs) w →
  (n ≤ fuel)%nat →
  ∃ w1 log,
    ssh_poll_ctx_free code POLLERR fuel c w = Done (w1, log) ∧
    log = notifications POLLERR w (take n ptrs) (take n recs)
          ++ teardown_frees c (pctx.polls_allocated cx) ∧
    (∀ p, p ∈ take n ptrs → calls_to p POLLERR log = 1%nat) ∧
    ctxs w1 !! c = None.
Proof.
  intros n Hnull Hc Hptrs Hrecs Hused Hnp Hnr Hnd Hlive Hquiet Hfuel.
  destruct (ssh_poll_ctx_free_loop_quiet c w cx ptrs recs n Hc Hptrs Hrecs Hnp Hnr Hlive Hquiet
              n 0%nat w [] fuel) as (w' & Hloop & Hstc & Hstp);
    [lia|apply stable_refl|exact Hfuel|].
  rewrite !drop_0 in Hloop. cbn [app] in Hloop.
  replace (Z.of_nat n) with (pctx.polls_used cx) in Hloop by (subst n; lia).
  change (Z.of_nat 0) with 0 in Hloop.
  destruct (pctx.polls_allocated cx >? 0) eqn:Halloc.
  - eexists; eexists. split; [|split; [|split]].
    + unfold ssh_poll_ctx_free. run_simpl. rewrite Hc. run_simpl. rewrite Halloc.
      rewrite Hloop. run_simpl.
      rewrite Hstc, Hc. run_simpl. rewrite Hptrs. unfold SAFE_FREE.
      cbn [pctx.set_pollptrs pctx.pollfds]. rewrite Hrecs.
      destruct (decide (c = NULL)) as [Heq|_]; [contradiction|]. reflexivity.
    + unfold teardown_frees. rewrite Halloc. rewrite <- !app_assoc. reflexivity.
    + intros p Hp. rewrite <- !app_assoc. rewrite calls_to_app.
      rewrite calls_to_once; [reflexivity|exact Hnd|exact Hp|].
      rewrite !length_take. lia.
    + unfold set_ctxs; cbn [ctxs]; apply lookup_delete_eq.
  - assert (n = 0%nat) as Hn0.
    { rewrite Z.gtb_ltb in Halloc. apply Z.ltb_ge in Halloc. subst n. lia. }
    eexists; eexists. split; [|split; [|split]].
    + unfold ssh_poll_ctx_free. run_simpl. rewrite Hc. run_simpl. rewrite Halloc.
      run_simpl.
      destruct (decide (c = NULL)) as [Heq|_]; [contradiction|]. reflexivity.
    + unfold teardown_frees. rewrite Halloc, Hn0, !take_0. reflexivity.
    + intros p Hp. exfalso. rewrite Hn0, take_0 in Hp. inversion Hp.
    + unfold set_ctxs; cbn [ctxs]; apply lookup_delete_eq.
Qed.

End Teardown.

(** ** Teardown with callbacks that remove their own entry *)

Lemma length_swap_remove {A} (i : nat) (l : list A) :
  l ≠ [] → length (swap_remove i l) = (length l - 1)%nat.
Proof.
  intros Hne. unfold swap_remove.
  destruct l as [|x l] using rev_ind; [contradiction|].
  rewrite last_snoc, length_take, length_insert. lia.
Qed.

(** The cells from [i] on, after the swap-removal of cell [i], are the
    former ones without the former cell [i]. *)
Lemma drop_swap_remove {A} (i : nat) (l : list A) (x : A) :
  l !! i = Some x → x :: drop i (swap_remove i l) ≡ₚ drop i l.
Proof.
  intros Hx. unfold swap_remove.
  destruct l as [|y l _] using rev_ind; [discriminate Hx|].
  rewrite last_snoc, length_app. cbn [length].
  replace (length l + 1 - 1)%nat with (length l) by lia.
  destruct (decide (i < length l)%nat) as [Hlt|Hge].
  - rewrite lookup_app_l in Hx by exact Hlt.
    rewrite insert_app_l by exact Hlt.
    rewrite take_app_length' by (rewrite length_insert; reflexivity).
    rewrite insert_take_drop by exact Hlt.
    rewrite drop_app_length' by (rewrite length_take; lia).
    rewrite drop_app_le by lia. rewrite (drop_S _ _ _ Hx).
    cbn [app]. constructor. apply Permutation_cons_append.
  - pose proof (lookup_lt_Some _ _ _ Hx) as Hlen. rewrite length_app in Hlen. cbn in Hlen.
    assert (i = length l) as -> by lia.
    rewrite list_lookup_middle in Hx by reflexivity. injection Hx as ->.
    rewrite list_insert_id by (apply list_lookup_middle; reflexivity).
    rewrite take_app_length, drop_app_length.
    rewrite drop_ge by lia. reflexivity.
Qed.

Lemma notified_app (l1 l2 : list obs) : notified (l1 ++ l2) = notified l1 ++ notified l2.
Proof. unfold notified. apply omap_app. Qed.

(** Counting the calls to an event is counting its entries among the
    callbacks of the log. *)
Lemma calls_to_notified (p : ptr) (rv : Z) (log : list obs) :
  calls_to p rv log
  = length (filter (λ t : ptr * Z * Z, t.1.1 = p ∧ t.2 = rv) (notified log)).
Proof.
  induction log as [|o log IH]; [reflexivity|].
  destruct o as [q fd r d| |]; cbn [calls_to]; [|exact IH ..].
  change (notified (Callback q fd r d :: log)) with ((q, fd, r) :: notified log).
  rewrite filter_cons. cbn [fst snd].
  destruct (decide (q = p ∧ r = rv)); cbn [length]; rewrite IH; reflexivity.
Qed.

Lemma slots_count_absent (p : ptr) (rv : Z) (ptrs : list ptr) (fds : list Z) :
  p ∉ ptrs →
  filter (λ t : ptr * Z * Z, t.1.1 = p ∧ t.2 = rv)
         ((λ s : ptr * Z, (s.1, s.2, rv)) <$> zip ptrs fds) = [].
Proof.
  revert fds. induction ptrs as [|q ptrs IH]; intros fds Hnot; [reflexivity|].
  destruct fds as [|fd fds]; [reflexivity|].
  cbn [zip zip_with fmap list_fmap]. rewrite filter_cons. cbn [fst snd].
  destruct (decide (q = p ∧ rv = rv)) as [[-> _]|_].
  - exfalso. apply Hnot. left.
  - apply IH. intros Hin. apply Hnot. right. exact Hin.
Qed.

Lemma slots_count_once (p : ptr) (rv : Z) (ptrs : list ptr) (fds : list Z) :
  NoDup ptrs → p ∈ ptrs → length ptrs = length fds →
  length (filter (λ t : ptr * Z * Z, t.1.1 = p ∧ t.2 = rv)
            ((λ s : ptr * Z, (s.1, s.2, rv)) <$> zip ptrs fds)) = 1%nat.
Proof.
  revert fds. induction ptrs as [|q ptrs IH]; intros fds Hnd Hin Hlen.
  - inversion Hin.
  - destruct fds as [|fd fds]; [discriminate Hlen|].
    apply NoDup_cons in Hnd as [Hq Hnd].
    cbn [zip zip_with fmap list_fmap]. rewrite filter_cons. cbn [fst snd].
    destruct (decide (q = p ∧ rv = rv)) as [[-> _]|Hne].
    + cbn [length]. change (zip_with pair ptrs fds) with (zip ptrs fds).
      rewrite slots_count_absent by exact Hq. reflexivity.
    + apply elem_of_cons in Hin as [->|Hin]; [exfalso; apply Hne; auto|].
      apply IH; [exact Hnd|exact Hin|]. cbn in Hlen. lia.
Qed.

Section Sweep.

Variable code : funptr → callback.
Variable POLLERR : Z.
Variable c : ptr.
Variable Inv : nat → world → Prop.

Hypothesis Hok : ∀ i w, Inv i w → sweep_ok c w.
Hypothesis Hstep : sweep_step code POLLERR c Inv.

(** The sweep from slot [i] on: one callback for each of the live entries
    from [i] on. *)
Lemma ssh_poll_ctx_free_loop_sweep (m : nat) :
  ∀ (i : nat) (w : world) (cx : pctx.t) (used : Z) (log : list obs) (fuel : nat),
    Inv i w → ctxs w !! c = Some cx →
    0 ≤ used → length (live_slots cx) = Z.to_nat used →
    (i + m = Z.to_nat used)%nat → (m ≤ fuel)%nat →
    ∃ w1 j cbs,
      ssh_poll_ctx_free_loop code POLLERR fuel c (Z.of_nat i) used w log
      = Done (w1, log ++ cbs) ∧
      Inv j w1 ∧ length cbs = m ∧
      notified cbs ≡ₚ (λ s : ptr * Z, (s.1, s.2, POLLERR)) <$> drop i (live_slots cx).
Proof.
  induction m as [|m IH]; intros i w cx used log fuel HI Hc Hu Hlen Him Hfuel.
  - exists w, i, []. rewrite app_nil_r. split; [|split; [exact HI|split; [reflexivity|]]].
    + destruct fuel; cbn [ssh_poll_ctx_free_loop];
        replace (Z.of_nat i <? used) with false by (symmetry; apply Z.ltb_ge; lia);
        reflexivity.
    + rewrite drop_ge by lia. reflexivity.
  - destruct fuel as [|fuel]; [lia|].
    destruct (lookup_lt_is_Some_2 (live_slots cx) i) as [[p fd] Hslot]; [lia|].
    pose proof Hslot as Hzip. unfold live_slots in Hzip.
    apply lookup_zip_with_Some in Hzip as (p' & fd' & Heq & Hp & Hfd).
    injection Heq as <- <-.
    rewrite list_lookup_fmap in Hfd.
    destruct (live_fds cx !! i) as [r|] eqn:Hr; [|discriminate Hfd].
    cbn in Hfd. injection Hfd as Hfd.
    destruct (Hok i w HI) as (cx0 & Hc0 & [ptrs Hptrs] & [recs Hrecs] & Hu0 & Hlp & Hlf & Hall).
    rewrite Hc in Hc0. injection Hc0 as <-.
    assert (Hi : (i < Z.to_nat (pctx.polls_used cx))%nat)
      by (rewrite <- Hlp; exact (lookup_lt_Some _ _ _ Hp)).
    destruct (proj1 (Forall_forall _ _) Hall p (list_elem_of_lookup_2 _ _ _ Hp)) as [e He].
    destruct (Hstep i w cx p fd e HI Hc Hslot He) as (res & w1 & cx1 & Hcb & Hc1 & Hcase).
    assert (Hgetp : arr_get (pctx.pollptrs cx) (Z.of_nat i) = Done p).
    { rewrite Hptrs. apply arr_get_lookup; [lia|]. rewrite Nat2Z.id.
      pose proof Hp as Hp'. unfold live_ptrs in Hp'. rewrite Hptrs in Hp'.
      change (default [] (Some ptrs)) with ptrs in Hp'.
      rewrite lookup_take_lt in Hp' by exact Hi. exact Hp'. }
    assert (Hgetr : arr_get (pctx.pollfds cx) (Z.of_nat i) = Done r).
    { rewrite Hrecs. apply arr_get_lookup; [lia|]. rewrite Nat2Z.id.
      pose proof Hr as Hr'. unfold live_fds in Hr'. rewrite Hrecs in Hr'.
      change (default [] (Some recs)) with recs in Hr'.
      rewrite lookup_take_lt in Hr' by exact Hi. exact Hr'. }
    cbn [ssh_poll_ctx_free_loop].
    replace (Z.of_nat i <? used) with true by (symmetry; apply Z.ltb_lt; lia).
    unfold ssh_poll_ctx_free_body. run_simpl. rewrite Hc. run_simpl.
    rewrite Hgetp. run_simpl. rewrite Hgetr. run_simpl. rewrite He. run_simpl.
    rewrite Hfd, Hcb. run_simpl.
    destruct Hcase as [(Hres & Hsame & HI1)|(Hres & Hswap & HI1)].
    + replace (res <? 0) with false by (symmetry; apply Z.ltb_ge; exact Hres).
      run_simpl. replace (Z.of_nat i + 1) with (Z.of_nat (S i)) by lia.
      destruct (IH (S i) w1 cx1 used (log ++ [Callback p fd POLLERR (poll.cb_data e)]) fuel)
        as (w2 & j & cbs & Hloop & HI2 & Hcbs & Hperm);
        [exact HI1|exact Hc1|exact Hu|rewrite Hsame; exact Hlen|lia|lia|].
      exists w2, j, (Callback p fd POLLERR (poll.cb_data e) :: cbs).
      split; [|split; [exact HI2|split; [cbn; lia|]]].
      * rewrite Hloop, <- app_assoc. reflexivity.
      * change (notified (Callback p fd POLLERR (poll.cb_data e) :: cbs))
          with ((p, fd, POLLERR) :: notified cbs).
        rewrite Hperm, Hsame, (drop_S _ _ _ Hslot). reflexivity.
    + replace (res <? 0) with true by (symmetry; apply Z.ltb_lt; exact Hres).
      run_simpl. rewrite Hc1. run_simpl.
      destruct (Hok i w1 HI1) as (cx0 & Hc0 & _ & _ & Hu1 & Hlp1 & Hlf1 & _).
      rewrite Hc1 in Hc0. injection Hc0 as <-.
      assert (Hne : live_slots cx ≠ []) by (intros Hnil; rewrite Hnil in Hslot; discriminate).
      assert (Hlen1 : length (live_slots cx1) = Z.to_nat (pctx.polls_used cx1)).
      { unfold live_slots. rewrite length_zip_with, length_fmap. lia. }
      assert (Hdec : Z.to_nat (pctx.polls_used cx1) = (Z.to_nat used - 1)%nat).
      { rewrite <- Hlen1, Hswap, length_swap_remove by exact Hne. lia. }
      destruct (IH i w1 cx1 (pctx.polls_used cx1)
                  (log ++ [Callback p fd POLLERR (poll.cb_data e)]) fuel)
        as (w2 & j & cbs & Hloop & HI2 & Hcbs & Hperm);
        [exact HI1|exact Hc1|exact Hu1|exact Hlen1|lia|lia|].
      exists w2, j, (Callback p fd POLLERR (poll.cb_data e) :: cbs).
      split; [|split; [exact HI2|split; [cbn; lia|]]].
      * rewrite Hloop, <- app_assoc. reflexivity.
      * change (notified (Callback p fd POLLERR (poll.cb_data e) :: cbs))
          with ((p, fd, POLLERR) :: notified cbs).
        rewrite Hperm, Hswap, <- (drop_swap_remove i (live_slots cx) (p, fd) Hslot).
        reflexivity.
Qed.

(** C3, amended: the teardown of a context with n still-attached events
    (its two blocks allocated whenever its capacity is not zero), when every
    callback the sweep invokes returns and either returns a non-negative
    value and leaves the live entries as they are, or returns a negative
    value and leaves them with its own slot swap-removed ([sweep_step], on
    the heaps [Inv] the sweep passes through).  With a budget of n passes the
    teardown returns; it has invoked exactly n callbacks, one for each of the
    n events with its descriptor and [POLLERR], so every event attached at
    the start is notified exactly once; the two blocks and the context are
    freed after the callbacks, and the context is gone. *)
Theorem ssh_poll_ctx_free_sweep (w : world) (cx : pctx.t) (fuel : nat) :
  c ≠ NULL →
  ctxs w !! c = Some cx →
  pctx.polls_used cx ≤ pctx.polls_allocated cx →
  NoDup (live_ptrs cx) →
  (0 < pctx.polls_allocated cx → Inv 0%nat w) →
  (length (live_slots cx) ≤ fuel)%nat →
  ∃ w1 cbs,
    ssh_poll_ctx_free code POLLERR fuel c w
    = Done (w1, cbs ++ teardown_frees c (pctx.polls_allocated cx)) ∧
    length cbs = length (live_slots cx) ∧
    notified cbs ≡ₚ (λ s : ptr * Z, (s.1, s.2, POLLERR)) <$> live_slots cx ∧
    (∀ p, p ∈ live_ptrs cx →
          calls_to p POLLERR (cbs ++ teardown_frees c (pctx.polls_allocated cx)) = 1%nat) ∧
    ctxs w1 !! c = None.
Proof.
  intros Hnull Hc Hused Hnd HI Hfuel.
  destruct (pctx.polls_allocated cx >? 0) eqn:Halloc.
  - rewrite Z.gtb_ltb in Halloc. apply Z.ltb_lt in Halloc. specialize (HI Halloc).
    destruct (Hok 0%nat w HI) as (cx0 & Hc0 & _ & _ & Hu0 & Hlp & Hlf & _).
    rewrite Hc in Hc0. injection Hc0 as <-.
    assert (Hlen : length (live_slots cx) = Z.to_nat (pctx.polls_used cx)).
    { unfold live_slots. rewrite length_zip_with, length_fmap. lia. }
    destruct (ssh_poll_ctx_free_loop_sweep (Z.to_nat (pctx.polls_used cx)) 0%nat w cx
                (pctx.polls_used cx) [] fuel HI Hc Hu0 Hlen)
      as (w1 & j & cbs & Hloop & HI1 & Hcbs & Hperm); [lia|lia|].
    change (Z.of_nat 0) with 0 in Hloop. cbn [app] in Hloop. rewrite drop_0 in Hperm.
    destruct (Hok j w1 HI1) as (cx1 & Hc1 & [ptrs1 Hpp1] & [recs1 Hpf1] & _).
    apply Z.ltb_lt in Halloc. rewrite <- Z.gtb_ltb in Halloc.
    eexists; exists cbs. split; [|split; [lia|split; [exact Hperm|split]]].
    + unfold teardown_frees. rewrite Halloc.
      change ([Free c Pollptrs_block; Free c Pollfds_block] ++ [Free c Ctx_object])
        with ([Free c Pollptrs_block] ++ [Free c Pollfds_block] ++ [Free c Ctx_object]).
      rewrite !app_assoc.
      unfold ssh_poll_ctx_free. run_simpl. rewrite Hc. run_simpl. rewrite Halloc.
      rewrite Hloop. run_simpl. rewrite Hc1. run_simpl. rewrite Hpp1. unfold SAFE_FREE.
      cbn [pctx.set_pollptrs pctx.pollfds]. rewrite Hpf1.
      destruct (decide (c = NULL)) as [Heq|_]; [contradiction|]. reflexivity.
    + intros p Hp. rewrite calls_to_app.
      replace (calls_to p POLLERR (teardown_frees c (pctx.polls_allocated cx))) with 0%nat
        by (unfold teardown_frees; destruct (_ >? 0); reflexivity).
      rewrite Nat.add_0_r, calls_to_notified, Hperm. unfold live_slots.
      apply slots_count_once; [exact Hnd|exact Hp|]. rewrite length_fmap. lia.
    + unfold set_ctxs; cbn [ctxs]; apply lookup_delete_eq.
  - assert (Hn0 : Z.to_nat (pctx.polls_used cx) = 0%nat).
    { rewrite Z.gtb_ltb in Halloc. apply Z.ltb_ge in Halloc. lia. }
    assert (Hnone : live_ptrs cx = []) by (unfold live_ptrs; rewrite Hn0; apply take_0).
    assert (Hslots : live_slots cx = []) by (unfold live_slots; rewrite Hnone; reflexivity).
    eexists; exists []. split; [|split; [rewrite Hslots; reflexivity|split; [|split]]].
    + unfold ssh_poll_ctx_free. run_simpl. rewrite Hc. run_simpl. rewrite Halloc.
      run_simpl.
      destruct (decide (c = NULL)) as [Heq|_]; [contradiction|].
      unfold teardown_frees. rewrite Halloc. reflexivity.
    + rewrite Hslots. reflexivity.
    + intros p Hp. rewrite Hnone in Hp. inversion Hp.
    + unfold set_ctxs; cbn [ctxs]; apply lookup_delete_eq.
Qed.

End Sweep.

Lemma two_self_detaching_sweep_ok (i : nat) (w : world) :
  two_self_detaching_sweep i w → sweep_ok 1%nat w.
Proof.
  intros [_ [ -> | [ -> | -> ] ] ]; eexists;
    (split; [vm_compute; reflexivity|]);
    (split; [vm_compute; eexists; reflexivity|]);
    (split; [vm_compute; eexists; reflexivity|]);
    (split; [vm_compute; discriminate|]);
    (split; [vm_compute; reflexivity|]);
    (split; [vm_compute; reflexivity|]);
    repeat constructor; vm_compute; eexists; reflexivity.
Qed.

Lemma two_self_detaching_sweep_step :
  sweep_step sample_code 8 1%nat two_self_detaching_sweep.
Proof.
  intros i w cx p fd e [-> Hw] Hc Hslot He.
  destruct Hw as [ -> | [ -> | -> ] ];
    vm_compute in Hc; injection Hc as <-;
    vm_compute in Hslot; try discriminate Hslot; injection Hslot as <- <-;
    vm_compute in He; injection He as <-.
  - exists (-1), two_self_detaching_1. eexists.
    split; [vm_compute; reflexivity|]. split; [vm_compute; reflexivity|].
    right. split; [lia|]. split; [vm_compute; reflexivity|].
    split; [reflexivity|]. right. left. reflexivity.
  - exists (-1), two_self_detaching_2. eexists.
    split; [vm_compute; reflexivity|]. split; [vm_compute; reflexivity|].
    right. split; [lia|]. split; [vm_compute; reflexivity|].
    split; [reflexivity|]. right. right. reflexivity.
Qed.

Lemma ssh_poll_ctx_free_sweep_witness :
  ∃ w1 cbs,
    ssh_poll_ctx_free sample_code 8 2 1%nat two_self_detaching
    = Done (w1, cbs ++ [Free 1%nat Pollptrs_block; Free 1%nat Pollfds_block;
                        Free 1%nat Ctx_object]) ∧
    notified cbs ≡ₚ [(2%nat, 10, 8); (3%nat, 11, 8)] ∧
    ctxs w1 !! 1%nat = None.
Proof.
  destruct (ssh_poll_ctx_free_sweep sample_code 8 1%nat two_self_detaching_sweep
              two_self_detaching_sweep_ok two_self_detaching_sweep_step
              two_self_detaching
              (pctx.mk (Some [2%nat; 3%nat; 0%nat; 0%nat; 0%nat])
                 (Some [pollfd.mk 10 1 0; pollfd.mk 11 1 0;
                        pollfd.junk; pollfd.junk; pollfd.junk]) 5 2 5)
              2%nat)
    as (w1 & cbs & Hrun & _ & Hperm & _ & Hgone).
  - vm_compute; lia.
  - vm_compute; reflexivity.
  - simpl; lia.
  - apply (bool_decide_unpack _). vm_compute. exact I.
  - intros _. split; [reflexivity|left; reflexivity].
  - simpl; lia.
  - exists w1, cbs. split; [exact Hrun|]. split; [exact Hperm|exact Hgone].
Defined.

(** C3, as specified, does not hold for every callback: when the callback of
    the first of two attached events detaches both and returns the removal
    value, the sweep ends without ever notifying the second. *)
Lemma ssh_poll_ctx_free_skips_detached :
  ¬ teardown_notifies_each_once sample_code 8 1%nat first_detaches_both.
Proof.
  intros (cx & ptrs & fuel & w1 & log & Hc & Hp & Hrun & Hall).
  vm_compute in Hc. injection Hc as <-. cbn in Hp. injection Hp as <-.
  specialize (Hall 3%nat). cbn in Hall.
  assert (Hin : 3%nat ∈ [2%nat; 3%nat]) by set_solver.
  specialize (Hall Hin).
  destruct fuel as [|[|fuel]];
    vm_compute in Hrun; try discriminate Hrun;
    injection Hrun as Hw Hlog; subst log; vm_compute in Hall; discriminate Hall.
Qed.


(** With three events whose callbacks detach their own event, the stale
    position left by the first detach (see C1) derails the sweep: the event
    of descriptor 12 is notified twice and the event of descriptor 11 never,
    and the latter still names the freed context. *)
Lemma ssh_poll_ctx_free_revisits_moved_event :
  ∃ w, ssh_poll_ctx_free sample_code 8 10 1%nat three_self_detaching
       = Done (w, [Callback 2%nat 10 8 0; Callback 4%nat 12 8 0; Callback 4%nat 12 8 0;
                   Free 1%nat Pollptrs_block; Free 1%nat Pollfds_block;
                   Free 1%nat Ctx_object]) ∧
       ssh_poll_get_ctx 3%nat w = Done 1%nat ∧ ctxs w !! 1%nat = None.
Proof.
  destruct (ssh_poll_ctx_free sample_code 8 10 1%nat three_self_detaching)
    as [[w log]| |] eqn:Hrun; try (vm_compute in Hrun; discriminate Hrun).
  exists w.
  assert (Done (w, log)
          = '(w, log) ← ssh_poll_ctx_free sample_code 8 10 1%nat three_self_detaching;
            Done (w, log)) as Heq by (rewrite Hrun; reflexivity).
  vm_compute in Heq. injection Heq as -> ->.
  repeat split; vm_compute; reflexivity.
Qed.

(** ** The emulated wait primitive *)

Lemma u32_small (z : Z) : 0 ≤ z < 2 ^ 32 → u32 z = z.
Proof. intros H. unfold u32. apply Z.mod_small. exact H. Qed.

Lemma u32_range (z : Z) : 0 ≤ u32 z < 2 ^ 32.
Proof. unfold u32. apply Z.mod_pos_bound. reflexivity. Qed.

Lemma u32_i32 (z : Z) : 0 ≤ z < 2 ^ 32 → u32 (i32 z) = z.
Proof.
  intros H. unfold u32, i32. rewrite Zminus_mod_idemp_l.
  replace (z + 2 ^ 31 - 2 ^ 31) with z by lia. apply Z.mod_small. exact H.
Qed.

Lemma i32_small (z : Z) : - 2 ^ 31 ≤ z < 2 ^ 31 → i32 z = z.
Proof. intros H. unfold i32. rewrite Z.mod_small by lia. lia. Qed.

(** For an [int], being -1 and converting to the [DWORD] 0xFFFFFFFF are the
    same. *)
Lemma u32_minus_one (z : Z) : - 2 ^ 31 ≤ z < 2 ^ 31 → u32 z = 2 ^ 32 - 1 → z = -1.
Proof.
  intros Hz Heq. unfold u32 in Heq.
  destruct (Z_lt_le_dec z 0) as [Hneg|Hpos].
  - replace z with (z + 2 ^ 32 - 1 * 2 ^ 32) in Heq by lia.
    rewrite Zminus_mod, Z_mod_mult, Z.sub_0_r, Z.mod_mod in Heq by lia.
    rewrite Z.mod_small in Heq by lia. lia.
  - rewrite Z.mod_small in Heq by lia. lia.
Qed.

Section EmulationProofs.

Variable K : winapi.
Variable wait : list syscall → Z → list Z → Z → Z → Z → Z.

Lemma collect_handles_nonpositive (fs : list pollfd.t) (handles : list Z) (nhandles : Z) :
  Forall (λ f, pollfd.fd f ≤ 0) fs →
  collect_handles K fs handles nhandles = (handles, nhandles).
Proof.
  induction 1 as [|f fs Hf _ IH]; [reflexivity|].
  cbn [collect_handles].
  replace (pollfd.fd f >? 0) with false
    by (rewrite Z.gtb_ltb; symmetry; apply Z.ltb_ge; exact Hf).
  exact IH.
Qed.

(** C10, amended: with fewer than [MAXIMUM_WAIT_OBJECTS] cells, none of them
    with a strictly positive descriptor, a call with the infinite timeout
    returns -1 at once, without any system call, and with the returned
    events of all [nfds] cells cleared.  ([INFINITE] is a [DWORD] value.) *)
Theorem ssh_poll_infinite_without_handles (cells : list pollfd.t) (nfds : Z) :
  0 ≤ INFINITE K < 2 ^ 32 →
  nfds < MAXIMUM_WAIT_OBJECTS K →
  Forall (λ f, pollfd.fd f ≤ 0) (take (Z.to_nat nfds) cells) →
  ssh_poll K wait (Some cells) nfds (-1)
  = Polled (-1) (Some (clear_revents nfds cells)) [] (Some EBADF).
Proof.
  intros Hinf Hn Hfds. unfold ssh_poll.
  replace (nfds >=? MAXIMUM_WAIT_OBJECTS K) with false
    by (rewrite Z.geb_leb; symmetry; apply Z.leb_gt; exact Hn).
  rewrite collect_handles_nonpositive by exact Hfds.
  change (0 >? 1) with false. cbn iota.
  rewrite poll_rest_equation_1. unfold poll_rest_ready.
  change (-1 =? -1) with true. cbn iota. change (0 =? 0) with true. cbn iota.
  rewrite (u32_i32 _ Hinf), !Z.eqb_refl. reflexivity.
Qed.

(** A probe that returns 0 has made one wait and changed nothing else. *)
Lemma poll_rest_probe_zero (handles : list Z) (nhandles : Z) (fds : list pollfd.t)
    (nfds : Z) (log : list syscall) :
  nhandles ≠ 0 →
  fst (poll_rest K wait handles nhandles fds nfds 0 log) = 0 →
  poll_rest K wait handles nhandles fds nfds 0 log
  = (0, Emu handles fds
          (log ++ [WaitForMultipleObjectsEx (u32 nhandles)
                     (take (Z.to_nat nhandles) handles) 0 (u32 0) 1])).
Proof.
  intros Hn. rewrite poll_rest_equation_1. unfold poll_rest_ready.
  replace (nhandles =? 0) with false by (symmetry; apply Z.eqb_neq; exact Hn).
  set (ready := u32 _).
  destruct (ready =? WAIT_FAILED K); [cbn; discriminate|].
  destruct ((ready =? WAIT_TIMEOUT K) || (ready =? WAIT_IO_COMPLETION K)); [reflexivity|].
  destruct ((ready >=? WAIT_OBJECT_0 K) && (ready <? u32 (WAIT_OBJECT_0 K + nhandles)));
    [|reflexivity].
  cbv zeta.
  destruct (decide (0 = 0 ∧ nhandles > 1)) as [_|_]; [|cbn; discriminate].
  destruct (poll_rest K wait _ (nhandles - 1) _ nfds 0 _) as [rr st].
  destruct (rr <? 0) eqn:Hrr; cbn [fst]; [discriminate|].
  apply Z.ltb_ge in Hrr. lia.
Qed.

(** A wait with a nonzero timeout on at least one handle is one system
    call. *)
Lemma poll_rest_single_wait (handles : list Z) (nhandles : Z) (fds : list pollfd.t)
    (nfds timeout : Z) (log : list syscall) :
  nhandles ≠ 0 → timeout ≠ 0 →
  st_log (snd (poll_rest K wait handles nhandles fds nfds timeout log))
  = log ++ [WaitForMultipleObjectsEx (u32 nhandles)
              (take (Z.to_nat nhandles) handles) 0 (u32 timeout) 1].
Proof.
  intros Hn Ht. rewrite poll_rest_equation_1. unfold poll_rest_ready.
  replace (nhandles =? 0) with false by (symmetry; apply Z.eqb_neq; exact Hn).
  set (ready := u32 _).
  destruct (ready =? WAIT_FAILED K); [reflexivity|].
  destruct ((ready =? WAIT_TIMEOUT K) || (ready =? WAIT_IO_COMPLETION K)); [reflexivity|].
  destruct ((ready >=? WAIT_OBJECT_0 K) && (ready <? u32 (WAIT_OBJECT_0 K + nhandles)));
    [|reflexivity].
  cbv zeta.
  destruct (decide (timeout = 0 ∧ nhandles > 1)) as [[H0 _]|_]; [contradiction|reflexivity].
Qed.

(** C6, amended: with more than one distinct handle and a probe that finds
    nothing ready, the wait is made again, on the same handles and with the
    caller's timeout, when that timeout is the infinite value or at least 10
    milliseconds; with any other timeout (0 to 9 milliseconds among them)
    the probe is the only wait and the call returns 0.  ([INFINITE] is the
    [DWORD] 0xFFFFFFFF and the timeout an [int].) *)
Theorem ssh_poll_repeats_wait (cells : list pollfd.t) (nfds timeout : Z)
    (hs : list Z) (n : Z) :
  INFINITE K = 2 ^ 32 - 1 →
  - 2 ^ 31 ≤ timeout < 2 ^ 31 →
  nfds < MAXIMUM_WAIT_OBJECTS K →
  handle_set K cells nfds = (hs, n) →
  n > 1 →
  fst (poll_rest K wait hs n cells nfds 0 []) = 0 →
  let probe := WaitForMultipleObjectsEx (u32 n) (take (Z.to_nat n) hs) 0 0 1 in
  (timeout = -1 ∨ 10 ≤ timeout →
     calls (ssh_poll K wait (Some cells) nfds timeout)
     = [probe; WaitForMultipleObjectsEx (u32 n) (take (Z.to_nat n) hs) 0 (u32 timeout) 1]) ∧
  (timeout ≠ -1 → timeout < 10 →
     calls (ssh_poll K wait (Some cells) nfds timeout) = [probe] ∧
     rc (ssh_poll K wait (Some cells) nfds timeout) = 0).
Proof.
  intros Hinf Hint Hnfds Hset Hn Hprobe probe.
  assert (Hn0 : n ≠ 0) by lia.
  assert (Hinf' : 0 ≤ INFINITE K < 2 ^ 32) by (rewrite Hinf; lia).
  pose proof (poll_rest_probe_zero hs n cells nfds [] Hn0 Hprobe) as Hp.
  cbn [app] in Hp. change (u32 0) with 0 in Hp. fold probe in Hp.
  assert (Hhead : ∀ t, ssh_poll K wait (Some cells) nfds t
            = let timeout := if t =? -1 then i32 (INFINITE K) else t in
              let '(rc, st) :=
                if (0 =? 0) && ((u32 timeout =? INFINITE K) || (timeout >=? 10))
                then poll_rest K wait hs n cells nfds timeout [probe]
                else (0, Emu hs cells [probe]) in
              if rc <? 0
              then Polled rc (Some (clear_revents nfds (st_fds st))) (st_log st) (Some EBADF)
              else Polled rc (Some (st_fds st)) (st_log st) None).
  { intros t. unfold ssh_poll.
    replace (nfds >=? MAXIMUM_WAIT_OBJECTS K) with false
      by (rewrite Z.geb_leb; symmetry; apply Z.leb_gt; exact Hnfds).
    unfold handle_set in Hset. rewrite Hset.
    replace (n >? 1) with true by (rewrite Z.gtb_ltb; symmetry; apply Z.ltb_lt; lia).
    rewrite Hp. reflexivity. }
  split.
  - intros Htime. rewrite Hhead. cbv zeta.
    set (t' := if timeout =? -1 then i32 (INFINITE K) else timeout).
    assert (Hu : u32 t' = u32 timeout).
    { subst t'. destruct (Z.eqb_spec timeout (-1)) as [->|_]; [|reflexivity].
      rewrite (u32_i32 _ Hinf'), Hinf. reflexivity. }
    assert (Ht0 : t' ≠ 0).
    { subst t'. destruct (Z.eqb_spec timeout (-1)) as [->|Hne]; [|lia].
      rewrite Hinf. discriminate. }
    assert (Hcond : (u32 t' =? INFINITE K) || (t' >=? 10) = true).
    { apply orb_true_iff. subst t'.
      destruct (Z.eqb_spec timeout (-1)) as [->|Hne].
      - left. rewrite (u32_i32 _ Hinf'). apply Z.eqb_refl.
      - right. rewrite Z.geb_leb. apply Z.leb_le. lia. }
    rewrite Hcond. cbn [andb Z.eqb].
    pose proof (poll_rest_single_wait hs n cells nfds t' [probe] Hn0 Ht0) as Hlog.
    destruct (poll_rest K wait hs n cells nfds t' [probe]) as [rc' st].
    cbn [snd] in Hlog. rewrite Hu in Hlog.
    destruct (rc' <? 0); cbn [calls]; exact Hlog.
  - intros Hne Hlt. rewrite Hhead. cbv zeta.
    replace (timeout =? -1) with false by (symmetry; apply Z.eqb_neq; exact Hne).
    assert (Hcond : (u32 timeout =? INFINITE K) || (timeout >=? 10) = false).
    { apply orb_false_iff. split.
      - apply Z.eqb_neq. rewrite Hinf. intros Heq.
        apply Hne. apply u32_minus_one; assumption.
      - rewrite Z.geb_leb. apply Z.leb_gt. exact Hlt. }
    rewrite Hcond. cbn. split; reflexivity.
Qed.

End EmulationProofs.

(** ** Cells without a descriptor *)

Lemma lookup_prefix_fmap {A} (g : A → A) (n : nat) (l : list A) (j : nat) (x : A) :
  l !! j = Some x →
  ((g <$> take n l) ++ drop n l) !! j = Some (if decide (j < n)%nat then g x else x).
Proof.
  intros Hx. pose proof (lookup_lt_Some _ _ _ Hx) as Hlen.
  destruct (decide (j < n)%nat) as [Hlt|Hge].
  - rewrite lookup_app_l by (rewrite length_fmap, length_take; lia).
    rewrite list_lookup_fmap, lookup_take_lt by exact Hlt. rewrite Hx. reflexivity.
  - rewrite lookup_app_r by (rewrite length_fmap, length_take; lia).
    rewrite length_fmap, length_take, lookup_drop.
    replace (n + (j - n `min` length l))%nat with j by lia. exact Hx.
Qed.

Lemma mark_fired_other (h nfds : Z) (fds : list pollfd.t) (j : nat) (f : pollfd.t) :
  fds !! j = Some f → pollfd.fd f ≠ h → mark_fired h nfds fds !! j = Some f.
Proof.
  intros Hf Hne. unfold mark_fired. rewrite (lookup_prefix_fmap _ _ _ _ _ Hf).
  replace (pollfd.fd f =? h) with false by (symmetry; apply Z.eqb_neq; exact Hne).
  destruct (decide _); reflexivity.
Qed.

Lemma clear_revents_lookup (nfds : Z) (fds : list pollfd.t) (j : nat) (f : pollfd.t) :
  fds !! j = Some f →
  clear_revents nfds fds !! j
  = Some (if decide (j < Z.to_nat nfds)%nat then pollfd.set_revents 0 f else f).
Proof. intros Hf. unfold clear_revents. apply lookup_prefix_fmap. exact Hf. Qed.

Lemma positive_prefix_nth (N : nat) (hs : list Z) (i : nat) :
  positive_prefix N hs → (i < N)%nat → 0 < nth i hs 0.
Proof.
  intros [Hlen Hpos] Hi.
  destruct (lookup_lt_is_Some_2 hs i) as [x Hx]; [lia|].
  rewrite (nth_lookup_Some _ _ _ _ Hx).
  eapply Forall_lookup_1; [exact Hpos|]. rewrite lookup_take_lt by exact Hi. exact Hx.
Qed.

Lemma positive_prefix_take (N n : nat) (hs : list Z) :
  positive_prefix N hs → (n ≤ N)%nat → Forall (λ h, 0 < h) (take n hs).
Proof.
  intros [_ Hpos] Hn. replace n with (n `min` N)%nat by lia.
  rewrite <- take_take. apply Forall_take. exact Hpos.
Qed.

Lemma shift_handles_prefix (cnt : nat) (i : Z) (hs : list Z) (N : nat) :
  1 ≤ i → (Z.to_nat i + cnt ≤ N)%nat →
  positive_prefix N hs → positive_prefix N (shift_handles cnt i hs).
Proof.
  revert i hs. induction cnt as [|cnt IH]; intros i hs Hi Hcnt Hok; [exact Hok|].
  cbn [shift_handles]. apply IH; [lia|lia|].
  pose proof (positive_prefix_nth N hs (Z.to_nat i) Hok ltac:(lia)) as Hnth.
  destruct Hok as [Hlen Hpos]. split; [rewrite length_insert; exact Hlen|].
  rewrite take_insert_lt by lia. apply Forall_insert; assumption.
Qed.

Section Nonpositive.

Variable K : winapi.
Variable wait : list syscall → Z → list Z → Z → Z → Z → Z.

Lemma collect_handles_prefix (fs : list pollfd.t) (hs : list Z) (n : Z) :
  length hs = Z.to_nat (MAXIMUM_WAIT_OBJECTS K) →
  0 ≤ n ≤ MAXIMUM_WAIT_OBJECTS K →
  positive_prefix (Z.to_nat n) hs →
  let r := collect_handles K fs hs n in
  length (fst r) = Z.to_nat (MAXIMUM_WAIT_OBJECTS K) ∧
  0 ≤ snd r ≤ MAXIMUM_WAIT_OBJECTS K ∧
  positive_prefix (Z.to_nat (snd r)) (fst r).
Proof.
  revert hs n. induction fs as [|f fs IH]; intros hs n Hlen Hn Hok; [cbn; auto|].
  cbn [collect_handles].
  destruct (pollfd.fd f >? 0) eqn:Hfd; [|apply IH; assumption].
  destruct (_ =? n); [|apply IH; assumption].
  destruct (Z.eqb_spec n (MAXIMUM_WAIT_OBJECTS K)) as [Heq|Hne]; [cbn; auto|].
  apply IH; [rewrite length_insert; exact Hlen|lia|].
  destruct Hok as [Hl Hpos].
  replace (Z.to_nat (n + 1)) with (S (Z.to_nat n)) by lia.
  split; [rewrite length_insert; lia|].
  rewrite (take_S_r _ _ (pollfd.fd f)) by (apply list_lookup_insert_eq; lia).
  rewrite take_insert_ge by lia.
  apply Forall_app. split; [exact Hpos|].
  constructor; [|constructor]. rewrite Z.gtb_ltb in Hfd. apply Z.ltb_lt. exact Hfd.
Qed.

(** The handle set gathered by [ssh_poll] holds strictly positive handles. *)
Lemma handle_set_positive (cells : list pollfd.t) (nfds : Z) :
  0 ≤ MAXIMUM_WAIT_OBJECTS K →
  let r := handle_set K cells nfds in
  length (fst r) = Z.to_nat (MAXIMUM_WAIT_OBJECTS K) ∧
  0 ≤ snd r ≤ MAXIMUM_WAIT_OBJECTS K ∧
  positive_prefix (Z.to_nat (snd r)) (fst r).
Proof.
  intros Hmax. apply collect_handles_prefix.
  - apply length_replicate.
  - lia.
  - split; [cbn; lia|constructor].
Qed.

Lemma poll_rest_ready_positive (hs : list Z) (n timeout : Z) (log : list syscall) (N : nat) :
  (Z.to_nat n ≤ N)%nat → positive_prefix N hs → Forall positive_call log →
  Forall positive_call (snd (poll_rest_ready K wait hs n timeout log)).
Proof.
  intros Hn Hok Hlog. unfold poll_rest_ready.
  destruct (n =? 0).
  - destruct (u32 timeout =? INFINITE K); cbn [snd]; [exact Hlog|].
    apply Forall_app. split; [exact Hlog|]. repeat constructor.
  - cbn [snd]. apply Forall_app. split; [exact Hlog|].
    constructor; [|constructor]. cbn. eapply positive_prefix_take; eassumption.
Qed.

(** [poll_rest] waits on strictly positive handles only and leaves every
    cell without a strictly positive descriptor as it found it. *)
Lemma poll_rest_nonpositive (k : nat) :
  ∀ (hs : list Z) (n : Z) (fds : list pollfd.t) (nfds timeout : Z)
    (log : list syscall) (N : nat),
    Z.to_nat n = k → 0 ≤ WAIT_OBJECT_0 K → 0 ≤ n → WAIT_OBJECT_0 K + n < 2 ^ 31 →
    (Z.to_nat n ≤ N)%nat →
    positive_prefix N hs → Forall positive_call log →
    let r := poll_rest K wait hs n fds nfds timeout log in
    positive_prefix N (st_handles (snd r)) ∧
    Forall positive_call (st_log (snd r)) ∧
    ∀ j f, fds !! j = Some f → pollfd.fd f ≤ 0 → st_fds (snd r) !! j = Some f.
Proof.
  induction k as [k IH] using lt_wf_ind.
  intros hs n fds nfds timeout log N Hk HW Hn Hsum HN Hok Hlog r. subst r.
  rewrite poll_rest_equation_1.
  pose proof (poll_rest_ready_positive hs n timeout log N HN Hok Hlog) as Hlog1.
  destruct (poll_rest_ready K wait hs n timeout log) as [ready log1].
  cbn [snd] in Hlog1.
  destruct (ready =? WAIT_FAILED K); [cbn; auto|].
  destruct ((ready =? WAIT_TIMEOUT K) || (ready =? WAIT_IO_COMPLETION K)); [cbn; auto|].
  destruct ((ready >=? WAIT_OBJECT_0 K) && (ready <? u32 (WAIT_OBJECT_0 K + n))) eqn:Hin;
    [|cbn; auto].
  apply andb_true_iff in Hin as [Hge Hlt].
  rewrite Z.geb_leb in Hge. apply Z.leb_le in Hge. apply Z.ltb_lt in Hlt.
  rewrite u32_small in Hlt by lia.
  cbv zeta. rewrite (u32_small (ready - WAIT_OBJECT_0 K)) by lia.
  assert (Hh : 0 < nth (Z.to_nat (ready - WAIT_OBJECT_0 K)) hs 0)
    by (apply (positive_prefix_nth N); [exact Hok|lia]).
  assert (Hmark : ∀ j f, fds !! j = Some f → pollfd.fd f ≤ 0 →
            mark_fired (nth (Z.to_nat (ready - WAIT_OBJECT_0 K)) hs 0) nfds fds !! j
            = Some f).
  { intros j f Hf Hfd. apply mark_fired_other; [exact Hf|lia]. }
  destruct (decide (timeout = 0 ∧ n > 1)) as [[_ Hn1]|_]; [|cbn; auto].
  set (hs1 := if ready <? u32 (n - 1) then _ else hs).
  assert (Hok1 : positive_prefix N hs1).
  { subst hs1. destruct (ready <? u32 (n - 1)); [|exact Hok].
    rewrite (u32_small (ready - WAIT_OBJECT_0 K + 1)) by lia.
    rewrite (i32_small (ready - WAIT_OBJECT_0 K + 1)) by lia.
    apply shift_handles_prefix; [lia|lia|exact Hok]. }
  destruct (IH (Z.to_nat (n - 1)) ltac:(lia) hs1 (n - 1)
              (mark_fired (nth (Z.to_nat (ready - WAIT_OBJECT_0 K)) hs 0) nfds fds)
              nfds 0 log1 N eq_refl HW ltac:(lia) ltac:(lia) ltac:(lia) Hok1 Hlog1)
    as (H1 & H2 & H3).
  destruct (poll_rest K wait hs1 (n - 1) _ nfds 0 log1) as [rr st].
  cbn [snd] in H1, H2, H3.
  destruct (rr <? 0); cbn [snd]; (split; [exact H1|split; [exact H2|]]);
    intros j f Hf Hfd; apply H3; auto.
Qed.

(** What [ssh_poll] does to a cell without a strictly positive descriptor,
    and which handles it waits on. *)
Lemma ssh_poll_nonpositive_cell (cells : list pollfd.t) (nfds timeout : Z)
    (j : nat) (f : pollfd.t) :
  small_handle_range K →
  cells !! j = Some f → pollfd.fd f ≤ 0 →
  let r := ssh_poll K wait (Some cells) nfds timeout in
  Forall positive_call (calls r) ∧
  ∃ l f', out_fds r = Some l ∧ l !! j = Some f' ∧
          (f' = f ∨ f' = pollfd.set_revents 0 f).
Proof.
  intros (HW & Hmax & Hsum) Hf Hfd r. subst r. unfold ssh_poll.
  destruct (nfds >=? MAXIMUM_WAIT_OBJECTS K).
  { cbn. split; [constructor|]. exists cells, f. auto. }
  pose proof (handle_set_positive cells nfds Hmax) as Hcol.
  unfold handle_set in Hcol.
  destruct (collect_handles K _ _ 0) as [hs n]. cbn [fst snd] in Hcol.
  destruct Hcol as (Hlen & Hn & Hok).
  set (t := if timeout =? -1 then i32 (INFINITE K) else timeout).
  assert (Hfinal : ∀ rc0 st,
            Forall positive_call (st_log st) → st_fds st !! j = Some f →
            let r := if rc0 <? 0
                     then Polled rc0 (Some (clear_revents nfds (st_fds st))) (st_log st)
                            (Some EBADF)
                     else Polled rc0 (Some (st_fds st)) (st_log st) None in
            Forall positive_call (calls r) ∧
            ∃ l f', out_fds r = Some l ∧ l !! j = Some f' ∧
                    (f' = f ∨ f' = pollfd.set_revents 0 f)).
  { intros rc0 st Hlog Hj. destruct (rc0 <? 0); cbn; (split; [exact Hlog|]).
    - eexists; eexists. split; [reflexivity|]. split.
      + apply clear_revents_lookup. exact Hj.
      + destruct (decide _); auto.
    - exists (st_fds st), f. auto. }
  assert (Hinv : ∀ hs0 fds0 t0 log0,
            positive_prefix (Z.to_nat n) hs0 → Forall positive_call log0 →
            let r := poll_rest K wait hs0 n fds0 nfds t0 log0 in
            positive_prefix (Z.to_nat n) (st_handles (snd r)) ∧
            Forall positive_call (st_log (snd r)) ∧
            ∀ j f, fds0 !! j = Some f → pollfd.fd f ≤ 0 → st_fds (snd r) !! j = Some f).
  { intros hs0 fds0 t0 log0 Hok0 Hlog0.
    apply (poll_rest_nonpositive (Z.to_nat n)); try assumption; try reflexivity; lia. }
  destruct (n >? 1).
  - destruct (Hinv hs cells 0 [] Hok (Forall_nil_2 _)) as (Hok1 & Hlog1 & Hfds1).
    destruct (poll_rest K wait hs n cells nfds 0 []) as [rc1 st1].
    cbn [snd] in Hok1, Hlog1, Hfds1.
    destruct ((rc1 =? 0) && ((u32 t =? INFINITE K) || (t >=? 10))).
    + destruct (Hinv (st_handles st1) (st_fds st1) t (st_log st1) Hok1 Hlog1)
        as (_ & Hlog2 & Hfds2).
      destruct (poll_rest K wait (st_handles st1) n (st_fds st1) nfds t (st_log st1))
        as [rc2 st2].
      cbn [snd] in Hlog2, Hfds2. apply Hfinal; [exact Hlog2|].
      apply Hfds2; [|exact Hfd]. apply Hfds1; assumption.
    + apply Hfinal; [exact Hlog1|]. apply Hfds1; assumption.
  - destruct (Hinv hs cells t [] Hok (Forall_nil_2 _)) as (_ & Hlog1 & Hfds1).
    destruct (poll_rest K wait hs n cells nfds t []) as [rc1 st1].
    cbn [snd] in Hlog1, Hfds1.
    apply Hfinal; [exact Hlog1|]. apply Hfds1; assumption.
Qed.

(** C9: a cell whose descriptor is not strictly positive is not in the
    handle set and on no handle list the call waits on, and it comes back as
    it was or with its returned events cleared, so a fired handle never sets
    them; conversely a cell whose returned events come back non-zero and
    changed has a strictly positive descriptor.  (Handle counts and indices
    fit an [int].) *)
Theorem ssh_poll_ignores_nonpositive (cells : list pollfd.t) (nfds timeout : Z)
    (j : nat) (f : pollfd.t) :
  small_handle_range K →
  cells !! j = Some f → pollfd.fd f ≤ 0 →
  let r := ssh_poll K wait (Some cells) nfds timeout in
  (pollfd.fd f ∉ take (Z.to_nat (snd (handle_set K cells nfds)))
                      (fst (handle_set K cells nfds))) ∧
  (∀ call, call ∈ calls r → ¬ waits_on (pollfd.fd f) call) ∧
  (∃ l f', out_fds r = Some l ∧ l !! j = Some f' ∧
           (f' = f ∨ f' = pollfd.set_revents 0 f) ∧
           (pollfd.revents f' ≠ 0 → pollfd.revents f' = pollfd.revents f)) ∧
  (∀ k g l g', cells !! k = Some g → out_fds r = Some l → l !! k = Some g' →
               pollfd.revents g' ≠ 0 → pollfd.revents g' ≠ pollfd.revents g →
               0 < pollfd.fd g).
Proof.
  intros Hrange Hf Hfd r.
  destruct (ssh_poll_nonpositive_cell cells nfds timeout j f Hrange Hf Hfd)
    as (Hcalls & l & f' & Hout & Hl & Hcase).
  fold r in Hcalls, Hout. split; [|split; [|split]].
  - destruct Hrange as (_ & Hmax & _).
    destruct (handle_set_positive cells nfds Hmax) as (_ & _ & _ & Hpos).
    intros Hin. pose proof (proj1 (Forall_forall _ _) Hpos _ Hin) as H0. cbn in H0. lia.
  - intros call Hin Hwait.
    pose proof (proj1 (Forall_forall _ _) Hcalls call Hin) as Hpos.
    destruct call as [|m hs' a ms b]; [exact Hwait|]. cbn in Hpos, Hwait.
    pose proof (proj1 (Forall_forall _ _) Hpos _ Hwait) as H0. cbn in H0. lia.
  - exists l, f'. split; [exact Hout|]. split; [exact Hl|]. split; [exact Hcase|].
    intros Hne. destruct Hcase as [->| ->]; [reflexivity|]. cbn in Hne. contradiction.
  - intros k g l0 g' Hg Hout0 Hg' Hne Hchg.
    destruct (Z_lt_le_dec 0 (pollfd.fd g)) as [Hpos|Hnon]; [exact Hpos|exfalso].
    destruct (ssh_poll_nonpositive_cell cells nfds timeout k g Hrange Hg Hnon)
      as (_ & l1 & g1 & Hout1 & Hl1 & Hcase1).
    fold r in Hout1. rewrite Hout0 in Hout1. injection Hout1 as <-.
    rewrite Hg' in Hl1. injection Hl1 as <-.
    destruct Hcase1 as [->| ->]; [apply Hchg; reflexivity|apply Hne; reflexivity].
Qed.

End Nonpositive.

Lemma ssh_poll_ignores_nonpositive_witness :
  ∃ l f', out_fds (ssh_poll win32 never_ready (Some mixed_cells) 4 50) = Some l ∧
          l !! 1%nat = Some f' ∧
          (f' = pollfd.mk 0 1 5 ∨ f' = pollfd.set_revents 0 (pollfd.mk 0 1 5)).
Proof.
  destruct (ssh_poll_ignores_nonpositive win32 never_ready mixed_cells 4 50 1%nat
              (pollfd.mk 0 1 5))
    as (_ & _ & (l & f' & Hout & Hl & Hcase & _) & _).
  - unfold small_handle_range; simpl; lia.
  - reflexivity.
  - simpl; lia.
  - exists l, f'. repeat split; assumption.
Defined.

Lemma ssh_poll_infinite_without_handles_witness :
  ssh_poll win32 never_ready (Some [pollfd.mk 0 1 5; pollfd.mk (-1) 1 3]) 2 (-1)
  = Polled (-1) (Some [pollfd.mk 0 1 0; pollfd.mk (-1) 1 0]) [] (Some EBADF).
Proof.
  apply (ssh_poll_infinite_without_handles win32 never_ready
           [pollfd.mk 0 1 5; pollfd.mk (-1) 1 3] 2).
  - simpl; lia.
  - simpl; lia.
  - simpl. repeat constructor; simpl; lia.
Defined.

(** C10, as specified, does not hold for every input: sixty-four cells
    without a descriptor are refused with -1 before anything is cleared, and
    their returned events stay set. *)
Lemma ssh_poll_too_many_cells_not_cleared :
  ¬ infinite_as_specified win32 never_ready sixty_four_idle 64.
Proof.
  intros H. destruct H as (_ & l & Hout & Hall).
  - apply (bool_decide_unpack _). vm_compute. exact I.
  - vm_compute in Hout. injection Hout as <-.
    apply Forall_inv in Hall. vm_compute in Hall. discriminate Hall.
Qed.

(** C6, as specified, does not hold for every nonzero timeout: with two
    distinct handles, nothing ready and a timeout of 5 milliseconds the
    probe is the only wait. *)
Lemma ssh_poll_short_timeout_not_repeated :
  ¬ repeat_as_specified win32 never_ready two_sockets 2 5.
Proof.
  unfold repeat_as_specified.
  destruct (handle_set win32 two_sockets 2) as [hs n] eqn:Hset.
  vm_compute in Hset. injection Hset as <- <-.
  intros H. destruct H as (n & hs & Hcalls).
  - lia.
  - vm_compute; reflexivity.
  - left; lia.
  - vm_compute in Hcalls. discriminate Hcalls.
Qed.

Lemma ssh_poll_repeats_wait_witness :
  calls (ssh_poll win32 never_ready (Some two_sockets) 2 50)
  = [WaitForMultipleObjectsEx 2 [7; 9] 0 0 1; WaitForMultipleObjectsEx 2 [7; 9] 0 50 1].
Proof.
  refine (proj1 (ssh_poll_repeats_wait win32 never_ready two_sockets 2 50
                   (fst (handle_set win32 two_sockets 2)) 2 _ _ _ _ _ _) _).
  - reflexivity.
  - lia.
  - simpl; lia.
  - vm_compute; reflexivity.
  - lia.
  - vm_compute; reflexivity.
  - right; lia.
Defined.

(** * Further properties of the context operations *)

(** ** Allocation and array access *)

Lemma next_alloc_granted (w : world) :
  all_granted w →
  ∃ w1, next_alloc w = (true, w1) ∧ polls w1 = polls w ∧ ctxs w1 = ctxs w ∧
        brk w1 = brk w ∧ all_granted w1.
Proof.
  intros Hg. unfold next_alloc, all_granted in *.
  destruct (alloc_script w) as [|b s] eqn:Hs.
  - exists w. rewrite Hs. auto.
  - apply Forall_cons in Hg as [-> Hg]. eexists. split; [reflexivity|]. cbn. auto.
Qed.

Lemma realloc_granted {A} (junk : A) (old : option (list A)) (n : Z) (w : world) :
  all_granted w →
  ∃ w1, realloc junk old n w = (Some (resize_block junk n old), w1) ∧
        polls w1 = polls w ∧ ctxs w1 = ctxs w ∧ brk w1 = brk w ∧ all_granted w1.
Proof.
  intros Hg. destruct (next_alloc_granted w Hg) as (w1 & Hn & H). exists w1.
  unfold realloc. rewrite Hn. auto.
Qed.

Lemma lookup_resize_block {A} (junk : A) (n : Z) (l : list A) (j : nat) :
  (j < Z.to_nat n)%nat → (j < length l)%nat →
  resize_block junk n (Some l) !! j = l !! j.
Proof.
  intros Hn Hl. unfold resize_block. cbv zeta.
  change (default [] (Some l)) with l.
  rewrite lookup_app_l by (rewrite length_take; lia).
  apply lookup_take_lt. exact Hn.
Qed.

Lemma take_resize_block {A} (junk : A) (n : Z) (old : option (list A)) (k : nat) :
  (k ≤ Z.to_nat n)%nat → (k ≤ length (default [] old))%nat →
  take k (resize_block junk n old) = take k (default [] old).
Proof.
  intros Hn Hl. unfold resize_block. cbv zeta.
  rewrite take_app_le by (rewrite length_take; lia).
  rewrite take_take. f_equal. lia.
Qed.

Lemma arr_get_Some {A} (a : option (list A)) (i : Z) (x : A) :
  arr_get a i = Done x ↔ 0 ≤ i ∧ default [] a !! Z.to_nat i = Some x.
Proof.
  unfold arr_get.
  destruct a as [l|];
    [change (default [] (Some l)) with l|change (default [] (@None (list A))) with (@nil A)].
  - destruct (Z.leb_spec 0 i); cbn [andb].
    + destruct (Z.ltb_spec i (Z.of_nat (length l))).
      * destruct (l !! Z.to_nat i) eqn:Hl; cbn; split.
        -- intros [= ->]. auto.
        -- intros [_ [= ->]]. reflexivity.
        -- discriminate.
        -- intros [_ [=]].
      * split; [discriminate|]. intros [_ Hl].
        apply lookup_lt_Some in Hl. lia.
    + split; [discriminate|]. intros [? _]. lia.
  - split; [discriminate|]. intros [_ [=]].
Qed.

Lemma arr_set_in_range {A} (l : list A) (i : Z) (v : A) :
  0 ≤ i < Z.of_nat (length l) →
  arr_set (Some l) i v = Done (Some (<[Z.to_nat i := v]> l)).
Proof.
  intros Hi. unfold arr_set.
  replace (0 <=? i) with true by (symmetry; apply Z.leb_le; lia).
  replace (i <? Z.of_nat (length l)) with true by (symmetry; apply Z.ltb_lt; lia).
  reflexivity.
Qed.

Lemma sz_small (z : Z) : 0 ≤ z < 2 ^ SIZE_WIDTH → sz z = z.
Proof. intros H. unfold sz. apply Z.mod_small. exact H. Qed.

(** A granted resize: both blocks get the new capacity and keep their
    first cells; nothing else changes. *)
Lemma ssh_poll_ctx_resize_granted (c : ptr) (n : Z) (w : world) (cx : pctx.t) :
  all_granted w → ctxs w !! c = Some cx →
  ∃ w1,
    ssh_poll_ctx_resize c n w = Done (0, w1) ∧
    polls w1 = polls w ∧
    ctxs w1 = <[c := pctx.mk (Some (resize_block NULL n (pctx.pollptrs cx)))
                        (Some (resize_block pollfd.junk n (pctx.pollfds cx)))
                        n (pctx.polls_used cx) (pctx.chunk_size cx)]> (ctxs w) ∧
    all_granted w1.
Proof.
  intros Hg Hc. unfold ssh_poll_ctx_resize. run_simpl. rewrite Hc. run_simpl.
  destruct (realloc_granted NULL (pctx.pollptrs cx) n w Hg) as (w1 & Hr1 & Hp1 & Hc1 & _ & Hg1).
  rewrite Hr1.
  destruct (realloc_granted pollfd.junk (pctx.pollfds cx) n w1 Hg1)
    as (w2 & Hr2 & Hp2 & Hc2 & _ & Hg2).
  rewrite Hr2. eexists. split; [reflexivity|].
  unfold store_ctx, set_ctxs. cbn [polls ctxs alloc_script all_granted].
  split; [congruence|]. split; [|exact Hg2].
  rewrite Hc2, Hc1. reflexivity.
Qed.

(** ** Attach *)

Lemma take_insert_snoc {A} (l : list A) (k : nat) (x : A) :
  (k < length l)%nat → take (S k) (<[k := x]> l) = take k l ++ [x].
Proof.
  intros Hk. rewrite (take_S_r _ _ x) by (apply list_lookup_insert_eq; exact Hk).
  rewrite take_insert_ge by lia. reflexivity.
Qed.

(** The first step of an attach on a well-shaped context with a granting
    allocator: afterwards there is a free cell, and the live cells are as
    before. *)
Lemma ssh_poll_ctx_add_room (c : ptr) (w : world) (cx : pctx.t) :
  ctxs w !! c = Some cx → ctx_wf cx →
  pctx.polls_allocated cx + pctx.chunk_size cx < 2 ^ SIZE_WIDTH →
  all_granted w →
  ∃ w0 l1 l2 a,
    (if pctx.polls_used cx =? pctx.polls_allocated cx
     then ssh_poll_ctx_resize c (sz (pctx.polls_allocated cx + pctx.chunk_size cx)) w
     else Done (0, w)) = Done (0, w0) ∧
    polls w0 = polls w ∧
    ctxs w0 = <[c := pctx.mk (Some l1) (Some l2) a (pctx.polls_used cx)
                        (pctx.chunk_size cx)]> (ctxs w) ∧
    length l1 = Z.to_nat a ∧ length l2 = Z.to_nat a ∧
    pctx.polls_used cx < a ∧ a - pctx.polls_used cx ≤ pctx.chunk_size cx ∧
    a < 2 ^ SIZE_WIDTH ∧
    take (Z.to_nat (pctx.polls_used cx)) l1 = live_ptrs cx ∧
    take (Z.to_nat (pctx.polls_used cx)) l2 = live_fds cx ∧
    all_granted w0.
Proof.
  intros Hc (Hl1 & Hl2 & Hused & Hslack & Hchunk & Hmax) Hsum Hg.
  destruct (Z.eqb_spec (pctx.polls_used cx) (pctx.polls_allocated cx)) as [Heq|Hne].
  - rewrite sz_small by lia.
    destruct (ssh_poll_ctx_resize_granted c (pctx.polls_allocated cx + pctx.chunk_size cx)
                w cx Hg Hc) as (w0 & Hr & Hp & Hcs & Hg0).
    exists w0. eexists; eexists; eexists.
    split; [exact Hr|]. split; [exact Hp|]. split; [exact Hcs|].
    rewrite !length_resize_block.
    split; [reflexivity|]. split; [reflexivity|]. split; [lia|]. split; [lia|].
    split; [lia|]. unfold live_ptrs, live_fds.
    split; [apply take_resize_block; lia|]. split; [apply take_resize_block; lia|].
    exact Hg0.
  - destruct (pctx.pollptrs cx) as [l1|] eqn:Hp1;
      [|change (default [] (@None (list ptr))) with (@nil ptr) in Hl1; cbn in Hl1; lia].
    destruct (pctx.pollfds cx) as [l2|] eqn:Hp2;
      [|change (default [] (@None (list pollfd.t))) with (@nil pollfd.t) in Hl2;
        cbn in Hl2; lia].
    change (default [] (Some l1)) with l1 in Hl1.
    change (default [] (Some l2)) with l2 in Hl2.
    exists w, l1, l2, (pctx.polls_allocated cx).
    split; [reflexivity|]. split; [reflexivity|]. split.
    { symmetry. apply insert_id. rewrite Hc. f_equal.
      destruct cx; cbn in *; congruence. }
    split; [exact Hl1|]. split; [exact Hl2|]. split; [lia|]. split; [lia|].
    split; [lia|]. unfold live_ptrs, live_fds. rewrite Hp1, Hp2.
    split; [reflexivity|]. split; [reflexivity|]. exact Hg.
Qed.

(** What a successful attach does to the event and the context. *)
Lemma ssh_poll_ctx_add_attach_spec (c p : ptr) (w : world) (e : poll.t) (cx : pctx.t) :
  polls w !! p = Some e → poll.ctx e = NULL →
  ctxs w !! c = Some cx → ctx_wf cx →
  pctx.polls_allocated cx + pctx.chunk_size cx < 2 ^ SIZE_WIDTH →
  all_granted w →
  ∃ w1 cx1,
    ssh_poll_ctx_add c p w = Done (0, w1) ∧
    polls w1 = <[p := attached_at c (pctx.polls_used cx) e]> (polls w) ∧
    ctxs w1 = <[c := cx1]> (ctxs w) ∧
    ctx_wf cx1 ∧ pctx.chunk_size cx1 = pctx.chunk_size cx ∧
    pctx.polls_used cx1 = pctx.polls_used cx + 1 ∧
    live_ptrs cx1 = live_ptrs cx ++ [p] ∧
    live_fds cx1 = live_fds cx ++ [pollfd.mk (poll.fd_idx e) (poll.events e) 0] ∧
    all_granted w1.
Proof.
  intros Hp Hctx Hc Hwf Hsum Hg.
  destruct (ssh_poll_ctx_add_room c w cx Hc Hwf Hsum Hg)
    as (w0 & l1 & l2 & a & Hroom & Hp0 & Hc0 & Hl1 & Hl2 & Hlt & Hslack & Hmax & Ht1 & Ht2 & Hg0).
  destruct Hwf as (_ & _ & Hused & _ & Hchunk & _).
  set (u := pctx.polls_used cx) in *.
  assert (Hu : Z.to_nat (u + 1) = S (Z.to_nat u)) by lia.
  eexists; eexists. split; [|split; [|split; [|split; [|split; [|split; [|split; [|split]]]]]]].
  - unfold ssh_poll_ctx_add. run_simpl. rewrite Hp. run_simpl.
    destruct (decide (poll.ctx e ≠ NULL)) as [Hn|_]; [contradiction|].
    rewrite Hc. run_simpl. fold u. rewrite Hroom. run_simpl.
    change (0 <? 0) with false. cbn iota.
    rewrite Hc0, lookup_insert_eq. run_simpl.
    cbn [pctx.polls_used pctx.set_polls_used pctx.pollptrs pctx.pollfds
         pctx.set_pollptrs pctx.set_pollfds pctx.polls_allocated pctx.chunk_size].
    rewrite (arr_set_in_range l1) by lia. run_simpl.
    rewrite (arr_set_in_range l2) by lia. run_simpl.
    cbn [pctx.polls_used pctx.set_polls_used pctx.pollptrs pctx.pollfds
         pctx.set_pollptrs pctx.set_pollfds pctx.polls_allocated pctx.chunk_size].
    reflexivity.
  - unfold store_poll, store_ctx, set_polls, set_ctxs. cbn [polls]. rewrite Hp0. reflexivity.
  - unfold store_poll, store_ctx, set_polls, set_ctxs. cbn [ctxs].
    rewrite Hc0, insert_insert_eq. reflexivity.
  - unfold ctx_wf. cbn. rewrite !length_insert, sz_small by lia.
    repeat split; try assumption; try lia.
  - reflexivity.
  - cbn. apply sz_small. lia.
  - unfold live_ptrs at 1. cbn. rewrite sz_small by lia. rewrite Hu.
    change (default [] (Some ?l)) with l.
    rewrite take_insert_snoc by lia. rewrite Ht1. reflexivity.
  - unfold live_fds at 1. cbn. rewrite sz_small by lia. rewrite Hu.
    change (default [] (Some ?l)) with l.
    rewrite take_insert_snoc by lia. rewrite Ht2. reflexivity.
  - unfold all_granted, store_poll, store_ctx, set_polls, set_ctxs. cbn [alloc_script].
    exact Hg0.
Qed.

(** X1: attaching a detached event to a well-shaped context, with an
    allocator that grants what is asked and a capacity that cannot wrap,
    returns 0.  The event gets the context and the former used count as its
    position, the event and its record [(fd, events, 0)] are appended to the
    live part of the two sequences, the other live cells and all other
    events stay, and the context is well-shaped again. *)
Theorem ssh_poll_ctx_add_attaches (c p : ptr) (w : world) (e : poll.t) (cx : pctx.t) :
  polls w !! p = Some e → poll.ctx e = NULL →
  ctxs w !! c = Some cx → ctx_wf cx →
  pctx.polls_allocated cx + pctx.chunk_size cx < 2 ^ SIZE_WIDTH →
  all_granted w →
  ∃ w1 cx1,
    ssh_poll_ctx_add c p w = Done (0, w1) ∧
    polls w1 = <[p := attached_at c (pctx.polls_used cx) e]> (polls w) ∧
    ctxs w1 = <[c := cx1]> (ctxs w) ∧
    ctx_wf cx1 ∧ pctx.chunk_size cx1 = pctx.chunk_size cx ∧
    pctx.polls_used cx1 = pctx.polls_used cx + 1 ∧
    live_ptrs cx1 = live_ptrs cx ++ [p] ∧
    live_fds cx1 = live_fds cx ++ [pollfd.mk (poll.fd_idx e) (poll.events e) 0] ∧
    all_granted w1.
Proof. exact (ssh_poll_ctx_add_attach_spec c p w e cx). Qed.

(** ** Detach *)

(** Swap-removal on a list: overwriting cell [i] with the last of [S k]
    cells and keeping [k] of them removes cell [i], up to order. *)
Lemma swap_remove_Permutation {A} (L : list A) (i k : nat) (x : A) :
  (i ≤ k)%nat → L !! k = Some x →
  take k (if decide (i = k) then L else <[i := x]> L) ≡ₚ delete i (take (S k) L).
Proof.
  intros Hik Hx. pose proof (lookup_lt_Some _ _ _ Hx) as Hlen.
  rewrite (take_S_r _ _ _ Hx). rewrite delete_take_drop.
  destruct (decide (i = k)) as [->|Hne].
  - rewrite take_app_le by (rewrite length_take; lia).
    rewrite take_take, Nat.min_id.
    rewrite drop_ge by (rewrite length_app, length_take; cbn; lia).
    rewrite app_nil_r. reflexivity.
  - rewrite take_insert_lt by lia.
    rewrite insert_take_drop by (rewrite length_take; lia).
    rewrite take_app_le by (rewrite length_take; lia).
    rewrite drop_app_le by (rewrite length_take; lia).
    apply Permutation_app_head. apply Permutation_cons_append.
Qed.

Lemma swap_remove_lookup {A} (L : list A) (i k j : nat) (x : A) :
  (i ≤ k)%nat → (j < k)%nat → L !! k = Some x →
  take k (if decide (i = k) then L else <[i := x]> L) !! j
  = if decide (j = i) then Some x else take (S k) L !! j.
Proof.
  intros Hik Hjk Hx. pose proof (lookup_lt_Some _ _ _ Hx) as Hlen.
  rewrite lookup_take_lt by exact Hjk.
  rewrite (lookup_take_lt _ (S k)) by lia.
  destruct (decide (i = k)) as [->|Hne].
  - destruct (decide (j = k)); [lia|reflexivity].
  - destruct (decide (j = i)) as [->|Hji].
    + apply list_lookup_insert_eq. lia.
    + apply list_lookup_insert_ne. congruence.
Qed.

Lemma ctx_wf_blocks (cx : pctx.t) :
  ctx_wf cx → 0 < pctx.polls_allocated cx →
  ∃ l1 l2, pctx.pollptrs cx = Some l1 ∧ pctx.pollfds cx = Some l2 ∧
           length l1 = Z.to_nat (pctx.polls_allocated cx) ∧
           length l2 = Z.to_nat (pctx.polls_allocated cx).
Proof.
  intros (Hl1 & Hl2 & _) Hpos.
  destruct (pctx.pollptrs cx) as [l1|];
    [|change (default [] (@None (list ptr))) with (@nil ptr) in Hl1; cbn in Hl1; lia].
  destruct (pctx.pollfds cx) as [l2|];
    [|change (default [] (@None (list pollfd.t))) with (@nil pollfd.t) in Hl2;
      cbn in Hl2; lia].
  exists l1, l2. auto.
Qed.

(** The swap step of a detach, on blocks [l1] and [l2] of a context whose
    used count has been lowered to [k]: cell [i] takes the contents of cell
    [k] unless it is cell [k] itself. *)
Lemma ssh_poll_ctx_remove_swap (l1 : list ptr) (l2 : list pollfd.t) (a ch : Z)
    (i k : nat) (x1 : ptr) (x2 : pollfd.t) :
  (i ≤ k)%nat → l1 !! k = Some x1 → l2 !! k = Some x2 →
  let cx := pctx.mk (Some l1) (Some l2) a (Z.of_nat k) ch in
  (if (Z.of_nat k >? 0) && negb (Z.of_nat k =? Z.of_nat i) then
     lastfd ← arr_get (pctx.pollfds cx) (Z.of_nat k);
     pf ← arr_set (pctx.pollfds cx) (Z.of_nat i) lastfd;
     lastptr ← arr_get (pctx.pollptrs cx) (Z.of_nat k);
     pp ← arr_set (pctx.pollptrs cx) (Z.of_nat i) lastptr;
     Done (pctx.set_pollptrs pp (pctx.set_pollfds pf cx))
   else Done cx)
  = Done (pctx.mk (Some (if decide (i = k) then l1 else <[i := x1]> l1))
            (Some (if decide (i = k) then l2 else <[i := x2]> l2))
            a (Z.of_nat k) ch).
Proof.
  intros Hik H1 H2 cx.
  pose proof (lookup_lt_Some _ _ _ H1) as Hlen1.
  pose proof (lookup_lt_Some _ _ _ H2) as Hlen2.
  destruct (decide (i = k)) as [->|Hne].
  - rewrite Z.eqb_refl. cbn [negb]. rewrite andb_false_r. reflexivity.
  - replace (Z.of_nat k >? 0) with true
      by (rewrite Z.gtb_ltb; symmetry; apply Z.ltb_lt; lia).
    replace (Z.of_nat k =? Z.of_nat i) with false by (symmetry; apply Z.eqb_neq; lia).
    cbn [andb negb]. subst cx. cbn [pctx.pollfds pctx.pollptrs].
    rewrite (arr_get_lookup l2 (Z.of_nat k) x2) by (rewrite ?Nat2Z.id; first [lia|exact H2]).
    run_simpl. rewrite (arr_set_in_range l2) by lia. run_simpl.
    rewrite (arr_get_lookup l1 (Z.of_nat k) x1) by (rewrite ?Nat2Z.id; first [lia|exact H1]).
    run_simpl. rewrite (arr_set_in_range l1) by lia. run_simpl.
    rewrite !Nat2Z.id. reflexivity.
Qed.

(** What a detach at a live position does to the event and the context. *)
Lemma ssh_poll_ctx_remove_detach_spec (c p : ptr) (w : world) (e : poll.t) (cx : pctx.t)
    (r : pollfd.t) :
  polls w !! p = Some e → ctxs w !! c = Some cx → ctx_wf cx →
  0 ≤ poll.fd_idx e →
  live_fds cx !! Z.to_nat (poll.fd_idx e) = Some r →
  all_granted w →
  let i := Z.to_nat (poll.fd_idx e) in
  ∃ w1 cx1,
    ssh_poll_ctx_remove c p w = Done w1 ∧
    polls w1 = <[p := detached_with (pollfd.fd r) e]> (polls w) ∧
    ctxs w1 = <[c := cx1]> (ctxs w) ∧
    ctx_wf cx1 ∧ pctx.chunk_size cx1 = pctx.chunk_size cx ∧
    pctx.polls_used cx1 = pctx.polls_used cx - 1 ∧
    live_ptrs cx1 ≡ₚ delete i (live_ptrs cx) ∧
    live_fds cx1 ≡ₚ delete i (live_fds cx) ∧
    (∀ j, (j < Z.to_nat (pctx.polls_used cx1))%nat → j ≠ i →
          live_ptrs cx1 !! j = live_ptrs cx !! j ∧ live_fds cx1 !! j = live_fds cx !! j) ∧
    ((i < Z.to_nat (pctx.polls_used cx1))%nat →
          live_ptrs cx1 !! i = live_ptrs cx !! Z.to_nat (pctx.polls_used cx1) ∧
          live_fds cx1 !! i = live_fds cx !! Z.to_nat (pctx.polls_used cx1)) ∧
    all_granted w1.
Proof.
  intros Hp Hc Hwf Hi0 Hr Hg i.
  pose proof Hwf as (_ & _ & Hused & Hslack & Hchunk & Hmax).
  assert (Hiu : (i < Z.to_nat (pctx.polls_used cx))%nat).
  { unfold live_fds in Hr. apply lookup_lt_Some in Hr. rewrite length_take in Hr. lia. }
  destruct (ctx_wf_blocks cx Hwf ltac:(lia)) as (l1 & l2 & Hp1 & Hp2 & Hl1 & Hl2).
  set (a := pctx.polls_allocated cx) in *. set (ch := pctx.chunk_size cx) in *.
  set (k := (Z.to_nat (pctx.polls_used cx) - 1)%nat).
  assert (Hk : pctx.polls_used cx - 1 = Z.of_nat k) by lia.
  assert (Hsk : Z.to_nat (pctx.polls_used cx) = S k) by lia.
  destruct (lookup_lt_is_Some_2 l1 k) as [x1 Hx1]; [lia|].
  destruct (lookup_lt_is_Some_2 l2 k) as [x2 Hx2]; [lia|].
  assert (Hr2 : l2 !! i = Some r).
  { unfold live_fds in Hr. rewrite Hp2 in Hr.
    change (default [] (Some l2)) with l2 in Hr.
    rewrite lookup_take_lt in Hr by lia. exact Hr. }
  set (A1 := if decide (i = k) then l1 else <[i := x1]> l1).
  set (A2 := if decide (i = k) then l2 else <[i := x2]> l2).
  assert (HA1 : length A1 = Z.to_nat a) by (subst A1; destruct (decide _); rewrite ?length_insert; exact Hl1).
  assert (HA2 : length A2 = Z.to_nat a) by (subst A2; destruct (decide _); rewrite ?length_insert; exact Hl2).
  set (cx2 := pctx.mk (Some A1) (Some A2) a (Z.of_nat k) ch).
  set (w1 := store_ctx c cx2 (store_poll p (detached_with (pollfd.fd r) e) w)).
  assert (Hlive1 : live_ptrs cx = take (S k) l1)
    by (unfold live_ptrs; rewrite Hp1, Hsk; reflexivity).
  assert (Hlive2 : live_fds cx = take (S k) l2)
    by (unfold live_fds; rewrite Hp2, Hsk; reflexivity).
  assert (Hg1 : all_granted w1) by exact Hg.
  assert (Hhead : ssh_poll_ctx_remove c p w
            = if sz (a - Z.of_nat k) >? ch
              then '(_, w2) ← ssh_poll_ctx_resize c (sz (a - ch)) w1; Done w2
              else Done w1).
  { unfold ssh_poll_ctx_remove. run_simpl. rewrite Hp. run_simpl. rewrite Hc. run_simpl.
    rewrite Hp2. rewrite (arr_get_lookup l2 (poll.fd_idx e) r Hi0 Hr2). run_simpl.
    rewrite sz_small by lia. rewrite Hk.
    assert (Hcx : pctx.set_polls_used (Z.of_nat k) cx
                  = pctx.mk (Some l1) (Some l2) a (Z.of_nat k) ch)
      by (unfold pctx.set_polls_used; rewrite Hp1, Hp2; reflexivity).
    rewrite Hcx.
    replace (poll.fd_idx e) with (Z.of_nat i) by (subst i; lia).
    pose proof (ssh_poll_ctx_remove_swap l1 l2 a ch i k x1 x2 ltac:(lia) Hx1 Hx2) as Hswap.
    cbv zeta in Hswap. rewrite Hswap. run_simpl. reflexivity. }
  assert (Hperm1 : take k A1 ≡ₚ delete i (live_ptrs cx))
    by (rewrite Hlive1; apply swap_remove_Permutation; [lia|exact Hx1]).
  assert (Hperm2 : take k A2 ≡ₚ delete i (live_fds cx))
    by (rewrite Hlive2; apply swap_remove_Permutation; [lia|exact Hx2]).
  assert (Hother : ∀ j, (j < k)%nat → j ≠ i →
            take k A1 !! j = live_ptrs cx !! j ∧ take k A2 !! j = live_fds cx !! j).
  { intros j Hj Hne. rewrite Hlive1, Hlive2. subst A1 A2.
    rewrite (swap_remove_lookup l1 i k j x1) by first [lia|exact Hx1].
    rewrite (swap_remove_lookup l2 i k j x2) by first [lia|exact Hx2].
    destruct (decide (j = i)); [contradiction|]. auto. }
  assert (Hmoved : (i < k)%nat →
            take k A1 !! i = live_ptrs cx !! k ∧ take k A2 !! i = live_fds cx !! k).
  { intros Hik. rewrite Hlive1, Hlive2. subst A1 A2.
    rewrite (swap_remove_lookup l1 i k i x1) by first [lia|exact Hx1].
    rewrite (swap_remove_lookup l2 i k i x2) by first [lia|exact Hx2].
    destruct (decide (i = i)); [|contradiction].
    rewrite !lookup_take_lt by lia. auto. }
  rewrite Hhead. rewrite (sz_small (a - Z.of_nat k)) by lia.
  destruct (a - Z.of_nat k >? ch) eqn:Hshrink.
  - rewrite Z.gtb_ltb in Hshrink. apply Z.ltb_lt in Hshrink.
    rewrite sz_small by lia.
    destruct (ssh_poll_ctx_resize_granted c (a - ch) w1 cx2 Hg1) as (w2 & Hrz & Hpz & Hcz & Hg2).
    { subst w1. unfold store_ctx, set_ctxs. cbn [ctxs]. apply lookup_insert_eq. }
    exists w2. eexists.
    split; [rewrite Hrz; reflexivity|]. split; [rewrite Hpz; reflexivity|].
    split; [rewrite Hcz; subst w1; unfold store_ctx, store_poll, set_ctxs, set_polls;
            cbn [ctxs]; rewrite insert_insert_eq; reflexivity|].
    subst cx2. cbn [pctx.pollptrs pctx.pollfds pctx.polls_used pctx.chunk_size].
    unfold ctx_wf, live_ptrs, live_fds.
    cbn [pctx.pollptrs pctx.pollfds pctx.polls_used pctx.chunk_size pctx.polls_allocated].
    change (default [] (Some ?l)) with l. rewrite !length_resize_block, !Nat2Z.id.
    rewrite !take_resize_block
      by (change (default [] (Some ?l)) with l; lia).
    change (default [] (Some ?l)) with l.
    split; [repeat split; lia|]. split; [reflexivity|]. split; [lia|].
    split; [exact Hperm1|]. split; [exact Hperm2|].
    split; [exact Hother|]. split; [exact Hmoved|]. exact Hg2.
  - rewrite Z.gtb_ltb in Hshrink. apply Z.ltb_ge in Hshrink.
    exists w1, cx2.
    split; [reflexivity|]. split; [reflexivity|].
    split; [subst w1; unfold store_ctx, store_poll, set_ctxs, set_polls;
            cbn [ctxs]; reflexivity|].
    subst cx2. unfold ctx_wf, live_ptrs, live_fds.
    cbn [pctx.pollptrs pctx.pollfds pctx.polls_used pctx.chunk_size pctx.polls_allocated].
    change (default [] (Some ?l)) with l. rewrite !Nat2Z.id.
    split; [repeat split; first [assumption|lia]|]. split; [reflexivity|]. split; [lia|].
    split; [exact Hperm1|]. split; [exact Hperm2|].
    split; [exact Hother|]. split; [exact Hmoved|]. exact Hg1.
Qed.

(** X2: detaching an event that sits at a live position of a well-shaped
    context, with a granting allocator.  The event gets the descriptor of
    its record back and loses its context; the used count drops by one; the
    live pointers and the live records are the former ones without those of
    the removed position, up to order: every other live position below the
    new used count keeps its cell, and the removed position, if still live,
    holds the former last cell.  The context is well-shaped again. *)
Theorem ssh_poll_ctx_remove_detaches (c p : ptr) (w : world) (e : poll.t) (cx : pctx.t)
    (r : pollfd.t) :
  polls w !! p = Some e → ctxs w !! c = Some cx → ctx_wf cx →
  0 ≤ poll.fd_idx e →
  live_fds cx !! Z.to_nat (poll.fd_idx e) = Some r →
  all_granted w →
  let i := Z.to_nat (poll.fd_idx e) in
  ∃ w1 cx1,
    ssh_poll_ctx_remove c p w = Done w1 ∧
    polls w1 = <[p := detached_with (pollfd.fd r) e]> (polls w) ∧
    ctxs w1 = <[c := cx1]> (ctxs w) ∧
    ctx_wf cx1 ∧ pctx.chunk_size cx1 = pctx.chunk_size cx ∧
    pctx.polls_used cx1 = pctx.polls_used cx - 1 ∧
    live_ptrs cx1 ≡ₚ delete i (live_ptrs cx) ∧
    live_fds cx1 ≡ₚ delete i (live_fds cx) ∧
    (∀ j, (j < Z.to_nat (pctx.polls_used cx1))%nat → j ≠ i →
          live_ptrs cx1 !! j = live_ptrs cx !! j ∧ live_fds cx1 !! j = live_fds cx !! j) ∧
    ((i < Z.to_nat (pctx.polls_used cx1))%nat →
          live_ptrs cx1 !! i = live_ptrs cx !! Z.to_nat (pctx.polls_used cx1) ∧
          live_fds cx1 !! i = live_fds cx !! Z.to_nat (pctx.polls_used cx1)) ∧
    all_granted w1.
Proof. exact (ssh_poll_ctx_remove_detach_spec c p w e cx r). Qed.

Lemma ssh_poll_ctx_add_attaches_witness :
  ∃ w1, ssh_poll_ctx_add 1%nat 4%nat two_and_spare = Done (0, w1) ∧
        polls w1 !! 4%nat = Some (poll.mk 1%nat 2 1 1%nat 0).
Proof.
  destruct (ssh_poll_ctx_add_attaches 1%nat 4%nat two_and_spare
              (poll.mk NULL 12 1 1%nat 0)
              (pctx.mk (Some [2%nat; 3%nat; 0%nat; 0%nat; 0%nat])
                 (Some [pollfd.mk 10 1 0; pollfd.mk 11 1 0; pollfd.junk; pollfd.junk;
                        pollfd.junk]) 5 2 5))
    as (w1 & cx1 & Hadd & Hpolls & _).
  - vm_compute; reflexivity.
  - reflexivity.
  - vm_compute; reflexivity.
  - unfold ctx_wf, SIZE_WIDTH; simpl; lia.
  - unfold SIZE_WIDTH; simpl; lia.
  - unfold all_granted; vm_compute; constructor.
  - exists w1. split; [exact Hadd|]. rewrite Hpolls. apply lookup_insert_eq.
Defined.

Lemma ssh_poll_ctx_remove_detaches_witness :
  ∃ w1, ssh_poll_ctx_remove 1%nat 2%nat three_kept = Done w1 ∧
        polls w1 !! 2%nat = Some (poll.mk NULL 10 1 1%nat 0).
Proof.
  destruct (ssh_poll_ctx_remove_detaches 1%nat 2%nat three_kept
              (poll.mk 1%nat 0 1 1%nat 0)
              (pctx.mk (Some [2%nat; 3%nat; 4%nat; 0%nat; 0%nat])
                 (Some [pollfd.mk 10 1 0; pollfd.mk 11 1 0; pollfd.mk 12 1 0;
                        pollfd.junk; pollfd.junk]) 5 3 5)
              (pollfd.mk 10 1 0))
    as (w1 & cx1 & Hrm & Hpolls & _).
  - vm_compute; reflexivity.
  - vm_compute; reflexivity.
  - unfold ctx_wf, SIZE_WIDTH; simpl; lia.
  - simpl; lia.
  - reflexivity.
  - unfold all_granted; vm_compute; constructor.
  - exists w1. split; [exact Hrm|]. rewrite Hpolls. apply lookup_insert_eq.
Defined.

(** ** Attach and detach together *)

Lemma length_live_ptrs (cx : pctx.t) :
  ctx_wf cx → length (live_ptrs cx) = Z.to_nat (pctx.polls_used cx).
Proof. intros (Hl & _ & Hu & _). unfold live_ptrs. rewrite length_take. lia. Qed.

Lemma length_live_fds (cx : pctx.t) :
  ctx_wf cx → length (live_fds cx) = Z.to_nat (pctx.polls_used cx).
Proof. intros (_ & Hl & Hu & _). unfold live_fds. rewrite length_take. lia. Qed.

(** X3: attaching a detached event and detaching it again gives every
    event back as it was, descriptor included, and leaves the used count
    and the live part of both sequences of the context as they were. *)
Theorem ssh_poll_ctx_add_remove_roundtrip (c p : ptr) (w : world) (e : poll.t)
    (cx : pctx.t) :
  polls w !! p = Some e → poll.ctx e = NULL →
  ctxs w !! c = Some cx → ctx_wf cx →
  pctx.polls_allocated cx + pctx.chunk_size cx < 2 ^ SIZE_WIDTH →
  all_granted w →
  ∃ w1 w2 cx2,
    ssh_poll_ctx_add c p w = Done (0, w1) ∧
    ssh_poll_ctx_remove c p w1 = Done w2 ∧
    polls w2 = polls w ∧
    ctxs w2 = <[c := cx2]> (ctxs w) ∧
    pctx.polls_used cx2 = pctx.polls_used cx ∧
    live_ptrs cx2 = live_ptrs cx ∧ live_fds cx2 = live_fds cx ∧
    ctx_wf cx2.
Proof.
  intros Hp Hctx Hc Hwf Hsum Hg.
  destruct (ssh_poll_ctx_add_attach_spec c p w e cx Hp Hctx Hc Hwf Hsum Hg)
    as (w1 & cx1 & Hadd & Hpolls1 & Hctxs1 & Hwf1 & Hch1 & Hu1 & Hlp1 & Hlf1 & Hg1).
  pose proof Hwf as (_ & _ & Hused & _).
  pose proof (length_live_ptrs cx Hwf) as Hlenp.
  pose proof (length_live_fds cx Hwf) as Hlenf.
  set (u := pctx.polls_used cx) in *.
  destruct (ssh_poll_ctx_remove_detach_spec c p w1 (attached_at c u e) cx1
              (pollfd.mk (poll.fd_idx e) (poll.events e) 0))
    as (w2 & cx2 & Hrm & Hpolls2 & Hctxs2 & Hwf2 & Hch2 & Hu2 & _ & _ & Hother & _ & Hg2).
  - rewrite Hpolls1. apply lookup_insert_eq.
  - rewrite Hctxs1. apply lookup_insert_eq.
  - exact Hwf1.
  - cbn. lia.
  - cbn. rewrite Hlf1. rewrite lookup_app_r by lia.
    rewrite Hlenf, Nat.sub_diag. reflexivity.
  - exact Hg1.
  - cbn [attached_at poll.fd_idx poll.set_ctx poll.set_fd_idx] in Hother.
    exists w1, w2, cx2. split; [exact Hadd|]. split; [exact Hrm|].
    assert (Hu2' : pctx.polls_used cx2 = u) by lia.
    split; [|split; [|split; [exact Hu2'|split; [|split; [|exact Hwf2]]]]].
    + rewrite Hpolls2, Hpolls1, insert_insert_eq. apply insert_id.
      rewrite Hp. f_equal. destruct e as [ec ef ee ecb ed]. cbn in *. subst ec. reflexivity.
    + rewrite Hctxs2, Hctxs1, insert_insert_eq. reflexivity.
    + apply list_eq. intros j.
      destruct (decide (j < Z.to_nat u)%nat) as [Hj|Hj].
      * destruct (Hother j ltac:(lia) ltac:(lia)) as [H1 _].
        rewrite H1, Hlp1. apply lookup_app_l. lia.
      * rewrite !lookup_ge_None_2; [reflexivity|lia|].
        rewrite (length_live_ptrs cx2 Hwf2). lia.
    + apply list_eq. intros j.
      destruct (decide (j < Z.to_nat u)%nat) as [Hj|Hj].
      * destruct (Hother j ltac:(lia) ltac:(lia)) as [_ H2].
        rewrite H2, Hlf1. apply lookup_app_l. lia.
      * rewrite !lookup_ge_None_2; [reflexivity|lia|].
        rewrite (length_live_fds cx2 Hwf2). lia.
Qed.

Lemma ssh_poll_ctx_add_remove_roundtrip_witness :
  ∃ w1 w2, ssh_poll_ctx_add 1%nat 4%nat two_and_spare = Done (0, w1) ∧
           ssh_poll_ctx_remove 1%nat 4%nat w1 = Done w2 ∧
           polls w2 = polls two_and_spare.
Proof.
  destruct (ssh_poll_ctx_add_remove_roundtrip 1%nat 4%nat two_and_spare
              (poll.mk NULL 12 1 1%nat 0)
              (pctx.mk (Some [2%nat; 3%nat; 0%nat; 0%nat; 0%nat])
                 (Some [pollfd.mk 10 1 0; pollfd.mk 11 1 0; pollfd.junk; pollfd.junk;
                        pollfd.junk]) 5 2 5))
    as (w1 & w2 & cx2 & Hadd & Hrm & Hpolls & _).
  - vm_compute; reflexivity.
  - reflexivity.
  - vm_compute; reflexivity.
  - unfold ctx_wf, SIZE_WIDTH; simpl; lia.
  - unfold SIZE_WIDTH; simpl; lia.
  - unfold all_granted; vm_compute; constructor.
  - exists w1, w2. auto.
Defined.

(** ** A failed attach *)

Lemma next_alloc_frame (w w1 : world) (ok : bool) :
  next_alloc w = (ok, w1) → polls w1 = polls w ∧ ctxs w1 = ctxs w.
Proof.
  unfold next_alloc. destruct (alloc_script w); intros [= <- <-]; auto.
Qed.

Lemma realloc_frame {A} (junk : A) (old r : option (list A)) (n : Z) (w w1 : world) :
  realloc junk old n w = (r, w1) → polls w1 = polls w ∧ ctxs w1 = ctxs w.
Proof.
  unfold realloc. destruct (next_alloc w) as [ok w0] eqn:Hn.
  apply next_alloc_frame in Hn. destruct ok; intros [= <- <-]; exact Hn.
Qed.

(** Whatever the allocator answers, a resize returns 0 or -1, touches no
    event and no other context, and keeps the used count and the chunk size;
    when it fails it also keeps the capacity and the record block. *)
Lemma ssh_poll_ctx_resize_frame (c : ptr) (n : Z) (w : world) (cx : pctx.t) :
  ctxs w !! c = Some cx →
  ∃ r w1 cx1,
    ssh_poll_ctx_resize c n w = Done (r, w1) ∧ polls w1 = polls w ∧
    (∀ c', c' ≠ c → ctxs w1 !! c' = ctxs w !! c') ∧
    ctxs w1 !! c = Some cx1 ∧
    pctx.polls_used cx1 = pctx.polls_used cx ∧
    pctx.chunk_size cx1 = pctx.chunk_size cx ∧
    ((r = 0 ∧ pctx.polls_allocated cx1 = n) ∨
     (r = -1 ∧ pctx.polls_allocated cx1 = pctx.polls_allocated cx ∧
      pctx.pollfds cx1 = pctx.pollfds cx)).
Proof.
  intros Hc. unfold ssh_poll_ctx_resize. run_simpl. rewrite Hc. run_simpl.
  destruct (realloc NULL (pctx.pollptrs cx) n w) as [pp w1] eqn:H1.
  destruct (realloc_frame _ _ _ _ _ _ H1) as [Hp1 Hc1].
  destruct pp as [l1|].
  2:{ exists (-1), w1, cx. split; [reflexivity|]. split; [exact Hp1|].
      split; [intros; rewrite Hc1; reflexivity|]. split; [rewrite Hc1; exact Hc|].
      auto 10. }
  destruct (realloc pollfd.junk (pctx.pollfds cx) n w1) as [pf w2] eqn:H2.
  destruct (realloc_frame _ _ _ _ _ _ H2) as [Hp2 Hc2].
  destruct pf as [l2|].
  - eexists; eexists; eexists. split; [reflexivity|].
    unfold store_ctx, set_ctxs. cbn [polls ctxs].
    split; [congruence|].
    split; [intros c' Hne; rewrite lookup_insert_ne by congruence; congruence|].
    split; [apply lookup_insert_eq|]. cbn. auto.
  - destruct (realloc NULL (Some l1) (pctx.polls_allocated cx) w2) as [back w3] eqn:H3.
    destruct (realloc_frame _ _ _ _ _ _ H3) as [Hp3 Hc3].
    eexists; eexists; eexists. split; [reflexivity|].
    unfold store_ctx, set_ctxs. cbn [polls ctxs].
    split; [congruence|].
    split; [intros c' Hne; rewrite lookup_insert_ne by congruence; congruence|].
    split; [apply lookup_insert_eq|]. cbn. auto 10.
Qed.

(** X4: an attach that does not return 0 returns -1 and has attached
    nothing: all events are as they were, the event is not entered in the
    context, whose used count, capacity, chunk size and record block are
    unchanged, and no other context is touched. *)
Theorem ssh_poll_ctx_add_failure_keeps (c p : ptr) (w w1 : world) (r : Z) (cx : pctx.t) :
  ctxs w !! c = Some cx →
  ssh_poll_ctx_add c p w = Done (r, w1) → r ≠ 0 →
  r = -1 ∧ polls w1 = polls w ∧
  (∀ c', c' ≠ c → ctxs w1 !! c' = ctxs w !! c') ∧
  ∃ cx1, ctxs w1 !! c = Some cx1 ∧
         pctx.polls_used cx1 = pctx.polls_used cx ∧
         pctx.polls_allocated cx1 = pctx.polls_allocated cx ∧
         pctx.chunk_size cx1 = pctx.chunk_size cx ∧
         pctx.pollfds cx1 = pctx.pollfds cx.
Proof.
  intros Hc Hadd Hr. unfold ssh_poll_ctx_add in Hadd. run_simpl.
  destruct (polls w !! p) as [e|]; [|discriminate Hadd]. run_simpl.
  destruct (decide (poll.ctx e ≠ NULL)) as [_|_].
  { injection Hadd as <- <-. split; [reflexivity|]. split; [reflexivity|].
    split; [reflexivity|]. exists cx. auto. }
  rewrite Hc in Hadd. run_simpl.
  destruct (pctx.polls_used cx =? pctx.polls_allocated cx).
  - destruct (ssh_poll_ctx_resize_frame c (sz (pctx.polls_allocated cx + pctx.chunk_size cx))
                w cx Hc) as (r0 & w0 & cx0 & Hrz & Hp0 & Hother & Hc0 & Hu0 & Hch0 & Hcase).
    rewrite Hrz in Hadd. run_simpl.
    destruct Hcase as [[-> Ha]|(-> & Ha & Hpf)].
    + exfalso. change (0 <? 0) with false in Hadd. cbn iota in Hadd.
      rewrite Hc0 in Hadd. run_simpl.
      destruct (arr_set _ _ _) in Hadd; run_simpl; try discriminate Hadd;
        destruct (arr_set _ _ _) in Hadd; run_simpl; try discriminate Hadd.
      injection Hadd as <- _. apply Hr. reflexivity.
    + change (-1 <? 0) with true in Hadd. cbn iota in Hadd.
      injection Hadd as <- <-. split; [reflexivity|]. split; [exact Hp0|].
      split; [exact Hother|]. exists cx0. auto.
  - exfalso. run_simpl. change (0 <? 0) with false in Hadd. cbn iota in Hadd.
    rewrite Hc in Hadd. run_simpl.
    destruct (arr_set _ _ _) in Hadd; run_simpl; try discriminate Hadd;
      destruct (arr_set _ _ _) in Hadd; run_simpl; try discriminate Hadd.
    injection Hadd as <- _. apply Hr. reflexivity.
Qed.

(** One event attached to a context whose blocks are full (chunk size 1),
    with an allocator that refuses the next request. *)
Lemma ssh_poll_ctx_add_failure_keeps_witness :
  ∃ w w1, ssh_poll_ctx_add 1%nat 3%nat w = Done (-1, w1) ∧ polls w1 = polls w.
Proof.
  set (w0 := snd (ssh_poll_new 11 1 1%nat 0 (world_of (populated 1 [(10, 1, 1%nat, 0)])))).
  set (w := World (polls w0) (ctxs w0) (brk w0) [false]).
  set (w1 := World (polls w0) (ctxs w0) (brk w0) []).
  exists w, w1.
  destruct (ssh_poll_ctx_add_failure_keeps 1%nat 3%nat w w1 (-1)
              (pctx.mk (Some [2%nat]) (Some [pollfd.mk 10 1 0]) 1 1 1))
    as (_ & Hpolls & _).
  - vm_compute; reflexivity.
  - vm_compute; reflexivity.
  - lia.
  - split; [vm_compute; reflexivity|exact Hpolls].
Defined.

(** ** Stored positions under attach *)

Lemma live_ptrs_lookup (cx : pctx.t) (j : nat) :
  (j < Z.to_nat (pctx.polls_used cx))%nat →
  live_ptrs cx !! j = default [] (pctx.pollptrs cx) !! j.
Proof. intros Hj. unfold live_ptrs. apply lookup_take_lt. exact Hj. Qed.

Lemma live_fds_lookup (cx : pctx.t) (j : nat) :
  (j < Z.to_nat (pctx.polls_used cx))%nat →
  live_fds cx !! j = default [] (pctx.pollfds cx) !! j.
Proof. intros Hj. unfold live_fds. apply lookup_take_lt. exact Hj. Qed.

(** X5: a successful attach puts the event at its stored position and
    keeps every other event that was at its stored position there. *)
Theorem ssh_poll_ctx_add_keeps_positions (c p : ptr) (w : world) (e : poll.t)
    (cx : pctx.t) :
  polls w !! p = Some e → poll.ctx e = NULL →
  ctxs w !! c = Some cx → ctx_wf cx →
  pctx.polls_allocated cx + pctx.chunk_size cx < 2 ^ SIZE_WIDTH →
  all_granted w →
  ∃ w1,
    ssh_poll_ctx_add c p w = Done (0, w1) ∧
    position_ok p w1 = true ∧
    ∀ q, q ≠ p → position_ok q w = true → position_ok q w1 = true.
Proof.
  intros Hp Hctx Hc Hwf Hsum Hg.
  destruct (ssh_poll_ctx_add_attach_spec c p w e cx Hp Hctx Hc Hwf Hsum Hg)
    as (w1 & cx1 & Hadd & Hpolls1 & Hctxs1 & Hwf1 & Hch1 & Hu1 & Hlp1 & Hlf1 & Hg1).
  pose proof Hwf as (_ & _ & Hused & _).
  pose proof (length_live_ptrs cx Hwf) as Hlen.
  exists w1. split; [exact Hadd|]. split.
  - unfold position_ok. rewrite Hpolls1, lookup_insert_eq.
    cbn [attached_at poll.ctx poll.fd_idx poll.set_ctx poll.set_fd_idx].
    rewrite Hctxs1, lookup_insert_eq.
    replace (0 <=? pctx.polls_used cx) with true by (symmetry; apply Z.leb_le; lia).
    replace (pctx.polls_used cx <? pctx.polls_used cx1) with true
      by (symmetry; apply Z.ltb_lt; lia).
    cbn [andb]. apply bool_decide_eq_true.
    rewrite <- live_ptrs_lookup by lia. rewrite Hlp1.
    rewrite lookup_app_r by lia. rewrite Hlen, Nat.sub_diag. reflexivity.
  - intros q Hq Hok. unfold position_ok in *.
    rewrite Hpolls1, lookup_insert_ne by congruence.
    destruct (polls w !! q) as [eq|]; [|discriminate Hok].
    rewrite Hctxs1. destruct (decide (poll.ctx eq = c)) as [Heq|Hne].
    + rewrite Heq in *. rewrite lookup_insert_eq. rewrite Hc in Hok.
      apply andb_true_iff in Hok as [Hrange Hat].
      apply andb_true_iff in Hrange as [H0 Hlt].
      apply Z.leb_le in H0. apply Z.ltb_lt in Hlt. apply bool_decide_eq_true in Hat.
      replace (0 <=? poll.fd_idx eq) with true by (symmetry; apply Z.leb_le; lia).
      replace (poll.fd_idx eq <? pctx.polls_used cx1) with true
        by (symmetry; apply Z.ltb_lt; lia).
      cbn [andb]. apply bool_decide_eq_true.
      rewrite <- live_ptrs_lookup by lia. rewrite Hlp1.
      rewrite lookup_app_l by lia. rewrite live_ptrs_lookup by lia. exact Hat.
    + rewrite lookup_insert_ne by congruence. exact Hok.
Qed.

Lemma ssh_poll_ctx_add_keeps_positions_witness :
  ∃ w1, ssh_poll_ctx_add 1%nat 4%nat two_and_spare = Done (0, w1) ∧
        position_ok 4%nat w1 = true ∧ position_ok 2%nat w1 = true.
Proof.
  destruct (ssh_poll_ctx_add_keeps_positions 1%nat 4%nat two_and_spare
              (poll.mk NULL 12 1 1%nat 0)
              (pctx.mk (Some [2%nat; 3%nat; 0%nat; 0%nat; 0%nat])
                 (Some [pollfd.mk 10 1 0; pollfd.mk 11 1 0; pollfd.junk; pollfd.junk;
                        pollfd.junk]) 5 2 5))
    as (w1 & Hadd & Hp & Hq).
  - vm_compute; reflexivity.
  - reflexivity.
  - vm_compute; reflexivity.
  - unfold ctx_wf, SIZE_WIDTH; simpl; lia.
  - unfold SIZE_WIDTH; simpl; lia.
  - unfold all_granted; vm_compute; constructor.
  - exists w1. split; [exact Hadd|]. split; [exact Hp|].
    apply Hq; [lia|vm_compute; reflexivity].
Defined.

(** ** The descriptor an event reports *)

(** X6: the descriptor [ssh_poll_get_fd] reports for an event is the same
    before and after a successful attach. *)
Theorem ssh_poll_get_fd_across_add (c p : ptr) (w : world) (e : poll.t) (cx : pctx.t) :
  c ≠ NULL →
  polls w !! p = Some e → poll.ctx e = NULL →
  ctxs w !! c = Some cx → ctx_wf cx →
  pctx.polls_allocated cx + pctx.chunk_size cx < 2 ^ SIZE_WIDTH →
  all_granted w →
  ∃ w1,
    ssh_poll_ctx_add c p w = Done (0, w1) ∧
    ssh_poll_get_fd p w = Done (poll.fd_idx e) ∧
    ssh_poll_get_fd p w1 = Done (poll.fd_idx e).
Proof.
  intros Hnull Hp Hctx Hc Hwf Hsum Hg.
  destruct (ssh_poll_ctx_add_attach_spec c p w e cx Hp Hctx Hc Hwf Hsum Hg)
    as (w1 & cx1 & Hadd & Hpolls1 & Hctxs1 & Hwf1 & Hch1 & Hu1 & Hlp1 & Hlf1 & Hg1).
  pose proof Hwf as (_ & _ & Hused & _).
  pose proof (length_live_fds cx Hwf) as Hlen.
  exists w1. split; [exact Hadd|]. split.
  - unfold ssh_poll_get_fd. run_simpl. rewrite Hp. run_simpl.
    destruct (decide (poll.ctx e = NULL)); [reflexivity|contradiction].
  - unfold ssh_poll_get_fd. run_simpl. rewrite Hpolls1, lookup_insert_eq. run_simpl.
    cbn [attached_at poll.ctx poll.fd_idx poll.set_ctx poll.set_fd_idx].
    destruct (decide (c = NULL)); [contradiction|].
    rewrite Hctxs1, lookup_insert_eq. run_simpl.
    assert (Hget : arr_get (pctx.pollfds cx1) (pctx.polls_used cx)
                   = Done (pollfd.mk (poll.fd_idx e) (poll.events e) 0)).
    { apply arr_get_Some. split; [lia|].
      rewrite <- live_fds_lookup by lia. rewrite Hlf1.
      rewrite lookup_app_r by lia. rewrite Hlen, Nat.sub_diag. reflexivity. }
    rewrite Hget. reflexivity.
Qed.

Lemma ssh_poll_get_fd_across_add_witness :
  ∃ w1, ssh_poll_ctx_add 1%nat 4%nat two_and_spare = Done (0, w1) ∧
        ssh_poll_get_fd 4%nat two_and_spare = Done 12 ∧
        ssh_poll_get_fd 4%nat w1 = Done 12.
Proof.
  apply (ssh_poll_get_fd_across_add 1%nat 4%nat two_and_spare
           (poll.mk NULL 12 1 1%nat 0)
           (pctx.mk (Some [2%nat; 3%nat; 0%nat; 0%nat; 0%nat])
              (Some [pollfd.mk 10 1 0; pollfd.mk 11 1 0; pollfd.junk; pollfd.junk;
                     pollfd.junk]) 5 2 5)).
  - vm_compute; lia.
  - vm_compute; reflexivity.
  - reflexivity.
  - vm_compute; reflexivity.
  - unfold ctx_wf, SIZE_WIDTH; simpl; lia.
  - unfold SIZE_WIDTH; simpl; lia.
  - unfold all_granted; vm_compute; constructor.
Defined.

(** X7: the descriptor [ssh_poll_get_fd] reports for an attached event at
    a live position is the same before and after its detach: the descriptor
    of its record. *)
Theorem ssh_poll_get_fd_across_remove (c p : ptr) (w : world) (e : poll.t)
    (cx : pctx.t) (r : pollfd.t) :
  c ≠ NULL → poll.ctx e = c →
  polls w !! p = Some e → ctxs w !! c = Some cx → ctx_wf cx →
  0 ≤ poll.fd_idx e →
  live_fds cx !! Z.to_nat (poll.fd_idx e) = Some r →
  all_granted w →
  ∃ w1,
    ssh_poll_ctx_remove c p w = Done w1 ∧
    ssh_poll_get_fd p w = Done (pollfd.fd r) ∧
    ssh_poll_get_fd p w1 = Done (pollfd.fd r).
Proof.
  intros Hnull Hctx Hp Hc Hwf Hi0 Hr Hg.
  destruct (ssh_poll_ctx_remove_detach_spec c p w e cx r Hp Hc Hwf Hi0 Hr Hg)
    as (w1 & cx1 & Hrm & Hpolls1 & _).
  assert (Hiu : (Z.to_nat (poll.fd_idx e) < Z.to_nat (pctx.polls_used cx))%nat).
  { unfold live_fds in Hr. apply lookup_lt_Some in Hr. rewrite length_take in Hr. lia. }
  exists w1. split; [exact Hrm|]. split.
  - unfold ssh_poll_get_fd. run_simpl. rewrite Hp. run_simpl.
    destruct (decide (poll.ctx e = NULL)); [congruence|].
    rewrite Hctx, Hc. run_simpl.
    assert (Hget : arr_get (pctx.pollfds cx) (poll.fd_idx e) = Done r).
    { apply arr_get_Some. split; [exact Hi0|].
      rewrite <- live_fds_lookup by exact Hiu. exact Hr. }
    rewrite Hget. reflexivity.
  - unfold ssh_poll_get_fd. run_simpl. rewrite Hpolls1, lookup_insert_eq. run_simpl.
    cbn [detached_with poll.ctx poll.fd_idx poll.set_ctx poll.set_fd_idx].
    destruct (decide (NULL = NULL)); [reflexivity|contradiction].
Qed.

Lemma ssh_poll_get_fd_across_remove_witness :
  ∃ w1, ssh_poll_ctx_remove 1%nat 3%nat three_kept = Done w1 ∧
        ssh_poll_get_fd 3%nat three_kept = Done 11 ∧
        ssh_poll_get_fd 3%nat w1 = Done 11.
Proof.
  apply (ssh_poll_get_fd_across_remove 1%nat 3%nat three_kept
           (poll.mk 1%nat 1 1 1%nat 0)
           (pctx.mk (Some [2%nat; 3%nat; 4%nat; 0%nat; 0%nat])
              (Some [pollfd.mk 10 1 0; pollfd.mk 11 1 0; pollfd.mk 12 1 0;
                     pollfd.junk; pollfd.junk]) 5 3 5)
           (pollfd.mk 11 1 0)).
  - vm_compute; lia.
  - reflexivity.
  - vm_compute; reflexivity.
  - vm_compute; reflexivity.
  - unfold ctx_wf, SIZE_WIDTH; simpl; lia.
  - simpl; lia.
  - reflexivity.
  - unfold all_granted; vm_compute; constructor.
Defined.

(** ** The requested events *)

Lemma land_lor_lnot (a m : Z) : Z.land (Z.lor a m) (Z.lnot m) = Z.land a (Z.lnot m).
Proof.
  apply Z.bits_inj'. intros n Hn.
  rewrite !Z.land_spec, Z.lor_spec, Z.lnot_spec by exact Hn.
  destruct (Z.testbit a n), (Z.testbit m n); reflexivity.
Qed.

(** What [ssh_poll_set_events] does to an attached event and its record. *)
Lemma ssh_poll_set_events_spec (p : ptr) (m : Z) (w : world) (e : poll.t)
    (cx : pctx.t) (r : pollfd.t) :
  poll.ctx e ≠ NULL → polls w !! p = Some e → ctxs w !! poll.ctx e = Some cx →
  arr_get (pctx.pollfds cx) (poll.fd_idx e) = Done r →
  ∃ w1 cx1,
    ssh_poll_set_events p m w = Done w1 ∧
    polls w1 = <[p := poll.set_events m e]> (polls w) ∧
    ctxs w1 = <[poll.ctx e := cx1]> (ctxs w) ∧
    ssh_poll_get_events p w1 = Done m ∧
    arr_get (pctx.pollfds cx1) (poll.fd_idx e)
    = Done (pollfd.mk (pollfd.fd r) m (pollfd.revents r)) ∧
    (∀ j, j ≠ poll.fd_idx e → arr_get (pctx.pollfds cx1) j = arr_get (pctx.pollfds cx) j) ∧
    pctx.pollptrs cx1 = pctx.pollptrs cx ∧
    pctx.polls_used cx1 = pctx.polls_used cx ∧
    pctx.polls_allocated cx1 = pctx.polls_allocated cx ∧
    pctx.chunk_size cx1 = pctx.chunk_size cx.
Proof.
  intros Hctx Hp Hc Hr.
  apply arr_get_Some in Hr as [Hi Hr].
  destruct (pctx.pollfds cx) as [l|] eqn:Hl;
    [|change (default [] (@None (list pollfd.t))) with (@nil pollfd.t) in Hr;
      discriminate Hr].
  change (default [] (Some l)) with l in Hr.
  pose proof (lookup_lt_Some _ _ _ Hr) as Hlen.
  eexists; eexists. split; [|split; [|split; [|split; [|split; [|split]]]]].
  - unfold ssh_poll_set_events. run_simpl. rewrite Hp. run_simpl.
    destruct (decide (poll.ctx e = NULL)); [contradiction|].
    unfold store_poll, set_polls. cbn [ctxs]. rewrite Hc. run_simpl.
    rewrite Hl, (arr_get_lookup l _ r Hi Hr). run_simpl.
    rewrite (arr_set_lookup l _ r _ Hi Hr). run_simpl. reflexivity.
  - reflexivity.
  - reflexivity.
  - unfold ssh_poll_get_events. run_simpl.
    unfold store_ctx, store_poll, set_ctxs, set_polls. cbn [polls].
    rewrite lookup_insert_eq. reflexivity.
  - cbn [pctx.set_pollfds pctx.pollfds]. apply arr_get_Some. split; [exact Hi|].
    change (default [] (Some ?x)) with x. apply list_lookup_insert_eq. exact Hlen.
  - intros j Hj. cbn [pctx.set_pollfds pctx.pollfds]. unfold arr_get.
    rewrite length_insert.
    destruct ((0 <=? j) && (j <? Z.of_nat (length l))) eqn:Hin; [|reflexivity].
    apply andb_true_iff in Hin as [H0 _]. apply Z.leb_le in H0.
    rewrite list_lookup_insert_ne by lia. reflexivity.
  - cbn. auto.
Qed.

(** X8: setting the requested events of an attached event whose stored
    position is inside the record block changes the event's mask and the
    [events] field of its record, and nothing else of the context: the
    record's descriptor and returned events, the other records, the pointer
    block and the counts stay. *)
Theorem ssh_poll_set_events_mirrors (p : ptr) (m : Z) (w : world) (e : poll.t)
    (cx : pctx.t) (r : pollfd.t) :
  poll.ctx e ≠ NULL → polls w !! p = Some e → ctxs w !! poll.ctx e = Some cx →
  arr_get (pctx.pollfds cx) (poll.fd_idx e) = Done r →
  ∃ w1 cx1,
    ssh_poll_set_events p m w = Done w1 ∧
    polls w1 = <[p := poll.set_events m e]> (polls w) ∧
    ctxs w1 = <[poll.ctx e := cx1]> (ctxs w) ∧
    ssh_poll_get_events p w1 = Done m ∧
    arr_get (pctx.pollfds cx1) (poll.fd_idx e)
    = Done (pollfd.mk (pollfd.fd r) m (pollfd.revents r)) ∧
    (∀ j, j ≠ poll.fd_idx e → arr_get (pctx.pollfds cx1) j = arr_get (pctx.pollfds cx) j) ∧
    pctx.pollptrs cx1 = pctx.pollptrs cx ∧
    pctx.polls_used cx1 = pctx.polls_used cx ∧
    pctx.polls_allocated cx1 = pctx.polls_allocated cx ∧
    pctx.chunk_size cx1 = pctx.chunk_size cx.
Proof. exact (ssh_poll_set_events_spec p m w e cx r). Qed.

Lemma ssh_poll_set_events_mirrors_witness :
  ∃ w1, ssh_poll_set_events 2%nat 5 one_attached = Done w1 ∧
        ssh_poll_get_events 2%nat w1 = Done 5.
Proof.
  destruct (ssh_poll_set_events_mirrors 2%nat 5 one_attached
              (poll.mk 1%nat 0 1 1%nat 0)
              (pctx.mk (Some [2%nat; 0%nat; 0%nat; 0%nat; 0%nat])
                 (Some [pollfd.mk 10 1 0; pollfd.junk; pollfd.junk; pollfd.junk;
                        pollfd.junk]) 5 1 5)
              (pollfd.mk 10 1 0))
    as (w1 & cx1 & Hset & _ & _ & Hget & _).
  - vm_compute; lia.
  - vm_compute; reflexivity.
  - vm_compute; reflexivity.
  - reflexivity.
  - exists w1. auto.
Defined.

(** X9: on an attached event with a valid stored position, adding a mask
    to the requested events and then removing the same mask leaves, in the
    event and in its record alike, the former mask with the bits of that
    mask cleared. *)
Theorem ssh_poll_add_then_remove_events (p : ptr) (m : Z) (w : world) (e : poll.t)
    (cx : pctx.t) (r : pollfd.t) :
  poll.ctx e ≠ NULL → polls w !! p = Some e → ctxs w !! poll.ctx e = Some cx →
  arr_get (pctx.pollfds cx) (poll.fd_idx e) = Done r →
  ∃ w1 w2 cx2,
    ssh_poll_add_events p m w = Done w1 ∧
    ssh_poll_remove_events p m w1 = Done w2 ∧
    ssh_poll_get_events p w2 = Done (Z.land (poll.events e) (Z.lnot m)) ∧
    ctxs w2 !! poll.ctx e = Some cx2 ∧
    arr_get (pctx.pollfds cx2) (poll.fd_idx e)
    = Done (pollfd.mk (pollfd.fd r) (Z.land (poll.events e) (Z.lnot m)) (pollfd.revents r)).
Proof.
  intros Hctx Hp Hc Hr.
  destruct (ssh_poll_set_events_spec p (Z.lor (poll.events e) m) w e cx r Hctx Hp Hc Hr)
    as (w1 & cx1 & Hset1 & Hpolls1 & Hctxs1 & _ & Hget1 & _).
  destruct (ssh_poll_set_events_spec p
              (Z.land (Z.lor (poll.events e) m) (Z.lnot m)) w1
              (poll.set_events (Z.lor (poll.events e) m) e) cx1
              (pollfd.mk (pollfd.fd r) (Z.lor (poll.events e) m) (pollfd.revents r)))
    as (w2 & cx2 & Hset2 & _ & Hctxs2 & Hev2 & Hget2 & _).
  - exact Hctx.
  - rewrite Hpolls1. apply lookup_insert_eq.
  - cbn [poll.set_events poll.ctx]. rewrite Hctxs1. apply lookup_insert_eq.
  - exact Hget1.
  - cbn [poll.set_events poll.ctx poll.fd_idx pollfd.fd pollfd.revents] in *.
    exists w1, w2, cx2. rewrite land_lor_lnot in *.
    split; [|split; [|split; [exact Hev2|split; [|exact Hget2]]]].
    + unfold ssh_poll_add_events, ssh_poll_get_events. run_simpl. rewrite Hp. run_simpl.
      exact Hset1.
    + unfold ssh_poll_remove_events, ssh_poll_get_events. run_simpl.
      rewrite Hpolls1, lookup_insert_eq. run_simpl.
      cbn [poll.set_events poll.events]. rewrite land_lor_lnot. exact Hset2.
    + rewrite Hctxs2. apply lookup_insert_eq.
Qed.

Lemma ssh_poll_add_then_remove_events_witness :
  ∃ w1 w2, ssh_poll_add_events 2%nat 6 one_attached = Done w1 ∧
           ssh_poll_remove_events 2%nat 6 w1 = Done w2 ∧
           ssh_poll_get_events 2%nat w2 = Done 1.
Proof.
  destruct (ssh_poll_add_then_remove_events 2%nat 6 one_attached
              (poll.mk 1%nat 0 1 1%nat 0)
              (pctx.mk (Some [2%nat; 0%nat; 0%nat; 0%nat; 0%nat])
                 (Some [pollfd.mk 10 1 0; pollfd.junk; pollfd.junk; pollfd.junk;
                        pollfd.junk]) 5 1 5)
              (pollfd.mk 10 1 0))
    as (w1 & w2 & cx2 & Hadd & Hrm & Hget & _).
  - vm_compute; lia.
  - vm_compute; reflexivity.
  - vm_compute; reflexivity.
  - reflexivity.
  - exists w1, w2. auto.
Defined.

(** ** What a dispatch returns *)

Section DispatchCount.

Variable code : funptr → callback.
Variable wait : option (list pollfd.t) → Z → Z → Z * option (list pollfd.t).

(** A pass of the walk that returns has skipped an idle index, leaving the
    counter alone and invoking nothing, or has invoked one callback, with
    returned events that are not zero, and lowered the counter by one. *)
Lemma ssh_poll_ctx_body_cases (c : ptr) (i used rc : Z) (w w1 : world) (s1 : walk)
    (o : list obs) :
  ssh_poll_ctx_body code c (Walk i used rc) w = Done (s1, w1, o) →
  (w_rc s1 = rc ∧ o = []) ∨
  (w_rc s1 = rc - 1 ∧ ∃ x, o = [x] ∧ fired_callback x).
Proof.
  unfold ssh_poll_ctx_body, load_ctx, load_poll. intros H.
  destruct (ctxs w !! c) as [cx|]; [|discriminate H]. run_simpl.
  destruct (arr_get (pctx.pollfds cx) i) as [r| |]; try discriminate H. run_simpl.
  destruct (Z.eqb_spec (pollfd.revents r) 0) as [Hz|Hnz].
  { injection H as <- _ <-. left. auto. }
  destruct (arr_get (pctx.pollptrs cx) i) as [p| |]; try discriminate H. run_simpl.
  destruct (polls w !! p) as [e|]; [|discriminate H]. run_simpl.
  destruct (code (poll.cb e) p (pollfd.fd r) (pollfd.revents r) (poll.cb_data e) w)
    as [[res w2]| |]; try discriminate H.
  run_simpl. right. destruct (res <? 0).
  - destruct (ctxs w2 !! c) as [cx1|]; [|discriminate H]. run_simpl.
    injection H as <- _ <-. split; [reflexivity|]. eexists. split; [reflexivity|exact Hnz].
  - destruct (ctxs w2 !! c) as [cx1|]; [|discriminate H]. run_simpl.
    destruct (arr_get (pctx.pollfds cx1) i) as [r1| |]; try discriminate H. run_simpl.
    destruct (arr_set (pctx.pollfds cx1) i (pollfd.set_revents 0 r1)) as [pf| |];
      try discriminate H.
    run_simpl. injection H as <- _ <-.
    split; [reflexivity|]. eexists. split; [reflexivity|exact Hnz].
Qed.

Lemma ssh_poll_ctx_loop_count (c : ptr) (fuel : nat) :
  ∀ (s : walk) (w w1 : world) (log log1 : list obs) (r : Z),
    ssh_poll_ctx_loop code fuel c s w log = Done (r, w1, log1) →
    0 ≤ w_rc s →
    ∃ invoked, log1 = log ++ invoked ∧ Forall fired_callback invoked ∧
               0 ≤ r ≤ w_rc s ∧ Z.of_nat (length invoked) = w_rc s - r.
Proof.
  induction fuel as [|fuel IH]; intros s w w1 log log1 r Hrun Hrc;
    cbn [ssh_poll_ctx_loop] in Hrun;
    (destruct ((w_i s <? w_used s) && (w_rc s >? 0)) eqn:Hcond;
     [|injection Hrun as <- _ <-; exists []; rewrite app_nil_r;
       repeat split; try constructor; cbn; lia]).
  - discriminate Hrun.
  - destruct s as [i used rc]. cbn [w_i w_used w_rc] in *.
    destruct (ssh_poll_ctx_body code c (Walk i used rc) w) as [[[s1 w2] o]| |] eqn:Hbody;
      try discriminate Hrun.
    run_simpl.
    apply andb_true_iff in Hcond as [_ Hpos]. rewrite Z.gtb_ltb in Hpos.
    apply Z.ltb_lt in Hpos.
    destruct (ssh_poll_ctx_body_cases c i used rc w w2 s1 o Hbody)
      as [[Hs ->]|(Hs & x & -> & Hx)].
    + destruct (IH s1 w2 w1 (log ++ []) log1 r Hrun ltac:(lia))
        as (inv & -> & Hall & Hr & Hlen).
      exists inv. rewrite app_nil_r. repeat split; try assumption; lia.
    + destruct (IH s1 w2 w1 (log ++ [x]) log1 r Hrun ltac:(lia))
        as (inv & -> & Hall & Hr & Hlen).
      exists (x :: inv). rewrite <- app_assoc. cbn [app length].
      repeat split; try lia. constructor; assumption.
Qed.

(** X10: a dispatch on a context in use that returns has called the wait
    primitive once, with the record block, the used count and the timeout,
    and then only callbacks, each with returned events that are not zero.
    If the wait result is not positive it is returned and no callback is
    invoked; otherwise the value returned lies between 0 and the wait
    result, and the number of callbacks invoked is the wait result minus the
    value returned. *)
Theorem ssh_poll_ctx_accounts (fuel : nat) (c : ptr) (timeout : Z) (w w1 : world)
    (cx : pctx.t) (r : Z) (log : list obs) :
  ctxs w !! c = Some cx → pctx.polls_used cx ≠ 0 →
  ssh_poll_ctx code wait fuel c timeout w = Done (r, w1, log) →
  let waited := fst (wait (pctx.pollfds cx) (pctx.polls_used cx) timeout) in
  ∃ invoked,
    log = Wait (pctx.polls_used cx) timeout :: invoked ∧
    Forall fired_callback invoked ∧
    (waited ≤ 0 → r = waited ∧ invoked = []) ∧
    (0 < waited → 0 ≤ r ≤ waited ∧ Z.of_nat (length invoked) = waited - r).
Proof.
  intros Hc Hu Hrun waited. subst waited.
  unfold ssh_poll_ctx in Hrun. run_simpl. rewrite Hc in Hrun. run_simpl.
  replace (pctx.polls_used cx =? 0) with false in Hrun
    by (symmetry; apply Z.eqb_neq; exact Hu).
  destruct (wait (pctx.pollfds cx) (pctx.polls_used cx) timeout) as [rc fds].
  cbn [fst]. destruct (rc >? 0) eqn:Hpos; rewrite Z.gtb_ltb in Hpos.
  - apply Z.ltb_lt in Hpos.
    destruct (ssh_poll_ctx_loop_count c fuel _ _ _ _ _ _ Hrun ltac:(cbn; lia))
      as (inv & -> & Hall & Hr & Hlen).
    cbn [w_rc] in *. exists inv. split; [reflexivity|]. split; [exact Hall|].
    split; [lia|]. auto.
  - apply Z.ltb_ge in Hpos. injection Hrun as <- _ <-.
    exists []. split; [reflexivity|]. split; [constructor|]. split; [auto|lia].
Qed.

End DispatchCount.

Lemma ssh_poll_ctx_accounts_witness :
  ∃ w1, ssh_poll_ctx sample_code all_ready 5 1%nat 0 one_attached
        = Done (0, w1, [Wait 1 0; Callback 2%nat 10 1 0]).
Proof.
  destruct (ssh_poll_ctx sample_code all_ready 5 1%nat 0 one_attached)
    as [[[r w1] log]| |] eqn:Hrun; try (vm_compute in Hrun; discriminate Hrun).
  destruct (ssh_poll_ctx_accounts sample_code all_ready 5 1%nat 0 one_attached w1
              (pctx.mk (Some [2%nat; 0%nat; 0%nat; 0%nat; 0%nat])
                 (Some [pollfd.mk 10 1 0; pollfd.junk; pollfd.junk; pollfd.junk;
                        pollfd.junk]) 5 1 5) r log)
    as (inv & Hlog & _).
  - vm_compute; reflexivity.
  - simpl; lia.
  - exact Hrun.
  - exists w1. vm_compute in Hrun. injection Hrun as <- _ <-. reflexivity.
Defined.

(** * Further properties of the emulated wait primitive *)

(** ** What can happen to a cell *)

Lemma length_prefix_fmap {A} (g : A → A) (n : nat) (l : list A) :
  length ((g <$> take n l) ++ drop n l) = length l.
Proof. rewrite length_app, length_fmap, length_take, length_drop. lia. Qed.

Lemma marked_or_kept_trans (f f1 f2 : pollfd.t) :
  marked_or_kept f f1 → marked_or_kept f1 f2 → marked_or_kept f f2.
Proof.
  intros [->| ->] [->| ->]; unfold marked_or_kept; cbn; auto.
Qed.

Lemma mark_fired_cell (h nfds : Z) (fds : list pollfd.t) (j : nat) (f : pollfd.t) :
  fds !! j = Some f →
  ∃ f', mark_fired h nfds fds !! j = Some f' ∧ marked_or_kept f f' ∧
        ((Z.to_nat nfds ≤ j)%nat → f' = f).
Proof.
  intros Hf. unfold mark_fired. rewrite (lookup_prefix_fmap _ _ _ _ _ Hf).
  eexists. split; [reflexivity|]. unfold marked_or_kept.
  destruct (decide (j < Z.to_nat nfds)%nat).
  - split; [|lia]. destruct (pollfd.fd f =? h); auto.
  - auto.
Qed.

Section Cells.

Variable K : winapi.
Variable wait : list syscall → Z → list Z → Z → Z → Z → Z.

(** [poll_rest] keeps the number of cells and leaves each cell untouched or
    marked; cells at or beyond [nfds] are untouched. *)
Lemma poll_rest_cells (k : nat) :
  ∀ (hs : list Z) (n : Z) (fds : list pollfd.t) (nfds timeout : Z) (log : list syscall),
    Z.to_nat n = k →
    let r := poll_rest K wait hs n fds nfds timeout log in
    length (st_fds (snd r)) = length fds ∧
    ∀ j f, fds !! j = Some f →
           ∃ f', st_fds (snd r) !! j = Some f' ∧ marked_or_kept f f' ∧
                 ((Z.to_nat nfds ≤ j)%nat → f' = f).
Proof.
  induction k as [k IH] using lt_wf_ind.
  intros hs n fds nfds timeout log Hk r. subst r.
  assert (Hsame : length fds = length fds ∧
            ∀ j f, fds !! j = Some f →
                   ∃ f', fds !! j = Some f' ∧ marked_or_kept f f' ∧
                         ((Z.to_nat nfds ≤ j)%nat → f' = f)).
  { split; [reflexivity|]. intros j f Hf. exists f. unfold marked_or_kept. auto. }
  rewrite poll_rest_equation_1.
  destruct (poll_rest_ready K wait hs n timeout log) as [ready log1].
  destruct (ready =? WAIT_FAILED K); [exact Hsame|].
  destruct ((ready =? WAIT_TIMEOUT K) || (ready =? WAIT_IO_COMPLETION K)); [exact Hsame|].
  destruct ((ready >=? WAIT_OBJECT_0 K) && (ready <? u32 (WAIT_OBJECT_0 K + n)));
    [|exact Hsame].
  cbv zeta. set (h := nth _ hs 0).
  assert (Hmarked : length (mark_fired h nfds fds) = length fds ∧
            ∀ j f, fds !! j = Some f →
                   ∃ f', mark_fired h nfds fds !! j = Some f' ∧ marked_or_kept f f' ∧
                         ((Z.to_nat nfds ≤ j)%nat → f' = f)).
  { split; [apply length_prefix_fmap|]. intros j f Hf. apply mark_fired_cell. exact Hf. }
  destruct (decide (timeout = 0 ∧ n > 1)) as [[_ Hn1]|_]; [|exact Hmarked].
  set (hs1 := if ready <? u32 (n - 1) then _ else hs).
  destruct (IH (Z.to_nat (n - 1)) ltac:(lia) hs1 (n - 1) (mark_fired h nfds fds)
              nfds 0 log1 eq_refl) as [Hlen Hcells].
  destruct (poll_rest K wait hs1 (n - 1) (mark_fired h nfds fds) nfds 0 log1) as [rr st].
  cbn [snd] in Hlen, Hcells.
  assert (Hgoal : length (st_fds st) = length fds ∧
            ∀ j f, fds !! j = Some f →
                   ∃ f', st_fds st !! j = Some f' ∧ marked_or_kept f f' ∧
                         ((Z.to_nat nfds ≤ j)%nat → f' = f)).
  { destruct Hmarked as [Hlen0 Hm]. split; [congruence|].
    intros j f Hf. destruct (Hm j f Hf) as (f1 & Hf1 & Hk1 & Hb1).
    destruct (Hcells j f1 Hf1) as (f2 & Hf2 & Hk2 & Hb2).
    exists f2. split; [exact Hf2|]. split; [eapply marked_or_kept_trans; eassumption|].
    intros Hj. rewrite (Hb2 Hj). apply Hb1. exact Hj. }
  destruct (rr <? 0); exact Hgoal.
Qed.

(** X11: the emulated [ssh_poll] hands back as many cells as it was given;
    it never changes the descriptor or the requested events of a cell; the
    returned events of a cell come back as they were, equal to its requested
    events, or zero; and cells at or beyond [nfds] come back untouched. *)
Theorem ssh_poll_cell_outcome (cells : list pollfd.t) (nfds timeout : Z)
    (j : nat) (f : pollfd.t) :
  cells !! j = Some f →
  ∃ l f',
    out_fds (ssh_poll K wait (Some cells) nfds timeout) = Some l ∧
    length l = length cells ∧ l !! j = Some f' ∧
    pollfd.fd f' = pollfd.fd f ∧ pollfd.events f' = pollfd.events f ∧
    (pollfd.revents f' = pollfd.revents f ∨ pollfd.revents f' = pollfd.events f ∨
     pollfd.revents f' = 0) ∧
    ((Z.to_nat nfds ≤ j)%nat → f' = f).
Proof.
  intros Hf. unfold ssh_poll.
  destruct (nfds >=? MAXIMUM_WAIT_OBJECTS K).
  { exists cells, f. cbn. auto 10. }
  destruct (collect_handles K _ _ 0) as [hs n].
  set (t := if timeout =? -1 then i32 (INFINITE K) else timeout).
  assert (Hfinal : ∀ rc0 st,
            length (st_fds st) = length cells →
            (∀ j f, cells !! j = Some f →
                    ∃ f', st_fds st !! j = Some f' ∧ marked_or_kept f f' ∧
                          ((Z.to_nat nfds ≤ j)%nat → f' = f)) →
            ∃ l f',
              out_fds (if rc0 <? 0
                       then Polled rc0 (Some (clear_revents nfds (st_fds st))) (st_log st)
                              (Some EBADF)
                       else Polled rc0 (Some (st_fds st)) (st_log st) None) = Some l ∧
              length l = length cells ∧ l !! j = Some f' ∧
              pollfd.fd f' = pollfd.fd f ∧ pollfd.events f' = pollfd.events f ∧
              (pollfd.revents f' = pollfd.revents f ∨ pollfd.revents f' = pollfd.events f ∨
               pollfd.revents f' = 0) ∧
              ((Z.to_nat nfds ≤ j)%nat → f' = f)).
  { intros rc0 st Hlen Hcells. destruct (Hcells j f Hf) as (f1 & Hf1 & Hk & Hb).
    destruct (rc0 <? 0); cbn [out_fds].
    - eexists; eexists. split; [reflexivity|].
      split; [unfold clear_revents; rewrite length_prefix_fmap; exact Hlen|].
      split; [apply clear_revents_lookup; exact Hf1|].
      destruct (decide (j < Z.to_nat nfds)%nat) as [Hj|Hj].
      + destruct Hk as [->| ->]; cbn; repeat split; auto; lia.
      + rewrite (Hb ltac:(lia)). repeat split; auto.
    - exists (st_fds st), f1. split; [reflexivity|]. split; [exact Hlen|].
      split; [exact Hf1|]. destruct Hk as [->| ->]; cbn; auto 10. }
  destruct (n >? 1).
  - destruct (poll_rest_cells (Z.to_nat n) hs n cells nfds 0 [] eq_refl) as [Hlen1 Hc1].
    destruct (poll_rest K wait hs n cells nfds 0 []) as [rc1 st1]. cbn [snd] in Hlen1, Hc1.
    destruct ((rc1 =? 0) && ((u32 t =? INFINITE K) || (t >=? 10))).
    + destruct (poll_rest_cells (Z.to_nat n) (st_handles st1) n (st_fds st1) nfds t
                  (st_log st1) eq_refl) as [Hlen2 Hc2].
      destruct (poll_rest K wait (st_handles st1) n (st_fds st1) nfds t (st_log st1))
        as [rc2 st2]. cbn [snd] in Hlen2, Hc2.
      apply Hfinal; [congruence|]. intros j0 f0 Hf0.
      destruct (Hc1 j0 f0 Hf0) as (f1 & Hf1 & Hk1 & Hb1).
      destruct (Hc2 j0 f1 Hf1) as (f2 & Hf2 & Hk2 & Hb2).
      exists f2. split; [exact Hf2|]. split; [eapply marked_or_kept_trans; eassumption|].
      intros Hj. rewrite (Hb2 Hj). apply Hb1. exact Hj.
    + apply Hfinal; assumption.
  - destruct (poll_rest_cells (Z.to_nat n) hs n cells nfds t [] eq_refl) as [Hlen1 Hc1].
    destruct (poll_rest K wait hs n cells nfds t []) as [rc1 st1]. cbn [snd] in Hlen1, Hc1.
    apply Hfinal; assumption.
Qed.

End Cells.

Lemma ssh_poll_cell_outcome_witness :
  ∃ l f', out_fds (ssh_poll win32 first_ready (Some mixed_cells) 4 50) = Some l ∧
          l !! 0%nat = Some f' ∧ pollfd.fd f' = 7.
Proof.
  destruct (ssh_poll_cell_outcome win32 first_ready mixed_cells 4 50 0%nat (pollfd.mk 7 1 0))
    as (l & f' & Hout & _ & Hl & Hfd & _).
  - reflexivity.
  - exists l, f'. auto.
Defined.

(** ** The value returned *)

Section Returned.

Variable K : winapi.
Variable wait : list syscall → Z → list Z → Z → Z → Z → Z.

(** A [poll_rest] that returns 0 has left the cells and the handles as they
    were. *)
Lemma poll_rest_zero_keeps (hs : list Z) (n : Z) (fds : list pollfd.t)
    (nfds timeout : Z) (log : list syscall) :
  fst (poll_rest K wait hs n fds nfds timeout log) = 0 →
  st_fds (snd (poll_rest K wait hs n fds nfds timeout log)) = fds ∧
  st_handles (snd (poll_rest K wait hs n fds nfds timeout log)) = hs.
Proof.
  rewrite poll_rest_equation_1.
  destruct (poll_rest_ready K wait hs n timeout log) as [ready log1].
  destruct (ready =? WAIT_FAILED K); [cbn; discriminate|].
  destruct ((ready =? WAIT_TIMEOUT K) || (ready =? WAIT_IO_COMPLETION K)); [cbn; auto|].
  destruct ((ready >=? WAIT_OBJECT_0 K) && (ready <? u32 (WAIT_OBJECT_0 K + n)));
    [|cbn; auto].
  cbv zeta.
  destruct (decide (timeout = 0 ∧ n > 1)) as [_|_]; [|cbn; discriminate].
  destruct (poll_rest K wait _ (n - 1) _ nfds 0 log1) as [rr st].
  destruct (rr <? 0) eqn:Hrr; cbn [fst]; [discriminate|].
  apply Z.ltb_ge in Hrr. lia.
Qed.

(** X12: when the emulated [ssh_poll] returns 0 it hands the cells back
    exactly as it was given them. *)
Theorem ssh_poll_zero_keeps_cells (cells : list pollfd.t) (nfds timeout : Z) :
  rc (ssh_poll K wait (Some cells) nfds timeout) = 0 →
  out_fds (ssh_poll K wait (Some cells) nfds timeout) = Some cells.
Proof.
  unfold ssh_poll.
  destruct (nfds >=? MAXIMUM_WAIT_OBJECTS K); [cbn; discriminate|].
  destruct (collect_handles K _ _ 0) as [hs n].
  set (t := if timeout =? -1 then i32 (INFINITE K) else timeout).
  assert (Hfinal : ∀ rc0 st,
            (rc0 = 0 → st_fds st = cells) →
            rc (if rc0 <? 0
                then Polled rc0 (Some (clear_revents nfds (st_fds st))) (st_log st)
                       (Some EBADF)
                else Polled rc0 (Some (st_fds st)) (st_log st) None) = 0 →
            out_fds (if rc0 <? 0
                     then Polled rc0 (Some (clear_revents nfds (st_fds st))) (st_log st)
                            (Some EBADF)
                     else Polled rc0 (Some (st_fds st)) (st_log st) None) = Some cells).
  { intros rc0 st Hkeep. destruct (rc0 <? 0) eqn:Hneg; cbn [rc out_fds]; intros ->.
    - discriminate Hneg.
    - rewrite Hkeep by reflexivity. reflexivity. }
  destruct (n >? 1).
  - pose proof (poll_rest_zero_keeps hs n cells nfds 0 []) as H1.
    destruct (poll_rest K wait hs n cells nfds 0 []) as [rc1 st1]. cbn [fst snd] in H1.
    destruct (Z.eqb_spec rc1 0) as [->|Hne]; cbn [andb].
    + destruct (H1 eq_refl) as [Hf1 Hh1].
      destruct ((u32 t =? INFINITE K) || (t >=? 10)).
      * pose proof (poll_rest_zero_keeps (st_handles st1) n (st_fds st1) nfds t (st_log st1))
          as H2.
        destruct (poll_rest K wait (st_handles st1) n (st_fds st1) nfds t (st_log st1))
          as [rc2 st2]. cbn [fst snd] in H2.
        apply Hfinal. intros ->. destruct (H2 eq_refl) as [Hf2 _]. congruence.
      * apply Hfinal. intros _. exact Hf1.
    + apply Hfinal. intros ->. contradiction.
  - pose proof (poll_rest_zero_keeps hs n cells nfds t []) as H1.
    destruct (poll_rest K wait hs n cells nfds t []) as [rc1 st1]. cbn [fst snd] in H1.
    apply Hfinal. intros ->. apply H1. reflexivity.
Qed.

(** [poll_rest] returns at least -1 and at most the number of handles. *)
Lemma poll_rest_bounds (k : nat) :
  ∀ (hs : list Z) (n : Z) (fds : list pollfd.t) (nfds timeout : Z) (log : list syscall),
    Z.to_nat n = k → 0 ≤ WAIT_OBJECT_0 K → 0 ≤ n →
    -1 ≤ fst (poll_rest K wait hs n fds nfds timeout log) ≤ n.
Proof.
  induction k as [k IH] using lt_wf_ind.
  intros hs n fds nfds timeout log Hk HW Hn.
  rewrite poll_rest_equation_1.
  destruct (poll_rest_ready K wait hs n timeout log) as [ready log1].
  destruct (ready =? WAIT_FAILED K); [cbn; lia|].
  destruct ((ready =? WAIT_TIMEOUT K) || (ready =? WAIT_IO_COMPLETION K)); [cbn; lia|].
  destruct ((ready >=? WAIT_OBJECT_0 K) && (ready <? u32 (WAIT_OBJECT_0 K + n))) eqn:Hin;
    [|cbn; lia].
  apply andb_true_iff in Hin as [Hge Hlt].
  rewrite Z.geb_leb in Hge. apply Z.leb_le in Hge. apply Z.ltb_lt in Hlt.
  assert (Hn1 : 1 ≤ n).
  { destruct (Z.eq_dec n 0) as [->|]; [|lia]. exfalso.
    rewrite Z.add_0_r in Hlt. unfold u32 in Hlt.
    pose proof (Z.mod_le (WAIT_OBJECT_0 K) (2 ^ 32) HW ltac:(lia)). lia. }
  cbv zeta.
  destruct (decide (timeout = 0 ∧ n > 1)) as [[_ Hgt]|_]; [|cbn; lia].
  set (hs1 := if ready <? u32 (n - 1) then _ else hs).
  pose proof (IH (Z.to_nat (n - 1)) ltac:(lia) hs1 (n - 1)
                (mark_fired (nth (Z.to_nat (u32 (ready - WAIT_OBJECT_0 K))) hs 0) nfds fds)
                nfds 0 log1 eq_refl HW ltac:(lia)) as Hrec.
  destruct (poll_rest K wait hs1 (n - 1) _ nfds 0 log1) as [rr st]. cbn [fst] in Hrec.
  destruct (rr <? 0); cbn [fst]; lia.
Qed.

Lemma collect_handles_count (fs : list pollfd.t) (hs : list Z) (n : Z) :
  n ≤ snd (collect_handles K fs hs n) ≤ n + Z.of_nat (length fs).
Proof.
  revert hs n. induction fs as [|f fs IH]; intros hs n; [cbn; lia|].
  cbn [collect_handles length].
  destruct (pollfd.fd f >? 0); [|specialize (IH hs n); lia].
  destruct (_ =? n); [|specialize (IH hs n); lia].
  destruct (n =? MAXIMUM_WAIT_OBJECTS K); [cbn; lia|].
  specialize (IH (<[Z.to_nat n := pollfd.fd f]> hs) (n + 1)). lia.
Qed.

(** X13: the emulated [ssh_poll] returns at least -1 and at most the
    number of distinct handles it gathered, which is at most the number of
    cells it was asked to look at.  ([WAIT_OBJECT_0] is not negative.) *)
Theorem ssh_poll_return_bounds (cells : list pollfd.t) (nfds timeout : Z) :
  0 ≤ WAIT_OBJECT_0 K → 0 ≤ nfds →
  -1 ≤ rc (ssh_poll K wait (Some cells) nfds timeout) ∧
  (nfds < MAXIMUM_WAIT_OBJECTS K →
   rc (ssh_poll K wait (Some cells) nfds timeout) ≤ snd (handle_set K cells nfds)) ∧
  rc (ssh_poll K wait (Some cells) nfds timeout) ≤ nfds.
Proof.
  intros HW Hnfds. unfold ssh_poll, handle_set.
  destruct (Z.geb_spec nfds (MAXIMUM_WAIT_OBJECTS K)) as [Hmax|Hmax].
  { cbn. repeat split; lia. }
  pose proof (collect_handles_count (take (Z.to_nat nfds) cells)
                (replicate (Z.to_nat (MAXIMUM_WAIT_OBJECTS K)) 0) 0) as Hcount.
  rewrite length_take in Hcount.
  destruct (collect_handles K _ _ 0) as [hs n]. cbn [snd] in *.
  set (t := if timeout =? -1 then i32 (INFINITE K) else timeout).
  assert (Hfinal : ∀ rc0 st,
            -1 ≤ rc0 ≤ n →
            -1 ≤ rc (if rc0 <? 0
                     then Polled rc0 (Some (clear_revents nfds (st_fds st))) (st_log st)
                            (Some EBADF)
                     else Polled rc0 (Some (st_fds st)) (st_log st) None) ∧
            (nfds < MAXIMUM_WAIT_OBJECTS K →
             rc (if rc0 <? 0
                 then Polled rc0 (Some (clear_revents nfds (st_fds st))) (st_log st)
                        (Some EBADF)
                 else Polled rc0 (Some (st_fds st)) (st_log st) None) ≤ n) ∧
            rc (if rc0 <? 0
                then Polled rc0 (Some (clear_revents nfds (st_fds st))) (st_log st)
                       (Some EBADF)
                else Polled rc0 (Some (st_fds st)) (st_log st) None) ≤ nfds).
  { intros rc0 st Hb. destruct (rc0 <? 0); cbn [rc]; repeat split; lia. }
  destruct (n >? 1).
  - pose proof (poll_rest_bounds (Z.to_nat n) hs n cells nfds 0 [] eq_refl HW ltac:(lia)) as H1.
    destruct (poll_rest K wait hs n cells nfds 0 []) as [rc1 st1]. cbn [fst] in H1.
    destruct ((rc1 =? 0) && ((u32 t =? INFINITE K) || (t >=? 10))).
    + pose proof (poll_rest_bounds (Z.to_nat n) (st_handles st1) n (st_fds st1) nfds t
                    (st_log st1) eq_refl HW ltac:(lia)) as H2.
      destruct (poll_rest K wait (st_handles st1) n (st_fds st1) nfds t (st_log st1))
        as [rc2 st2]. cbn [fst] in H2. apply Hfinal. exact H2.
    + apply Hfinal. exact H1.
  - pose proof (poll_rest_bounds (Z.to_nat n) hs n cells nfds t [] eq_refl HW ltac:(lia)) as H1.
    destruct (poll_rest K wait hs n cells nfds t []) as [rc1 st1]. cbn [fst] in H1.
    apply Hfinal. exact H1.
Qed.

End Returned.

Lemma ssh_poll_zero_keeps_cells_witness :
  out_fds (ssh_poll win32 never_ready (Some mixed_cells) 4 50) = Some mixed_cells.
Proof.
  apply (ssh_poll_zero_keeps_cells win32 never_ready mixed_cells 4 50).
  vm_compute; reflexivity.
Defined.

Lemma ssh_poll_return_bounds_witness :
  -1 ≤ rc (ssh_poll win32 first_ready (Some mixed_cells) 4 0) ≤ 4.
Proof.
  destruct (ssh_poll_return_bounds win32 first_ready mixed_cells 4 0) as (H1 & _ & H3).
  - simpl; lia.
  - lia.
  - split; assumption.
Defined.

(** ** The handle set *)

(** The search loop of [ssh_poll]: it ends on the first index at or after
    [i] that holds [h], or at [i + n] when none of the [n] cells does. *)
Lemma find_handle_spec (n : nat) (i : Z) (hs : list Z) (h : Z) :
  let r := find_handle n i hs h in
  (r = i + Z.of_nat n ∧ ∀ j, i ≤ j < i + Z.of_nat n → nth (Z.to_nat j) hs 0 ≠ h) ∨
  (i ≤ r < i + Z.of_nat n ∧ nth (Z.to_nat r) hs 0 = h).
Proof.
  revert i. induction n as [|n IH]; intros i; cbn [find_handle].
  - left. split; [lia|]. intros j Hj. lia.
  - destruct (Z.eqb_spec (nth (Z.to_nat i) hs 0) h) as [Heq|Hne].
    + right. split; [lia|exact Heq].
    + destruct (IH (i + 1)) as [[Hr Hall]|[Hr Hat]].
      * left. split; [lia|]. intros j Hj.
        destruct (Z.eq_dec j i) as [->|Hji]; [exact Hne|]. apply Hall. lia.
      * right. split; [lia|exact Hat].
Qed.

Section HandleSet.

Variable K : winapi.

(** The gathering loop keeps the handles distinct, adds nothing but
    descriptors of the cells it reads, and, as long as the array is not
    full, misses no strictly positive descriptor. *)
Lemma collect_handles_distinct (fs : list pollfd.t) (hs : list Z) (n : Z) :
  0 ≤ n → (Z.to_nat n ≤ length hs)%nat →
  n + Z.of_nat (length fs) ≤ MAXIMUM_WAIT_OBJECTS K →
  (Z.to_nat (MAXIMUM_WAIT_OBJECTS K) ≤ length hs)%nat →
  NoDup (take (Z.to_nat n) hs) →
  let r := collect_handles K fs hs n in
  NoDup (take (Z.to_nat (snd r)) (fst r)) ∧
  (∀ h, h ∈ take (Z.to_nat (snd r)) (fst r) →
        h ∈ take (Z.to_nat n) hs ∨ ∃ f, f ∈ fs ∧ pollfd.fd f = h ∧ 0 < h) ∧
  (∀ h, h ∈ take (Z.to_nat n) hs → h ∈ take (Z.to_nat (snd r)) (fst r)) ∧
  (∀ f, f ∈ fs → 0 < pollfd.fd f → pollfd.fd f ∈ take (Z.to_nat (snd r)) (fst r)).
Proof.
  revert hs n. induction fs as [|f fs IH]; intros hs n Hn Hlen Hroom Hmax Hnd.
  { cbn. repeat split; auto. intros f Hf. inversion Hf. }
  cbn [length] in Hroom. cbn [collect_handles].
  assert (Hskip : let r := collect_handles K fs hs n in
            pollfd.fd f ≤ 0 ∨ pollfd.fd f ∈ take (Z.to_nat n) hs →
            NoDup (take (Z.to_nat (snd r)) (fst r)) ∧
            (∀ h, h ∈ take (Z.to_nat (snd r)) (fst r) →
                  h ∈ take (Z.to_nat n) hs ∨ ∃ g, g ∈ f :: fs ∧ pollfd.fd g = h ∧ 0 < h) ∧
            (∀ h, h ∈ take (Z.to_nat n) hs → h ∈ take (Z.to_nat (snd r)) (fst r)) ∧
            (∀ g, g ∈ f :: fs → 0 < pollfd.fd g →
                  pollfd.fd g ∈ take (Z.to_nat (snd r)) (fst r))).
  { intros r Hf. subst r.
    destruct (IH hs n Hn Hlen ltac:(lia) Hmax Hnd) as (H1 & H2 & H3 & H4).
    split; [exact H1|]. split; [|split; [exact H3|]].
    - intros h Hh. destruct (H2 h Hh) as [?|(g & Hg & ? & ?)]; [auto|].
      right. exists g. split; [right; exact Hg|auto].
    - intros g Hg Hpos. apply elem_of_cons in Hg as [->|Hg]; [|auto].
      destruct Hf as [Hf|Hf]; [lia|]. apply H3. exact Hf. }
  destruct (Z.gtb_spec (pollfd.fd f) 0) as [Hpos|Hnon]; [|apply Hskip; left; lia].
  pose proof (find_handle_spec (Z.to_nat n) 0 hs (pollfd.fd f)) as Hfind. cbv zeta in Hfind.
  destruct (Z.eqb_spec (find_handle (Z.to_nat n) 0 hs (pollfd.fd f)) n) as [Hnew|Hold].
  - destruct Hfind as [[_ Hall]|[Hr _]]; [|lia].
    assert (Hnotin : pollfd.fd f ∉ take (Z.to_nat n) hs).
    { intros Hin. apply elem_of_take in Hin as (j & Hj & Hjn).
      apply (Hall (Z.of_nat j)); [lia|]. rewrite Nat2Z.id.
      apply nth_lookup_Some. exact Hj. }
    destruct (Z.eqb_spec n (MAXIMUM_WAIT_OBJECTS K)) as [Hfull|_]; [lia|].
    assert (Htake : take (Z.to_nat (n + 1)) (<[Z.to_nat n := pollfd.fd f]> hs)
                    = take (Z.to_nat n) hs ++ [pollfd.fd f]).
    { replace (Z.to_nat (n + 1)) with (S (Z.to_nat n)) by lia.
      apply take_insert_snoc. lia. }
    destruct (IH (<[Z.to_nat n := pollfd.fd f]> hs) (n + 1))
      as (H1 & H2 & H3 & H4); try (rewrite ?length_insert; lia).
    { rewrite Htake. apply NoDup_app. split; [exact Hnd|].
      split; [|apply NoDup_singleton].
      intros x Hx Hx'. apply list_elem_of_singleton in Hx'. subst x. contradiction. }
    rewrite Htake in H2, H3.
    split; [exact H1|]. split; [|split].
    + intros h Hh. destruct (H2 h Hh) as [Hin|(g & Hg & ? & ?)].
      * apply elem_of_app in Hin as [Hin|Hin]; [auto|].
        apply list_elem_of_singleton in Hin. subst h.
        right. exists f. split; [left|auto].
      * right. exists g. split; [right; exact Hg|auto].
    + intros h Hh. apply H3. apply elem_of_app. auto.
    + intros g Hg Hgpos. apply elem_of_cons in Hg as [->|Hg]; [|auto].
      apply H3. apply elem_of_app. right. apply list_elem_of_singleton. reflexivity.
  - apply Hskip. right.
    destruct Hfind as [[Hr _]|[Hr Hat]]; [lia|].
    apply elem_of_take. exists (Z.to_nat (find_handle (Z.to_nat n) 0 hs (pollfd.fd f))).
    split; [|lia].
    destruct (nth_lookup_or_length hs (Z.to_nat (find_handle (Z.to_nat n) 0 hs (pollfd.fd f))) 0)
      as [Hl|Hl]; [|lia].
    rewrite Hl. f_equal. exact Hat.
Qed.

(** Membership in the gathered handle set. *)
Lemma handle_set_members (cells : list pollfd.t) (nfds : Z) :
  0 ≤ nfds < MAXIMUM_WAIT_OBJECTS K →
  let hs := take (Z.to_nat (snd (handle_set K cells nfds))) (fst (handle_set K cells nfds)) in
  NoDup hs ∧
  (∀ h, h ∈ hs → 0 < h ∧ ∃ f, f ∈ take (Z.to_nat nfds) cells ∧ pollfd.fd f = h) ∧
  (∀ f, f ∈ take (Z.to_nat nfds) cells → 0 < pollfd.fd f → pollfd.fd f ∈ hs).
Proof.
  intros Hnfds hs. subst hs. unfold handle_set.
  destruct (collect_handles_distinct (take (Z.to_nat nfds) cells)
              (replicate (Z.to_nat (MAXIMUM_WAIT_OBJECTS K)) 0) 0)
    as (H1 & H2 & _ & H4).
  - lia.
  - cbn. lia.
  - rewrite length_take. lia.
  - rewrite length_replicate. lia.
  - cbn. constructor.
  - split; [exact H1|]. split; [|exact H4].
    intros h Hh. destruct (H2 h Hh) as [Hin|(f & Hf & Hfd & Hpos)].
    + cbn in Hin. inversion Hin.
    + split; [exact Hpos|]. exists f. auto.
Qed.

(** X14: with fewer cells than the handle array has room for, the handle
    set [ssh_poll] waits on holds every strictly positive descriptor of the
    cells it reads, each exactly once, and nothing else. *)
Theorem handle_set_distinct_complete (cells : list pollfd.t) (nfds : Z) :
  0 ≤ nfds < MAXIMUM_WAIT_OBJECTS K →
  let hs := take (Z.to_nat (snd (handle_set K cells nfds))) (fst (handle_set K cells nfds)) in
  NoDup hs ∧
  ∀ h, h ∈ hs ↔ 0 < h ∧ ∃ f, f ∈ take (Z.to_nat nfds) cells ∧ pollfd.fd f = h.
Proof.
  intros Hnfds hs. subst hs.
  destruct (handle_set_members cells nfds Hnfds) as (Hnd & Hsound & Hcomplete).
  split; [exact Hnd|]. intros h. split.
  - apply Hsound.
  - intros (Hpos & f & Hf & <-). apply Hcomplete; assumption.
Qed.

End HandleSet.

Lemma handle_set_distinct_complete_witness :
  NoDup (take (Z.to_nat (snd (handle_set win32 mixed_cells 4)))
              (fst (handle_set win32 mixed_cells 4))) ∧
  7 ∈ take (Z.to_nat (snd (handle_set win32 mixed_cells 4)))
           (fst (handle_set win32 mixed_cells 4)).
Proof.
  destruct (handle_set_distinct_complete win32 mixed_cells 4) as [Hnd Hiff].
  - simpl; lia.
  - split; [exact Hnd|]. apply Hiff. split; [lia|].
    exists (pollfd.mk 7 1 0). split; [|reflexivity].
    simpl. left.
Defined.

(** ** Handles that are ready at once *)

(** The shifting loop of [poll_rest]: [n] passes from index [i] move the
    [n] cells from [i] on one place down. *)
Lemma shift_handles_moves (n i : nat) (hs : list Z) :
  (1 ≤ i)%nat → (i + n ≤ length hs)%nat →
  shift_handles n (Z.of_nat i) hs
  = take (i - 1) hs ++ take n (drop i hs) ++ drop (i - 1 + n) hs.
Proof.
  revert i hs. induction n as [|n IH]; intros i hs Hi Hlen.
  - cbn [shift_handles take app]. rewrite Nat.add_0_r. symmetry. apply take_drop.
  - cbn [shift_handles].
    destruct (lookup_lt_is_Some_2 hs i) as [x Hx]; [lia|].
    rewrite Nat2Z.id, (nth_lookup_Some _ _ _ _ Hx).
    replace (Z.to_nat (Z.of_nat i - 1)) with (i - 1)%nat by lia.
    replace (Z.of_nat i + 1) with (Z.of_nat (S i)) by lia.
    rewrite IH by (rewrite ?length_insert; lia).
    replace (S i - 1)%nat with (S (i - 1)) by lia.
    rewrite take_insert_snoc by lia.
    rewrite drop_insert_lt by lia.
    rewrite drop_insert_lt by lia.
    rewrite (drop_S _ _ _ Hx). cbn [take].
    rewrite <- !app_assoc. cbn [app].
    replace (S (i - 1) + n)%nat with (i - 1 + S n)%nat by lia. reflexivity.
Qed.

Lemma mark_fired_lookup (h nfds : Z) (fds : list pollfd.t) (j : nat) (f : pollfd.t) :
  fds !! j = Some f →
  mark_fired h nfds fds !! j
  = Some (if decide ((j < Z.to_nat nfds)%nat ∧ pollfd.fd f = h)
          then pollfd.set_revents (pollfd.events f) f else f).
Proof.
  intros Hf. unfold mark_fired. rewrite (lookup_prefix_fmap _ _ _ _ _ Hf).
  f_equal. destruct (decide (j < Z.to_nat nfds)%nat) as [Hj|Hj].
  - destruct (Z.eqb_spec (pollfd.fd f) h) as [Heq|Hne].
    + destruct (decide _) as [_|Hn]; [reflexivity|]. exfalso. apply Hn. auto.
    + destruct (decide _) as [[_ ?]|_]; [contradiction|reflexivity].
  - destruct (decide _) as [[? _]|_]; [contradiction|reflexivity].
Qed.

(** Marking for each of several handles sets the returned events of the
    cells below [nfds] whose descriptor is one of them, and of no other. *)
Lemma mark_all_lookup (hs : list Z) (nfds : Z) (fds : list pollfd.t) (j : nat)
    (f : pollfd.t) :
  fds !! j = Some f →
  mark_all hs nfds fds !! j
  = Some (if decide ((j < Z.to_nat nfds)%nat ∧ pollfd.fd f ∈ hs)
          then pollfd.set_revents (pollfd.events f) f else f).
Proof.
  revert fds f. induction hs as [|h hs IH]; intros fds f Hf; cbn [mark_all].
  - rewrite Hf. f_equal. destruct (decide _) as [[_ Hin]|_]; [inversion Hin|reflexivity].
  - rewrite (IH _ _ (mark_fired_lookup h nfds fds j f Hf)). f_equal.
    destruct f as [fd0 ev0 rev0].
    repeat case_decide; cbn [pollfd.set_revents pollfd.fd pollfd.events] in *;
      try reflexivity; exfalso; rewrite ?elem_of_cons in *; tauto.
Qed.

Section AllReady.

Variable K : winapi.
Variable wait : list syscall → Z → list Z → Z → Z → Z → Z.

Hypothesis Hsdk : sdk_like K.
Hypothesis Hfirst : ∀ log n hs a ms b, u32 (wait log n hs a ms b) = WAIT_OBJECT_0 K.

(** With every wait reporting its first handle, a zero-timeout
    [poll_rest] peels the handles off one by one and counts them all. *)
Lemma poll_rest_all_ready (k : nat) :
  ∀ (hs : list Z) (n : Z) (fds : list pollfd.t) (nfds : Z) (log : list syscall),
    Z.to_nat n = k → 1 ≤ n < 2 ^ 31 → (Z.to_nat n ≤ length hs)%nat →
    fst (poll_rest K wait hs n fds nfds 0 log) = n ∧
    st_fds (snd (poll_rest K wait hs n fds nfds 0 log))
    = mark_all (take (Z.to_nat n) hs) nfds fds.
Proof.
  destruct Hsdk as (HW & HF & HT & HI & _ & _ & _).
  induction k as [k IH] using lt_wf_ind.
  intros hs n fds nfds log Hk Hn Hlen.
  rewrite poll_rest_equation_1. unfold poll_rest_ready.
  replace (n =? 0) with false by (symmetry; apply Z.eqb_neq; lia).
  rewrite Hfirst, HW.
  replace (0 =? WAIT_FAILED K) with false by (symmetry; apply Z.eqb_neq; congruence).
  replace (0 =? WAIT_TIMEOUT K) with false by (symmetry; apply Z.eqb_neq; congruence).
  replace (0 =? WAIT_IO_COMPLETION K) with false by (symmetry; apply Z.eqb_neq; congruence).
  cbn [orb]. rewrite Z.add_0_l, (u32_small n) by lia.
  replace (0 <? n) with true by (symmetry; apply Z.ltb_lt; lia).
  change (0 >=? 0) with true. cbn [andb]. cbv zeta.
  change (u32 (0 - 0)) with 0. change (u32 (0 - 0 + 1)) with 1. change (i32 1) with 1.
  destruct (lookup_lt_is_Some_2 hs 0) as [h0 Hh0]; [lia|].
  change (Z.to_nat 0) with 0%nat. rewrite (nth_lookup_Some _ _ _ _ Hh0).
  destruct (decide (0 = 0 ∧ n > 1)) as [[_ Hgt]|Hsingle].
  - rewrite (u32_small (n - 1)) by lia.
    replace (0 <? n - 1) with true by (symmetry; apply Z.ltb_lt; lia).
    pose proof (shift_handles_moves (Z.to_nat (n - 1)) 1 hs ltac:(lia) ltac:(lia)) as Hshift.
    change (Z.of_nat 1) with 1 in Hshift. change (1 - 1)%nat with 0%nat in Hshift.
    rewrite take_0 in Hshift. cbn [app Nat.add] in Hshift. rewrite Hshift. clear Hshift.
    set (hs1 := take (Z.to_nat (n - 1)) (drop 1 hs) ++ drop (Z.to_nat (n - 1)) hs).
    match goal with |- context [poll_rest K wait hs1 (n - 1) ?f nfds 0 ?l] =>
      destruct (IH (Z.to_nat (n - 1)) ltac:(lia) hs1 (n - 1) f nfds l eq_refl ltac:(lia))
        as [Hrc Hfds];
      [subst hs1; rewrite length_app, length_take, !length_drop; lia|];
      destruct (poll_rest K wait hs1 (n - 1) f nfds 0 l) as [rr st]
    end.
    cbn [fst snd] in *.
    subst rr. replace (n - 1 <? 0) with false by (symmetry; apply Z.ltb_ge; lia).
    cbn [fst snd]. split; [lia|]. rewrite Hfds.
    assert (Htake : take (Z.to_nat n) hs = h0 :: take (Z.to_nat (n - 1)) hs1).
    { subst hs1.
      rewrite take_app_le by (rewrite length_take, length_drop; lia).
      rewrite take_take, Nat.min_id.
      replace (Z.to_nat n) with (S (Z.to_nat (n - 1))) by lia.
      destruct hs as [|x hs']; [discriminate Hh0|].
      cbn in Hh0. injection Hh0 as ->. reflexivity. }
    rewrite Htake. reflexivity.
  - assert (n = 1) as -> by lia. cbn [fst snd st_fds]. split; [reflexivity|].
    change (Z.to_nat 1) with 1%nat.
    destruct hs as [|x hs']; [discriminate Hh0|].
    cbn in Hh0. injection Hh0 as ->. reflexivity.
Qed.

(** X15: when every wait reports its first handle ready, a call with a
    zero timeout returns the number of distinct handles, and the cells that
    come back are the cells given with the returned events set to the
    requested events in every cell below [nfds] that has a strictly positive
    descriptor, and in no other cell. *)
Theorem ssh_poll_all_ready (cells : list pollfd.t) (nfds : Z) (j : nat) (f : pollfd.t) :
  0 ≤ nfds < MAXIMUM_WAIT_OBJECTS K →
  cells !! j = Some f →
  let r := ssh_poll K wait (Some cells) nfds 0 in
  rc r = snd (handle_set K cells nfds) ∧
  ∃ l, out_fds r = Some l ∧
       l !! j = Some (if decide ((j < Z.to_nat nfds)%nat ∧ 0 < pollfd.fd f)
                      then pollfd.set_revents (pollfd.events f) f else f).
Proof.
  intros Hnfds Hf r. subst r.
  pose proof Hsdk as (HW & HF & HT & HI & Hinf & HTF & Hmax).
  pose proof (handle_set_members K cells nfds Hnfds) as (_ & Hsound & Hcomplete).
  pose proof (collect_handles_count K (take (Z.to_nat nfds) cells)
                (replicate (Z.to_nat (MAXIMUM_WAIT_OBJECTS K)) 0) 0) as Hcount.
  pose proof (handle_set_positive K cells nfds ltac:(lia)) as (Hlen & Hn & _).
  unfold handle_set in *. unfold ssh_poll.
  replace (nfds >=? MAXIMUM_WAIT_OBJECTS K) with false
    by (rewrite Z.geb_leb; symmetry; apply Z.leb_gt; lia).
  destruct (collect_handles K _ _ 0) as [hs n]. cbn [fst snd] in *.
  change (0 =? -1) with false. cbn iota.
  assert (Hcell : ∀ l0 : list pollfd.t,
            l0 = mark_all (take (Z.to_nat n) hs) nfds cells →
            l0 !! j = Some (if decide ((j < Z.to_nat nfds)%nat ∧ 0 < pollfd.fd f)
                            then pollfd.set_revents (pollfd.events f) f else f)).
  { intros l0 ->. rewrite (mark_all_lookup _ _ _ _ _ Hf). f_equal.
    destruct (decide ((j < Z.to_nat nfds)%nat ∧ pollfd.fd f ∈ take (Z.to_nat n) hs))
      as [[Hj Hin]|Hno].
    - destruct (decide _) as [_|Hn2]; [reflexivity|].
      exfalso. apply Hn2. split; [exact Hj|]. apply Hsound in Hin. tauto.
    - destruct (decide _) as [[Hj Hpos]|_]; [|reflexivity].
      exfalso. apply Hno. split; [exact Hj|]. apply Hcomplete; [|exact Hpos].
      apply list_elem_of_lookup. exists j.
      rewrite lookup_take_lt by exact Hj. exact Hf. }
  destruct (Z.eq_dec n 0) as [->|Hn0].
  - change (0 >? 1) with false. cbn iota.
    rewrite poll_rest_equation_1. unfold poll_rest_ready.
    change (0 =? 0) with true. cbn iota. change (u32 0) with 0.
    replace (0 =? INFINITE K) with false by (symmetry; apply Z.eqb_neq; congruence).
    replace (WAIT_TIMEOUT K =? WAIT_FAILED K) with false
      by (symmetry; apply Z.eqb_neq; exact HTF).
    rewrite Z.eqb_refl. cbn [orb]. change (0 <? 0) with false. cbn iota. cbn [rc out_fds st_fds].
    split; [reflexivity|]. exists cells. split; [reflexivity|].
    apply Hcell. reflexivity.
  - assert (H1n : 1 ≤ n < 2 ^ 31) by lia.
    assert (Hroom : (Z.to_nat n ≤ length hs)%nat) by lia.
    pose proof (poll_rest_all_ready (Z.to_nat n) hs n cells nfds [] eq_refl H1n Hroom)
      as [Hrc Hfds].
    destruct (poll_rest K wait hs n cells nfds 0 []) as [rc1 st1]. cbn [fst snd] in Hrc, Hfds.
    subst rc1.
    destruct (n >? 1).
    + replace (n =? 0) with false by (symmetry; apply Z.eqb_neq; lia). cbn [andb].
      replace (n <? 0) with false by (symmetry; apply Z.ltb_ge; lia).
      cbn [rc out_fds]. split; [reflexivity|]. exists (st_fds st1). split; [reflexivity|].
      apply Hcell. exact Hfds.
    + replace (n <? 0) with false by (symmetry; apply Z.ltb_ge; lia).
      cbn [rc out_fds]. split; [reflexivity|]. exists (st_fds st1). split; [reflexivity|].
      apply Hcell. exact Hfds.
Qed.

End AllReady.

Lemma ssh_poll_all_ready_witness :
  rc (ssh_poll win32 first_ready (Some mixed_cells) 4 0) = 2 ∧
  ∃ l, out_fds (ssh_poll win32 first_ready (Some mixed_cells) 4 0) = Some l ∧
       l !! 2%nat = Some (pollfd.mk 9 4 4).
Proof.
  destruct (ssh_poll_all_ready win32 first_ready) with
    (cells := mixed_cells) (nfds := 4) (j := 2%nat) (f := pollfd.mk 9 4 0)
    as [Hrc (l & Hl & Hj)].
  - unfold sdk_like; simpl; lia.
  - intros; reflexivity.
  - simpl; lia.
  - reflexivity.
  - split; [exact Hrc|]. exists l. split; [exact Hl|exact Hj].
Defined.

(** ** One handle reported by a blocking wait *)

Section OneFired.

Variable K : winapi.
Variable wait : list syscall → Z → list Z → Z → Z → Z → Z.

Hypothesis Hsdk : sdk_like K.
Hypothesis Hcodes : codes_above_limit K.
Hypothesis Hinf : INFINITE K = 2 ^ 32 - 1.

(** One wait that reports object [k], with no recursion after it. *)
Lemma poll_rest_one_fired (hs : list Z) (n : Z) (fds : list pollfd.t)
    (nfds timeout : Z) (log : list syscall) (k : Z) :
  1 ≤ n ≤ MAXIMUM_WAIT_OBJECTS K → 0 ≤ k < n →
  ¬ (timeout = 0 ∧ n > 1) →
  u32 (wait log (u32 n) (take (Z.to_nat n) hs) 0 (u32 timeout) 1) = k →
  poll_rest K wait hs n fds nfds timeout log
  = (1, Emu hs (mark_fired (nth (Z.to_nat k) hs 0) nfds fds)
          (log ++ [WaitForMultipleObjectsEx (u32 n) (take (Z.to_nat n) hs) 0
                     (u32 timeout) 1])).
Proof.
  destruct Hsdk as (HW & _ & _ & _ & _ & _ & Hmax).
  destruct Hcodes as (HF & HT & HI).
  intros Hn Hk Hnorec Hwait.
  rewrite poll_rest_equation_1. unfold poll_rest_ready.
  replace (n =? 0) with false by (symmetry; apply Z.eqb_neq; lia).
  rewrite Hwait, HW.
  replace (k =? WAIT_FAILED K) with false by (symmetry; apply Z.eqb_neq; lia).
  replace (k =? WAIT_TIMEOUT K) with false by (symmetry; apply Z.eqb_neq; lia).
  replace (k =? WAIT_IO_COMPLETION K) with false by (symmetry; apply Z.eqb_neq; lia).
  cbn [orb]. rewrite Z.add_0_l, (u32_small n) by lia.
  replace (k >=? 0) with true by (rewrite Z.geb_leb; symmetry; apply Z.leb_le; lia).
  replace (k <? n) with true by (symmetry; apply Z.ltb_lt; lia).
  cbn [andb]. cbv zeta. rewrite Z.sub_0_r, (u32_small k) by lia.
  destruct (decide (timeout = 0 ∧ n > 1)) as [Hrec|_]; [contradiction|reflexivity].
Qed.

(** X16: when the wait that blocks reports object [k] (the only wait of a
    call with one distinct handle; after a probe that found nothing, with a
    timeout that is infinite or at least 10 milliseconds, when there are
    several), the call returns 1 without an error code, and the cells that
    come back are the cells given with the returned events set to the
    requested events in every cell below [nfds] whose descriptor is the
    [k]-th handle, and in no other cell. *)
Theorem ssh_poll_one_fired (cells : list pollfd.t) (nfds timeout : Z)
    (hs : list Z) (n k : Z) (j : nat) (f : pollfd.t) :
  - 2 ^ 31 ≤ timeout < 2 ^ 31 →
  0 ≤ nfds < MAXIMUM_WAIT_OBJECTS K →
  handle_set K cells nfds = (hs, n) →
  1 ≤ n →
  (n > 1 → fst (poll_rest K wait hs n cells nfds 0 []) = 0 ∧ (timeout = -1 ∨ 10 ≤ timeout)) →
  u32 (wait (if n >? 1
             then [WaitForMultipleObjectsEx (u32 n) (take (Z.to_nat n) hs) 0 0 1]
             else [])
            (u32 n) (take (Z.to_nat n) hs) 0 (u32 timeout) 1) = k →
  0 ≤ k < n →
  cells !! j = Some f →
  let r := ssh_poll K wait (Some cells) nfds timeout in
  rc r = 1 ∧ errno r = None ∧
  ∃ l, out_fds r = Some l ∧
       l !! j = Some (if decide ((j < Z.to_nat nfds)%nat ∧
                                 pollfd.fd f = nth (Z.to_nat k) hs 0)
                      then pollfd.set_revents (pollfd.events f) f else f).
Proof.
  intros Hint Hnfds Hset Hn Hmany Hwait Hk Hf r. subst r.
  pose proof Hsdk as (HW & _ & _ & _ & _ & _ & Hmax).
  assert (Hinf' : 0 ≤ INFINITE K < 2 ^ 32) by (rewrite Hinf; lia).
  pose proof (handle_set_positive K cells nfds ltac:(lia)) as (_ & Hle & _).
  rewrite Hset in Hle. cbn [fst snd] in Hle.
  set (t' := if timeout =? -1 then i32 (INFINITE K) else timeout).
  assert (Hu : u32 t' = u32 timeout).
  { subst t'. destruct (Z.eqb_spec timeout (-1)) as [->|_]; [|reflexivity].
    rewrite (u32_i32 _ Hinf'), Hinf. reflexivity. }
  assert (Hfinal : ∀ st : emu,
            st_fds st = mark_fired (nth (Z.to_nat k) hs 0) nfds cells →
            ∃ l, Some (st_fds st) = Some l ∧
                 l !! j = Some (if decide ((j < Z.to_nat nfds)%nat ∧
                                           pollfd.fd f = nth (Z.to_nat k) hs 0)
                                then pollfd.set_revents (pollfd.events f) f else f)).
  { intros st Hst. exists (st_fds st). split; [reflexivity|]. rewrite Hst.
    apply mark_fired_lookup. exact Hf. }
  unfold ssh_poll.
  replace (nfds >=? MAXIMUM_WAIT_OBJECTS K) with false
    by (rewrite Z.geb_leb; symmetry; apply Z.leb_gt; lia).
  unfold handle_set in Hset. rewrite Hset. fold t'.
  destruct (Z.gtb_spec n 1) as [Hgt|Hone].
  - destruct (Hmany ltac:(lia)) as [Hprobe Htime].
    rewrite (poll_rest_probe_zero K wait hs n cells nfds [] ltac:(lia) Hprobe).
    cbn [app st_handles st_fds st_log]. change (u32 0) with 0.
    assert (Hcond : (u32 t' =? INFINITE K) || (t' >=? 10) = true).
    { apply orb_true_iff. subst t'.
      destruct (Z.eqb_spec timeout (-1)) as [->|Hne].
      - left. rewrite (u32_i32 _ Hinf'). apply Z.eqb_refl.
      - right. rewrite Z.geb_leb. apply Z.leb_le. lia. }
    rewrite Hcond. cbn [andb Z.eqb].
    assert (Ht0 : ¬ (t' = 0 ∧ n > 1)).
    { intros [H0 _]. subst t'. destruct (Z.eqb_spec timeout (-1)) as [->|Hne]; [|lia].
      rewrite Hinf in H0. discriminate H0. }
    rewrite (poll_rest_one_fired hs n cells nfds t' _ k ltac:(lia) Hk Ht0)
      by (rewrite Hu; exact Hwait).
    cbn [Z.ltb Z.compare rc errno out_fds st_fds].
    split; [reflexivity|]. split; [reflexivity|].
    apply (Hfinal (Emu hs _ [])). reflexivity.
  - assert (Ht0 : ¬ (t' = 0 ∧ n > 1)) by lia.
    rewrite (poll_rest_one_fired hs n cells nfds t' _ k ltac:(lia) Hk Ht0)
      by (rewrite Hu; exact Hwait).
    cbn [Z.ltb Z.compare rc errno out_fds st_fds].
    split; [reflexivity|]. split; [reflexivity|].
    apply (Hfinal (Emu hs _ [])). reflexivity.
Qed.

End OneFired.

Lemma ssh_poll_one_fired_witness :
  rc (ssh_poll win32 second_after_probe (Some mixed_cells) 4 (-1)) = 1 ∧
  ∃ l, out_fds (ssh_poll win32 second_after_probe (Some mixed_cells) 4 (-1)) = Some l ∧
       l !! 2%nat = Some (pollfd.mk 9 4 4).
Proof.
  destruct (ssh_poll_one_fired win32 second_after_probe) with
    (cells := mixed_cells) (nfds := 4) (timeout := -1)
    (hs := fst (handle_set win32 mixed_cells 4)) (n := 2) (k := 1)
    (j := 2%nat) (f := pollfd.mk 9 4 0)
    as (Hrc & _ & l & Hl & Hj).
  - unfold sdk_like; simpl; lia.
  - unfold codes_above_limit; simpl; lia.
  - reflexivity.
  - lia.
  - simpl; lia.
  - vm_compute; reflexivity.
  - lia.
  - intros _. split; [vm_compute; reflexivity|left; reflexivity].
  - vm_compute; reflexivity.
  - lia.
  - reflexivity.
  - split; [exact Hrc|]. exists l. split; [exact Hl|exact Hj].
Defined.

(** ** How many system calls a wait makes *)

Section CallBound.

Variable K : winapi.
Variable wait : list syscall → Z → list Z → Z → Z → Z → Z.

(** [poll_rest] adds at most one system call for each handle it is given,
    and at most one when it is given none. *)
Lemma poll_rest_call_bound (k : nat) :
  ∀ (hs : list Z) (n : Z) (fds : list pollfd.t) (nfds timeout : Z) (log : list syscall),
    Z.to_nat n = k →
    Z.of_nat (length (st_log (snd (poll_rest K wait hs n fds nfds timeout log))))
    ≤ Z.of_nat (length log) + Z.max 1 n.
Proof.
  induction k as [k IH] using lt_wf_ind.
  intros hs n fds nfds timeout log Hk.
  rewrite poll_rest_equation_1.
  assert (Hready : Z.of_nat (length (snd (poll_rest_ready K wait hs n timeout log)))
                   ≤ Z.of_nat (length log) + 1).
  { unfold poll_rest_ready. destruct (n =? 0).
    - destruct (_ =? INFINITE K); cbn [snd]; rewrite ?length_app; cbn [length]; lia.
    - cbn [snd]. rewrite length_app. cbn [length]. lia. }
  destruct (poll_rest_ready K wait hs n timeout log) as [ready log1]. cbn [snd] in Hready.
  destruct (ready =? WAIT_FAILED K); [cbn [snd st_log]; lia|].
  destruct ((ready =? WAIT_TIMEOUT K) || (ready =? WAIT_IO_COMPLETION K));
    [cbn [snd st_log]; lia|].
  destruct ((ready >=? WAIT_OBJECT_0 K) && (ready <? u32 (WAIT_OBJECT_0 K + n)));
    [|cbn [snd st_log]; lia].
  cbv zeta.
  destruct (decide (timeout = 0 ∧ n > 1)) as [[_ Hgt]|_]; [|cbn [snd st_log]; lia].
  match goal with |- context [poll_rest K wait ?h (n - 1) ?f nfds 0 log1] =>
    pose proof (IH (Z.to_nat (n - 1)) ltac:(lia) h (n - 1) f nfds 0 log1 eq_refl) as Hrec;
    destruct (poll_rest K wait h (n - 1) f nfds 0 log1) as [rr st]
  end.
  cbn [snd] in Hrec. destruct (rr <? 0); cbn [snd]; lia.
Qed.

(** X17: a call makes at most one system call for each distinct handle it
    gathered, and at most one when it gathered none. *)
Theorem ssh_poll_call_bound (cells : list pollfd.t) (nfds timeout : Z) :
  INFINITE K ≠ 0 →
  Z.of_nat (length (calls (ssh_poll K wait (Some cells) nfds timeout)))
  ≤ Z.max 1 (snd (handle_set K cells nfds)).
Proof.
  intros Hinf. unfold ssh_poll, handle_set.
  destruct (nfds >=? MAXIMUM_WAIT_OBJECTS K); [cbn [calls length]; lia|].
  destruct (collect_handles K _ _ 0) as [hs n]. cbn [snd].
  set (t' := if timeout =? -1 then i32 (INFINITE K) else timeout).
  destruct (Z.gtb_spec n 1) as [Hgt|Hone].
  - pose proof (poll_rest_call_bound (Z.to_nat n) hs n cells nfds 0 [] eq_refl) as Hprobe.
    destruct (Z.eq_dec (fst (poll_rest K wait hs n cells nfds 0 [])) 0) as [Hzero|Hnz].
    + rewrite (poll_rest_probe_zero K wait hs n cells nfds [] ltac:(lia) Hzero).
      cbn [app st_handles st_fds st_log Z.eqb andb].
      destruct ((u32 t' =? INFINITE K) || (t' >=? 10)) eqn:Hcond.
      * assert (Ht0 : t' ≠ 0).
        { intros H0. rewrite H0 in Hcond. change (u32 0) with 0 in Hcond.
          apply orb_true_iff in Hcond as [Heq|Hge].
          - apply Z.eqb_eq in Heq. congruence.
          - discriminate Hge. }
        match goal with |- context [poll_rest K wait hs n cells nfds t' ?l] =>
          pose proof (poll_rest_single_wait K wait hs n cells nfds t' l ltac:(lia) Ht0) as Hlog;
          destruct (poll_rest K wait hs n cells nfds t' l) as [rc2 st2]
        end.
        cbn [snd] in Hlog.
        destruct (rc2 <? 0); cbn [calls]; rewrite Hlog; cbn [app length]; lia.
      * cbn [Z.ltb Z.compare calls st_log length]. lia.
    + destruct (poll_rest K wait hs n cells nfds 0 []) as [rc1 st1].
      cbn [fst snd length] in *.
      replace (rc1 =? 0) with false by (symmetry; apply Z.eqb_neq; exact Hnz).
      cbn [andb]. destruct (rc1 <? 0); cbn [calls]; lia.
  - pose proof (poll_rest_call_bound (Z.to_nat n) hs n cells nfds t' [] eq_refl) as Hb.
    destruct (poll_rest K wait hs n cells nfds t' []) as [rc1 st1].
    cbn [snd length] in Hb. destruct (rc1 <? 0); cbn [calls]; lia.
Qed.

End CallBound.

Lemma ssh_poll_call_bound_witness :
  Z.of_nat (length (calls (ssh_poll win32 first_ready (Some mixed_cells) 4 0)))
  ≤ Z.max 1 (snd (handle_set win32 mixed_cells 4)).
Proof.
  apply (ssh_poll_call_bound win32 first_ready mixed_cells 4 0).
  simpl; lia.
Defined.
